(** * InspectPCB: annotation conversion and dataset split

    A shallow embedding of the dataset pipeline of the InspectPCB
    repository (convert_deeppcb.py, prepare_data.py and the sibling
    pipeline fix_and_setup_dataset.py), and the properties its
    specification states about it.

    Python values are modelled as follows.
    - [int] is [Z] (unbounded).
    - [float] is IEEE 754 binary64, through the executable reference
      implementation [SpecFloat] of the standard library, instantiated
      at precision 53 and maximal exponent 1024.  Operations that raise
      in Python ([int / int] overflowing, [int(inf)]) return [Raise].
    - [str] is [string]; the text is assumed to be ASCII, so the
      whitespace and digit classes are the ASCII parts of Python's.
    - The file system is a finite map from path names to nodes.
    - [random.shuffle] is the Fisher-Yates loop of CPython, driven by
      an arbitrary stream of raw random draws. *)

From Stdlib Require Import ZArith QArith Qabs Qpower Qfield Lia Lqa Bool List.
From Stdlib Require Import Ascii String DecimalString.
From Stdlib Require Import Floats.SpecFloat.
From stdpp Require Import gmap strings list.

(** ** Python exceptions *)

Module Py.

Inductive exn : Type :=
| ZeroDivisionError
| OverflowError
| ValueError
| FileNotFoundError
| IsADirectoryError
| NotADirectoryError
| FileExistsError
| SameFileError
| UnidentifiedImageError.

Inductive result (A : Type) : Type :=
| Ok (a : A)
| Raise (e : exn).
Arguments Ok {A} a.
Arguments Raise {A} e.

(** Sequencing: an exception propagates.  The notation [x ← r; k] of
    stdpp is used for it. *)
#[global] Instance result_bind : MBind result := fun A B k r =>
  match r with
  | Ok a => k a
  | Raise e => Raise e
  end.

#[global] Instance result_ret : MRet result := fun A a => Ok a.

(** A [for] loop whose body may raise: the first exception ends it. *)
Fixpoint for_each {S X : Type} (body : S -> X -> result S) (xs : list X) (s : S)
  : result S :=
  match xs with
  | [] => Ok s
  | x :: xs' => s' ← body s x; for_each body xs' s'
  end.

Definition is_ok {A : Type} (r : result A) : bool :=
  match r with Ok _ => true | Raise _ => false end.

End Py.

(** ** Python floats: IEEE 754 binary64 *)

Module Binary64.
Import Py.
Local Open Scope Z_scope.

Definition prec : Z := 53.
Definition emax : Z := 1024.

Abbreviation float := spec_float.

Definition fadd : float -> float -> float := SFadd prec emax.
Definition fmul : float -> float -> float := SFmul prec emax.
Definition fdiv : float -> float -> float := SFdiv prec emax.

(** The double nearest to an integer (ties to even); infinite when the
    integer is beyond the range of doubles. *)
Definition of_Z (n : Z) : float := binary_normalize prec emax n 0 false.

(** The rational number a finite double denotes (0 for the others). *)
Definition SF2Q (f : float) : Q :=
  match f with
  | S754_finite s m e => ((if s then -1 else 1) * inject_Z (Zpos m) * 2 ^ e)%Q
  | _ => 0%Q
  end.

Definition is_zero (f : float) : bool :=
  match f with S754_zero _ => true | _ => false end.

Definition is_finite (f : float) : bool :=
  match f with S754_zero _ | S754_finite _ _ _ => true | _ => false end.

(** The float literals of the sources, each the double nearest to the
    decimal written in the program text. *)
Definition lit_0_7 : float := S754_finite false 6305039478318694 (-53).
Definition lit_0_2 : float := S754_finite false 7205759403792794 (-55).
Definition lit_0_1 : float := S754_finite false 7205759403792794 (-56).
Definition lit_0_9 : float := S754_finite false 8106479329266893 (-53).

(** [float(n)] for an [int]: raises when [n] is too large. *)
Definition float_of_int (n : Z) : result float :=
  match of_Z n with
  | S754_infinity _ => Raise OverflowError
  | f => Ok f
  end.

(** [a / b] on two [int]s: the correctly rounded quotient. *)
Definition int_truediv (a b : Z) : result float :=
  if b =? 0 then Raise ZeroDivisionError
  else if a =? 0 then Ok (S754_zero (b <? 0))
  else
    match fdiv (S754_finite (a <? 0) (Z.to_pos (Z.abs a)) 0)
               (S754_finite (b <? 0) (Z.to_pos (Z.abs b)) 0) with
    | S754_infinity _ => Raise OverflowError
    | f => Ok f
    end.

(** [x / n] on a [float] and an [int]. *)
Definition float_truediv_int (x : float) (n : Z) : result float :=
  d ← float_of_int n;
  if is_zero d then Raise ZeroDivisionError else Ok (fdiv x d).

(** [n * x] on an [int] and a [float]. *)
Definition int_mul_float (n : Z) (x : float) : result float :=
  d ← float_of_int n; Ok (fmul d x).

(** Truncation of [m * 2^e] toward zero, for [0 <= m]. *)
Definition trunc_pos (m e : Z) : Z :=
  if 0 <=? e then m * 2 ^ e else m / 2 ^ (- e).

(** [int(x)] on a [float]. *)
Definition int_of_float (x : float) : result Z :=
  match x with
  | S754_zero _ => Ok 0
  | S754_finite s m e => Ok (cond_Zopp s (trunc_pos (Zpos m) e))
  | S754_infinity _ => Raise OverflowError
  | S754_nan => Raise ValueError
  end.

(** [int(n * x)] on an [int] and a [float] *)
Definition int_of_product (n : Z) (x : float) : result Z :=
  t ← int_mul_float n x; int_of_float t.

(** Quotient of [a] by [b > 0] rounded to the nearest integer, ties to
    even. *)
Definition round_half_even_div (a b : Z) : Z :=
  let q := a / b in
  let r := a mod b in
  match 2 * r ?= b with
  | Lt => q
  | Gt => q + 1
  | Eq => if Z.even q then q else q + 1
  end.

(** The magnitude of a finite double in millionths, rounded to the
    nearest integer (ties to even): what the format [.6f] prints. *)
Definition micro_units (m : positive) (e : Z) : Z :=
  if 0 <=? e then Zpos m * 1000000 * 2 ^ e
  else round_half_even_div (Zpos m * 1000000) (2 ^ (- e)).

(** Relative rounding error bound of binary64: 2^-53. *)
Definition ulp_rel : Q := 1 # 9007199254740992.

(** Helpers of the rounding analysis: the position of [R / D] in
    [[0, 1)], and the invariant of the shift register. *)
Definition loc_of (R D : Z) : location :=
  if R =? 0 then loc_Exact else loc_Inexact (2 * R ?= D).

Definition located (mrs : shr_record) (N D : Z) : Prop :=
  shr_m mrs = N / D /\ loc_of_shr_record mrs = loc_of (N mod D) D.

End Binary64.

(** ** Python strings (ASCII) *)

Module PyStr.
Local Open Scope string_scope.

Definition code (c : ascii) : N := N_of_ascii c.

(** [str.isspace] on one ASCII character: used by [strip] and [split]. *)
Definition isspace (c : ascii) : bool :=
  let n := code c in
  ((9 <=? n) && (n <=? 13) || (28 <=? n) && (n <=? 32))%N.

(** Whitespace skipped by [int()] around the number. *)
Definition isspace_c (c : ascii) : bool :=
  let n := code c in
  ((9 <=? n) && (n <=? 13) || (n =? 32))%N.

Definition isdigit (c : ascii) : bool :=
  let n := code c in ((48 <=? n) && (n <=? 57))%N.

Definition digit_value (c : ascii) : Z := Z.of_N (code c) - 48.

Definition is_empty (s : string) : bool :=
  match s with EmptyString => true | String _ _ => false end.

Fixpoint lstrip_with (sp : ascii -> bool) (s : string) : string :=
  match s with
  | EmptyString => EmptyString
  | String c s' => if sp c then lstrip_with sp s' else s
  end.

Fixpoint rstrip_with (sp : ascii -> bool) (s : string) : string :=
  match s with
  | EmptyString => EmptyString
  | String c s' =>
      let r := rstrip_with sp s' in
      if is_empty r && sp c then EmptyString else String c r
  end.

(** [s.strip()] *)
Definition strip (s : string) : string := rstrip_with isspace (lstrip_with isspace s).

(** [c in s] for a single character *)
Fixpoint contains_char (c : ascii) (s : string) : bool :=
  match s with
  | EmptyString => false
  | String c' s' => Ascii.eqb c c' || contains_char c s'
  end.

(** [s.split(sep)] for a one-character separator: empty fields are kept. *)
Fixpoint split_on (sep : ascii) (s : string) : list string :=
  match s with
  | EmptyString => [EmptyString]
  | String c s' =>
      if Ascii.eqb c sep then EmptyString :: split_on sep s'
      else
        match split_on sep s' with
        | h :: t => String c h :: t
        | [] => [String c EmptyString]
        end
  end.

(** [s.split()]: runs of whitespace separate, empty fields are dropped.
    The auxiliary function returns the word in progress and the words
    after it. *)
Fixpoint split_ws_aux (s : string) : string * list string :=
  match s with
  | EmptyString => (EmptyString, [])
  | String c s' =>
      let '(w, ws) := split_ws_aux s' in
      if isspace c then (EmptyString, if is_empty w then ws else w :: ws)
      else (String c w, ws)
  end.

Definition split_ws (s : string) : list string :=
  let '(w, ws) := split_ws_aux s in if is_empty w then ws else w :: ws.

(** The digits of a decimal literal: single underscores are allowed
    between digits.  [prev] tells whether the previous character was a
    digit. *)
Fixpoint parse_digits (s : string) (acc : Z) (prev : bool) : option Z :=
  match s with
  | EmptyString => if prev then Some acc else None
  | String c s' =>
      if isdigit c then parse_digits s' (10 * acc + digit_value c)%Z true
      else if Ascii.eqb c "_" then
        if prev then parse_digits s' acc false else None
      else None
  end.

(** CPython (3.11 and later) refuses to convert a decimal literal of
    more than [sys.get_int_max_str_digits()] digits, 4300 unless the
    interpreter is configured otherwise; underscores and the sign are
    not counted. *)
Definition max_str_digits : Z := 4300.

Fixpoint count_digits (s : string) : Z :=
  match s with
  | EmptyString => 0
  | String c s' => ((if isdigit c then 1 else 0) + count_digits s')%Z
  end.

Definition parse_literal (r : string) : option Z :=
  if (max_str_digits <? count_digits r)%Z then None else parse_digits r 0 false.

(** [int(s)]: [None] stands for [ValueError]. *)
Definition parse_int (s : string) : option Z :=
  match rstrip_with isspace_c (lstrip_with isspace_c s) with
  | String "+" r => parse_literal r
  | String "-" r => Z.opp <$> parse_literal r
  | r => parse_literal r
  end.

(** [s.startswith(p)] and [s.endswith(p)] *)
Definition startswith (p s : string) : bool := String.prefix p s.

Definition endswith (p s : string) : bool :=
  String.prefix (String.rev p) (String.rev s).

(** [p in s] for strings *)
Fixpoint is_substring (p s : string) : bool :=
  String.prefix p s ||
  match s with
  | EmptyString => false
  | String _ s' => is_substring p s'
  end.

(** [s.replace(old, "")] for a non-empty [old]: [skip] counts the
    characters of a match still to be dropped. *)
Fixpoint remove_all_aux (old : string) (skip : nat) (s : string) : string :=
  match s with
  | EmptyString => EmptyString
  | String c s' =>
      match skip with
      | S k => remove_all_aux old k s'
      | O =>
          if String.prefix old s then remove_all_aux old (String.length old - 1) s'
          else String c (remove_all_aux old O s')
      end
  end.

Definition remove_all (old s : string) : string := remove_all_aux old 0 s.

(** [str(n)] for an [int] *)
Definition str_of_Z (n : Z) : string := NilZero.string_of_int (Z.to_int n).

(** Exactly six decimal digits of [0 <= n < 10^6] *)
Definition digit_char (d : Z) : ascii := ascii_of_N (Z.to_N (48 + d mod 10)).

Definition six_digits (n : Z) : string :=
  String (digit_char (n / 100000))
 (String (digit_char (n / 10000))
 (String (digit_char (n / 1000))
 (String (digit_char (n / 100))
 (String (digit_char (n / 10))
 (String (digit_char n) EmptyString))))).

(** ** Paths ([os.path]) *)

Definition slash : ascii := "/".
Definition dot : ascii := ".".

(** The part after the last separator, and the part before it. *)
Fixpoint basename (p : string) : string :=
  match p with
  | EmptyString => EmptyString
  | String c p' => if contains_char slash p then
                     (if Ascii.eqb c slash && negb (contains_char slash p')
                      then p' else basename p')
                   else p
  end.

Fixpoint dirname (p : string) : string :=
  match p with
  | EmptyString => EmptyString
  | String c p' =>
      if contains_char slash p' then String c (dirname p')
      else EmptyString
  end.

(** [os.path.join a b] *)
Definition join (a b : string) : string :=
  if startswith "/" b then b
  else if is_empty a || endswith "/" a then a +:+ b
  else a +:+ "/" +:+ b.

(** [os.path.splitext]: the extension starts at the last dot of the
    name, unless only dots precede it. [seen] tells whether a character
    other than a dot came before. *)
Fixpoint splitext_aux (seen : bool) (s : string) : string * string :=
  match s with
  | EmptyString => (EmptyString, EmptyString)
  | String c s' =>
      let is_dot := Ascii.eqb c dot in
      if is_dot && seen && negb (contains_char dot s') then (EmptyString, s)
      else
        let '(root, ext) := splitext_aux (seen || negb is_dot) s' in
        (String c root, ext)
  end.

Definition splitext (p : string) : string * string :=
  let d := dirname p in
  let '(root, ext) := splitext_aux false (basename p) in
  (if contains_char slash p then d +:+ "/" +:+ root else root, ext).

End PyStr.

(** ** The file system *)

Module FS.
Import Py PyStr.
Local Open Scope string_scope.

(** A regular file is seen through two views: the lines a text-mode
    read yields, and the pixel size PIL reports when the file is an
    image it can open ([None] when [Image.open] raises). *)
Record file : Type := mkFile {
  f_lines : list string;
  f_image : option (Z * Z)
}.

Inductive node : Type :=
| Dir
| File (f : file).

(** Paths are relative to the working directory, which exists. *)
Abbreviation fs := (gmap string node).

Definition text_file (ls : list string) : file := mkFile ls None.

Definition exists_ (st : fs) (p : string) : bool := bool_decide (is_Some (st !! p)).

Definition isdir (st : fs) (p : string) : bool :=
  match st !! p with Some Dir => true | _ => false end.

Definition parent_ok (st : fs) (p : string) : bool :=
  is_empty (dirname p) || isdir st (dirname p).

(** The name of [k] inside directory [d], when [k] is an entry of [d]. *)
Definition child_name (d k : string) : option string :=
  if startswith (d +:+ "/") k then
    let n := String.substring (String.length d + 1)
               (String.length k - (String.length d + 1)) k in
    if is_empty n || contains_char slash n then None else Some n
  else None.

(** [os.listdir d]; the order is that of the map's keys. *)
Definition listdir (st : fs) (d : string) : result (list string) :=
  match st !! d with
  | Some Dir => Ok (omap (child_name d) (map_to_list st).*1)
  | Some (File _) => Raise NotADirectoryError
  | None => Raise FileNotFoundError
  end.

Definition entries (st : fs) (d : string) : list string :=
  match listdir st d with Ok ns => ns | Raise _ => [] end.

(** [glob.glob(os.path.join(d, '*' + suffix))]: hidden names do not
    match, and a missing directory gives no match. *)
Definition glob_suffix (st : fs) (d suffix : string) : list string :=
  (fun n => d +:+ "/" +:+ n) <$>
    filter (fun n => negb (startswith "." n) && endswith suffix n = true) (entries st d).

(** [os.makedirs(p, exist_ok=True)], given the chain of directories
    from the outermost to [p]. *)
Fixpoint makedirs (st : fs) (chain : list string) : result fs :=
  match chain with
  | [] => Ok st
  | d :: rest =>
      match st !! d with
      | Some (File _) => Raise FileExistsError
      | _ => makedirs (<[d := Dir]> st) rest
      end
  end.

(** [open(p, 'r')], then reading: the lines of the file. *)
Definition open_read (st : fs) (p : string) : result (list string) :=
  match st !! p with
  | Some (File f) => Ok (f_lines f)
  | Some Dir => Raise IsADirectoryError
  | None => Raise FileNotFoundError
  end.

(** [open(p, 'w')]: the file is created, or emptied when it exists. *)
Definition open_write (st : fs) (p : string) : result fs :=
  match st !! p with
  | Some Dir => Raise IsADirectoryError
  | _ =>
      if is_empty p || negb (parent_ok st p) then Raise FileNotFoundError
      else Ok (<[p := File (text_file [])]> st)
  end.

(** [f.write(line)] on a file opened for writing at [p] *)
Definition write_line (st : fs) (p : string) (line : string) : fs :=
  match st !! p with
  | Some (File f) => <[p := File (mkFile (f_lines f ++ [line]) (f_image f))]> st
  | _ => st
  end.

(** [Image.open(p).size] *)
Definition image_size (st : fs) (p : string) : result (Z * Z) :=
  match st !! p with
  | Some (File f) =>
      match f_image f with
      | Some wh => Ok wh
      | None => Raise UnidentifiedImageError
      end
  | Some Dir => Raise IsADirectoryError
  | None => Raise FileNotFoundError
  end.

(** Where [shutil.copy2(src, dst)] writes: into [dst] when it is a
    directory. *)
Definition copy_target (st : fs) (src dst : string) : string :=
  if isdir st dst then join dst (basename src) else dst.

(** [shutil.copy2(src, dst)] *)
Definition copy2 (st : fs) (src dst : string) : result fs :=
  match st !! src with
  | Some (File f) =>
      let dst' := copy_target st src dst in
      if bool_decide (src = dst') then Raise SameFileError
      else
        match st !! dst' with
        | Some Dir => Raise IsADirectoryError
        | _ =>
            if is_empty dst' || negb (parent_ok st dst') then Raise FileNotFoundError
            else Ok (<[dst' := File f]> st)
        end
  | Some Dir => Raise IsADirectoryError
  | None => Raise FileNotFoundError
  end.

End FS.

(** ** The annotation converter (convert_deeppcb.py, fix_and_setup_dataset.py) *)

Module Converter.
Import Py PyStr Binary64 FS.
Local Open Scope string_scope.
Local Open Scope Z_scope.

(** [if class_id > 0: class_id -= 1] *)
Definition remap_class (class_id : Z) : Z :=
  if 0 <? class_id then class_id - 1 else class_id.

(** The four normalised values, in the order the source computes them:
    [center_x = ((x1 + x2) / 2) / w], [center_y = ((y1 + y2) / 2) / h],
    [bbox_width = (x2 - x1) / w], [bbox_height = (y2 - y1) / h]. *)
Definition normalize (x1 y1 x2 y2 w h : Z) : result (float * float * float * float) :=
  sx ← int_truediv (x1 + x2) 2;
  center_x ← float_truediv_int sx w;
  sy ← int_truediv (y1 + y2) 2;
  center_y ← float_truediv_int sy h;
  bbox_width ← int_truediv (x2 - x1) w;
  bbox_height ← int_truediv (y2 - y1) h;
  Ok (center_x, center_y, bbox_width, bbox_height).

(** The same formulas read over the rationals, as the specification
    writes them. *)
Definition normalize_exact (x1 y1 x2 y2 w h : Z) : Q * Q * Q * Q :=
  let q := inject_Z in
  (((q x1 + q x2) / 2) / q w,
   ((q y1 + q y2) / 2) / q h,
   (q x2 - q x1) / q w,
   (q y2 - q y1) / q h)%Q.

(** A double that is a number of the interval [[0, 1]]. *)
Definition in_unit_interval (x : float) : Prop :=
  is_finite x = true /\ (0 <= SF2Q x <= 1)%Q.

(** The denormalisation of the specification:
    [x1' = (cx - bw/2) * w], [y1' = (cy - bh/2) * h],
    [x2' = (cx + bw/2) * w], [y2' = (cy + bh/2) * h]. *)
Definition denormalize (cx cy bw bh : Q) (w h : Z) : Q * Q * Q * Q :=
  let q := inject_Z in
  ((cx - bw / 2) * q w, (cy - bh / 2) * q h,
   (cx + bw / 2) * q w, (cy + bh / 2) * q h)%Q.

(** [f"{x:.6f}"] *)
Definition format_6f (x : float) : string :=
  match x with
  | S754_nan => "nan"
  | S754_infinity s => if s then "-inf" else "inf"
  | S754_zero s => (if s then "-" else "") +:+ "0.000000"
  | S754_finite s m e =>
      let u := micro_units m e in
      (if s then "-" else "") +:+ str_of_Z (u / 1000000) +:+ "." +:+
      six_digits (u mod 1000000)
  end.

(** The number a persisted coordinate denotes. *)
Definition persisted (x : float) : Q :=
  match x with
  | S754_finite s m e => (if s then -1 else 1) * (inject_Z (micro_units m e) / 1000000)
  | _ => 0
  end%Q.

Definition newline : string := String (ascii_of_nat 10) EmptyString.

(** [f"{class_id} {center_x:.6f} {center_y:.6f} {bbox_width:.6f} {bbox_height:.6f}\n"] *)
Definition format_record (class_id : Z) (cx cy bw bh : float) : string :=
  str_of_Z class_id +:+ " " +:+ format_6f cx +:+ " " +:+ format_6f cy +:+ " " +:+
  format_6f bw +:+ " " +:+ format_6f bh +:+ newline.

(** [line.split(',') if ',' in line else line.split()] *)
Definition fields (line : string) : list string :=
  if contains_char "," line then split_on "," line else split_ws line.

(** [x1, y1, x2, y2, class_id = map(int, parts[:5])]; [None] stands for
    the [ValueError] of a field that is not an integer. *)
Definition ints5 (parts : list string) : option (Z * Z * Z * Z * Z) :=
  match parse_int <$> take 5 parts with
  | [Some x1; Some y1; Some x2; Some y2; Some class_id] =>
      Some (x1, y1, x2, y2, class_id)
  | _ => None
  end.

(** A stripped line parses when it has at least five fields and the
    first five are integers. *)
Definition parse_line (line : string) : option (Z * Z * Z * Z * Z) :=
  let parts := fields line in
  if (5 <=? length parts)%nat then ints5 parts else None.

(** The text written for a parsed record; the arithmetic may raise. *)
Definition record_line (w h : Z) (r : Z * Z * Z * Z * Z) : result string :=
  let '(x1, y1, x2, y2, class_id) := r in
  '(cx, cy, bw, bh) ← normalize x1 y1 x2 y2 w h;
  Ok (format_record (remap_class class_id) cx cy bw bh).

(** One iteration of the loop of [convert_annotation_file]:
    [Ok None] when nothing is written ([continue], a short line, or a
    [ValueError] caught by the inner handler), [Ok (Some s)] when [s]
    is written, [Raise] for an exception the inner handler lets
    through. *)
Definition convert_line (w h : Z) (raw : string) : result (option string) :=
  let line := strip raw in
  if is_empty line then Ok None
  else
    let parts := fields line in
    if (5 <=? length parts)%nat then
      match ints5 parts with
      | Some r => s ← record_line w h r; Ok (Some s)
      | None => Ok None
      end
    else Ok None.

(** The loop over the lines: the state and whether the loop ran to its
    end. *)
Fixpoint write_lines (w h : Z) (out : string) (lines : list string) (st : fs)
  : fs * bool :=
  match lines with
  | [] => (st, true)
  | raw :: rest =>
      match convert_line w h raw with
      | Raise _ => (st, false)
      | Ok None => write_lines w h out rest st
      | Ok (Some s) => write_lines w h out rest (write_line st out s)
      end
  end.

(** [convert_annotation_file(annotation_file, image_file, output_file)]
    of convert_deeppcb.py.  The annotation file is opened before the
    output file, and read after it: the returned flag and the new
    state. *)
Definition convert_annotation_file (st : fs) (annotation_file image_file output_file : string)
  : bool * fs :=
  match image_size st image_file with
  | Raise _ => (false, st)
  | Ok (w, h) =>
      match open_read st annotation_file with
      | Raise _ => (false, st)
      | Ok _ =>
          match open_write st output_file with
          | Raise _ => (false, st)
          | Ok st1 =>
              match open_read st1 annotation_file with
              | Raise _ => (false, st1)
              | Ok lines =>
                  let '(st2, finished) := write_lines w h output_file lines st1 in
                  (finished, st2)
              end
          end
      end
  end.

(** What the loop writes, as a function of the lines alone: the text and
    whether the loop ran to its end. *)
Fixpoint emit (w h : Z) (lines : list string) : list string * bool :=
  match lines with
  | [] => ([], true)
  | raw :: rest =>
      match convert_line w h raw with
      | Raise _ => ([], false)
      | Ok None => emit w h rest
      | Ok (Some s) => let '(written, finished) := emit w h rest in (s :: written, finished)
      end
  end.

(** A line is malformed when, stripped, it does not parse: fewer than
    five fields, or one of the first five is not an integer. *)
Definition malformed (raw : string) : Prop := parse_line (strip raw) = None.


(** The loop body of [convert_annotation] of fix_and_setup_dataset.py:
    the length test is outside the [try], the handler catches
    [ValueError] only. *)
Definition convert_line' (w h : Z) (raw : string) : result (option string) :=
  let line := strip raw in
  if is_empty line then Ok None
  else
    let parts := fields line in
    if (5 <=? length parts)%nat then
      match ints5 parts with
      | None => Ok None
      | Some r => s ← record_line w h r; Ok (Some s)
      end
    else Ok None.

Fixpoint write_lines' (w h : Z) (out : string) (lines : list string) (st : fs)
  : fs * bool :=
  match lines with
  | [] => (st, true)
  | raw :: rest =>
      match convert_line' w h raw with
      | Raise _ => (st, false)
      | Ok None => write_lines' w h out rest st
      | Ok (Some s) => write_lines' w h out rest (write_line st out s)
      end
  end.

Definition convert_annotation (st : fs) (ann_file img_file output_file : string)
  : bool * fs :=
  match image_size st img_file with
  | Raise _ => (false, st)
  | Ok (w, h) =>
      match open_read st ann_file with
      | Raise _ => (false, st)
      | Ok _ =>
          match open_write st output_file with
          | Raise _ => (false, st)
          | Ok st1 =>
              match open_read st1 ann_file with
              | Raise _ => (false, st1)
              | Ok lines =>
                  let '(st2, finished) := write_lines' w h output_file lines st1 in
                  (finished, st2)
              end
          end
      end
  end.

End Converter.

(** ** Python lists: slices and [random.shuffle] *)

Module PyList.
Local Open Scope Z_scope.

(** A slice bound is clamped to [[0, len]], a negative one counting
    from the end. *)
Definition norm_index (len i : Z) : Z :=
  if i <? 0 then Z.max (i + len) 0 else Z.min i len.

(** [l[lo:hi]], either bound possibly omitted *)
Definition slice {A : Type} (l : list A) (lo hi : option Z) : list A :=
  let len := Z.of_nat (length l) in
  let a := match lo with Some i => norm_index len i | None => 0 end in
  let b := match hi with Some i => norm_index len i | None => len end in
  take (Z.to_nat (b - a)) (drop (Z.to_nat a) l).

(** [x[i], x[j] = x[j], x[i]] *)
Definition swap {A : Type} (l : list A) (i j : nat) : list A :=
  match l !! i, l !! j with
  | Some a, Some b => <[j := a]> (<[i := b]> l)
  | _, _ => l
  end.

(** The loop of [random.shuffle]:
    [for i in reversed(range(1, len(x))): j = randbelow(i + 1); swap].
    [raw k] is the raw draw behind the [k]-th call of [randbelow]. *)
Fixpoint shuffle_from {A : Type} (raw : nat -> nat) (k i : nat) (l : list A) : list A :=
  match i with
  | O => l
  | S i' => shuffle_from raw (S k) i' (swap l i (raw k mod (i + 1))%nat)
  end.

Definition shuffle {A : Type} (raw : nat -> nat) (l : list A) : list A :=
  shuffle_from raw 0 (length l - 1) l.

End PyList.

(** ** The dataset splitter (prepare_data.py, fix_and_setup_dataset.py) *)

Module Splitter.
Import Py PyStr Binary64 FS PyList.
Local Open Scope string_scope.

Inductive event : Type :=
| NoLabelFiles
| FoundPairs (n : nat)
| NoValidPairs
| ProcessingSplit (name : string) (n : nat)
| SplitCompleted (train val test : nat).

Record splits (A : Type) : Type := mkSplits {
  train : list A;
  val : list A;
  test : list A
}.
Arguments mkSplits {A} _ _ _.
Arguments train {A} _.
Arguments val {A} _.
Arguments test {A} _.

(** [train_end = int(total_pairs * train_ratio)],
    [val_end = int(total_pairs * (train_ratio + val_ratio))] *)
Definition split_indices (total_pairs : nat) (train_ratio val_ratio : float)
  : result (Z * Z) :=
  train_end ← int_of_product (Z.of_nat total_pairs) train_ratio;
  val_end ← int_of_product (Z.of_nat total_pairs) (fadd train_ratio val_ratio);
  Ok (train_end, val_end).

Definition cut {A : Type} (pairs : list A) (train_end val_end : Z) : splits A :=
  mkSplits (slice pairs None (Some train_end))
           (slice pairs (Some train_end) (Some val_end))
           (slice pairs (Some val_end) None).

(** Lines 84-96 of prepare_data.py: shuffle, split indices, slices. *)
Definition split_pairs {A : Type} (raw : nat -> nat) (train_ratio val_ratio : float)
    (valid_pairs : list A) : result (splits A) :=
  let shuffled := shuffle raw valid_pairs in
  '(train_end, val_end) ← split_indices (length shuffled) train_ratio val_ratio;
  Ok (cut shuffled train_end val_end).

(** Lines 184-193 of fix_and_setup_dataset.py:
    [train_end = int(len(valid_pairs) * 0.7)],
    [val_end = int(len(valid_pairs) * 0.9)]. *)
Definition step3_split_pairs {A : Type} (raw : nat -> nat) (valid_pairs : list A)
  : result (splits A) :=
  let shuffled := shuffle raw valid_pairs in
  train_end ← int_of_product (Z.of_nat (length shuffled)) lit_0_7;
  val_end ← int_of_product (Z.of_nat (length shuffled)) lit_0_9;
  Ok (cut shuffled train_end val_end).

Definition image_extensions : list string :=
  [".jpg"; ".jpeg"; ".png"; ".JPG"; ".JPEG"; ".PNG"].

Definition possible_image_names (image_dir label_basename : string) : list string :=
  ext ← image_extensions;
  [join image_dir (label_basename +:+ ext);
   join image_dir (remove_all "group" label_basename +:+ ext)].

(** [any(part in img_basename for part in label_basename.split('_') if len(part) > 3)] *)
Definition shares_token (label_basename img_basename : string) : bool :=
  existsb (fun part => (3 <? String.length part)%nat && is_substring part img_basename)
          (split_on "_" label_basename).

(** The image paired with a label file: an exact name first, then the
    first image sharing a token with the label's name. *)
Definition image_for (st : fs) (image_dir label_file : string) : option string :=
  let label_basename := (splitext (basename label_file)).1 in
  match List.find (exists_ st) (possible_image_names image_dir label_basename) with
  | Some found_image => Some found_image
  | None =>
      List.find (fun img_path => shares_token label_basename (splitext (basename img_path)).1)
                (glob_suffix st image_dir "")
  end.

Definition pair_for (st : fs) (image_dir label_file : string) : option (string * string) :=
  (fun img => (img, label_file)) <$> image_for st image_dir label_file.

Definition valid_pairs_of (st : fs) (image_dir : string) (label_files : list string)
  : list (string * string) :=
  omap (pair_for st image_dir) label_files.

(** The two copies made for one pair. *)
Definition copy_pair (images_dst labels_dst : string) (st : fs) (pair : string * string)
  : result fs :=
  let '(image_path, label_path) := pair in
  st1 ← copy2 st image_path (join images_dst (basename image_path));
  copy2 st1 label_path (join labels_dst (basename label_path)).

Definition output_dirs : list (string * (string * string)) :=
  [("train", ("DeepPCB/images/train", "DeepPCB/labels/train"));
   ("val", ("DeepPCB/images/val", "DeepPCB/labels/val"));
   ("test", ("DeepPCB/images/test", "DeepPCB/labels/test"))].

Definition make_output_dirs (st : fs) : result fs :=
  for_each (fun st '(_, (images_dst, labels_dst)) =>
              st1 ← makedirs st ["DeepPCB"; "DeepPCB/images"; images_dst];
              makedirs st1 ["DeepPCB"; "DeepPCB/labels"; labels_dst])
           output_dirs st.

Definition copy_split (st : fs) (dst : string * string) (pairs : list (string * string))
  : result fs :=
  for_each (copy_pair dst.1 dst.2) pairs st.

(** [split_unified_dataset]: the returned flag, the new state and what
    was printed.  [test_ratio] is a parameter the source never reads. *)
Definition split_unified_dataset (st : fs) (raw : nat -> nat)
    (image_dir labels_dir : string) (train_ratio val_ratio test_ratio : float)
  : result (bool * fs * list event) :=
  st ← make_output_dirs st;
  let label_files := glob_suffix st labels_dir ".txt" in
  if bool_decide (label_files = []) then Ok (false, st, [NoLabelFiles])
  else
    let valid_pairs := valid_pairs_of st image_dir label_files in
    if bool_decide (valid_pairs = []) then
      Ok (false, st, [FoundPairs (length valid_pairs); NoValidPairs])
    else
      s ← split_pairs raw train_ratio val_ratio valid_pairs;
      st ← copy_split st ("DeepPCB/images/train", "DeepPCB/labels/train") (train s);
      st ← copy_split st ("DeepPCB/images/val", "DeepPCB/labels/val") (val s);
      st ← copy_split st ("DeepPCB/images/test", "DeepPCB/labels/test") (test s);
      Ok (true, st,
          [FoundPairs (length valid_pairs);
           ProcessingSplit "train" (length (train s));
           ProcessingSplit "val" (length (val s));
           ProcessingSplit "test" (length (test s));
           SplitCompleted (length (train s)) (length (val s)) (length (test s))]).

(** The call of [main]: all parameters at their defaults. *)
Definition split_default (st : fs) (raw : nat -> nat) : result (bool * fs * list event) :=
  split_unified_dataset st raw "DeepPCB/all_images" "DeepPCB/labels"
                        lit_0_7 lit_0_2 lit_0_1.

End Splitter.

(** ** The collector (convert_deeppcb.py) *)

Module Collector.
Import Py PyStr FS Converter.
Local Open Scope string_scope.

Inductive event : Type :=
| NoPCBData
| ProcessingGroup (group_dir : string)
| SkippingGroup (group_dir : string)
| NoTestImage (base_name : string)
| Summary (total_processed total_converted : nat).

Record state : Type := mkState {
  files : fs;
  total_processed : nat;
  total_converted : nat;
  printed : list event
}.

Definition unified_image_dir : string := "DeepPCB/all_images".
Definition unified_labels_dir : string := "DeepPCB/labels".
Definition pcb_data_dir : string := "DeepPCB/PCBData".

Definition print (ev : event) (s : state) : state :=
  mkState (files s) (total_processed s) (total_converted s) (printed s ++ [ev]).

(** Lines 58-70: the [.jpg] name first, then [.png] and [.jpeg]. *)
Definition find_test_image (st : fs) (image_subdir base_name : string) : option string :=
  let test_image_path := join image_subdir (base_name +:+ "_test.jpg") in
  if exists_ st test_image_path then Some test_image_path
  else
    List.find (exists_ st)
              ((fun ext => join image_subdir (base_name +:+ "_test" +:+ ext)) <$> [".png"; ".jpeg"]).

Definition dest_image_path (group_dir test_image_path : string) : string :=
  join unified_image_dir (group_dir +:+ "_" +:+ basename test_image_path).

Definition dest_label_path (group_dir base_name : string) : string :=
  join unified_labels_dir (group_dir +:+ "_" +:+ base_name +:+ ".txt").

(** Lines 72-84: the image is copied, then the annotation converted. *)
Definition process_pair (group_dir ann_file base_name test_image_path : string) (s : state)
  : result state :=
  st1 ← copy2 (files s) test_image_path (dest_image_path group_dir test_image_path);
  let '(ok, st2) :=
    convert_annotation_file st1 ann_file test_image_path (dest_label_path group_dir base_name) in
  Ok (mkState st2 (S (total_processed s))
              (if ok then S (total_converted s) else total_converted s)
              (printed s)).

(** The body of the loop over the annotation files of a group. *)
Definition process_annotation (group_dir image_subdir : string) (s : state) (ann_file : string)
  : result state :=
  let base_name := (splitext (basename ann_file)).1 in
  match find_test_image (files s) image_subdir base_name with
  | None => Ok (print (NoTestImage base_name) s)
  | Some test_image_path => process_pair group_dir ann_file base_name test_image_path s
  end.

(** Lines 38-45: the last subdirectory of each kind wins. *)
Definition pick_subdirs (group_path : string) (subdirs : list string)
  : option string * option string :=
  fold_left (fun '(image_subdir, annotation_subdir) subdir =>
               if endswith "_not" subdir then (image_subdir, Some (join group_path subdir))
               else (Some (join group_path subdir), annotation_subdir))
            subdirs (None, None).

(** The body of the loop over the groups. *)
Definition process_group (s : state) (group_dir : string) : result state :=
  let group_path := join pcb_data_dir group_dir in
  let s := print (ProcessingGroup group_dir) s in
  names ← listdir (files s) group_path;
  let subdirs := filter (fun d => isdir (files s) (join group_path d) = true) names in
  match pick_subdirs group_path subdirs with
  | (Some image_subdir, Some annotation_subdir) =>
      for_each (process_annotation group_dir image_subdir)
               (glob_suffix (files s) annotation_subdir ".txt") s
  | _ => Ok (print (SkippingGroup group_dir) s)
  end.

Definition group_dirs (st : fs) (names : list string) : list string :=
  filter (fun d => startswith "group" d && isdir st (join pcb_data_dir d) = true) names.

(** [collect_deeppcb_dataset] *)
Definition collect_deeppcb_dataset (st : fs) : result (bool * state) :=
  st ← makedirs st ["DeepPCB"; unified_image_dir];
  st ← makedirs st ["DeepPCB"; unified_labels_dir];
  if negb (exists_ st pcb_data_dir) then Ok (false, mkState st 0 0 [NoPCBData])
  else
    names ← listdir st pcb_data_dir;
    s ← for_each process_group (group_dirs st names) (mkState st 0 0 []);
    Ok (bool_decide (0 < total_converted s),
        print (Summary (total_processed s) (total_converted s)) s).


End Collector.

(** ** Sample inputs *)

Module Samples.
Import Py PyStr FS Converter Collector.
Local Open Scope string_scope.

(** A small file system for the examples: an annotation file with a
    malformed line between two valid ones, and its image. *)
Definition demo_fs : fs :=
  <["a.txt" := File (mkFile (["1 2 3 4 5"] ++ "a,b,c" :: ["10,20,110,220,1"]) None)]>
    (<["a.jpg" := File (mkFile [] (Some (640, 640)%Z))]> ∅).

(** A line whose third field is [10^310]: it parses, and the division
    [(x1 + x2) / 2] overflows the doubles. *)
Definition zeros (n : nat) : string := String.concat "" (repeat "0" n).

Definition overflow_line : string := "0,0,1" +:+ zeros 310 +:+ ",5,1".

Definition overflow_fs : fs :=
  <["a.txt" := File (text_file ["10,20,110,220,1"; overflow_line; "1,2,3,4,5"])]>
    (<["a.jpg" := File (mkFile [] (Some (640, 640)%Z))]> ∅).

(** A raw data set with one group: the image of [0001] opens, that of
    [0002] is not an image PIL can open, [0003] has no image. *)
Definition sample_fs : fs :=
  list_to_map [
    ("DeepPCB", Dir); ("DeepPCB/PCBData", Dir); ("DeepPCB/PCBData/group1", Dir);
    ("DeepPCB/PCBData/group1/g1", Dir); ("DeepPCB/PCBData/group1/g1_not", Dir);
    ("DeepPCB/PCBData/group1/g1/0001_test.jpg", File (mkFile [] (Some (640, 640)%Z)));
    ("DeepPCB/PCBData/group1/g1/0002_test.jpg", File (text_file ["not an image"]));
    ("DeepPCB/PCBData/group1/g1_not/0001.txt",
       File (text_file ["10,20,110,220,1"; "a,b,c"; "1 2 3 4 5"]));
    ("DeepPCB/PCBData/group1/g1_not/0002.txt", File (text_file ["10,20,110,220,1"]));
    ("DeepPCB/PCBData/group1/g1_not/0003.txt", File (text_file ["10,20,110,220,1"]))].

(** The sample data set once the two unified directories exist, and the
    state after the pair [0002] of [group1] was processed. *)
Definition prepared_fs : fs :=
  <["DeepPCB/labels" := Dir]> (<["DeepPCB/all_images" := Dir]> sample_fs).

Definition sample_step : state :=
  match process_pair "group1" "DeepPCB/PCBData/group1/g1_not/0002.txt" "0002"
          "DeepPCB/PCBData/group1/g1/0002_test.jpg" (mkState prepared_fs 0 0 []) with
  | Ok s' => s'
  | Raise _ => mkState ∅ 0 0 []
  end.

(** With nothing on disk the collector reports the missing directory and
    fails. *)
Definition empty_run : bool * state :=
  match collect_deeppcb_dataset ∅ with
  | Ok r => r
  | Raise _ => (true, mkState ∅ 0 0 [])
  end.

End Samples.
(** ** The rest of convert_deeppcb.py: verification, class mapping, [main] *)

Module ConvertDeepPCB.
Import Py PyStr FS PyList Converter Collector.
Local Open Scope string_scope.

Inductive note : Type :=
| DirsNotFound
| ConversionResults (images labels : nat)
| LabelFile (name : string) (defects : nat)
| ExampleRecord (class_id cx cy w h : string).

(** The body of the loop over the sample labels: the number of lines,
    and the first record when it has at least five fields. *)
Definition describe_label (st : fs) (notes : list note) (label_file : string)
  : result (list note) :=
  lines ← open_read st label_file;
  let notes := (notes ++ [LabelFile (basename label_file) (length lines)])%list in
  match lines with
  | [] => Ok notes
  | first_line :: _ =>
      let parts := split_ws (strip first_line) in
      if (5 <=? length parts)%nat then
        match take 5 parts with
        | [class_id; cx; cy; w; h] => Ok (notes ++ [ExampleRecord class_id cx cy w h])%list
        | _ => Ok notes
        end
      else Ok notes
  end.

(** [verify_conversion]: the returned flag and what was printed. *)
Definition verify_conversion (st : fs) : result (bool * list note) :=
  if negb (exists_ st unified_image_dir) || negb (exists_ st unified_labels_dir)
  then Ok (false, [DirsNotFound])
  else
    let image_files := glob_suffix st unified_image_dir "" in
    let label_files := glob_suffix st unified_labels_dir ".txt" in
    notes ← for_each (describe_label st) (slice label_files None (Some 3%Z))
                     [ConversionResults (length image_files) (length label_files)];
    Ok (bool_decide (0 < length image_files) && bool_decide (0 < length label_files), notes).

(** The dictionary of [create_class_mapping], in insertion order. *)
Definition class_mapping : list (Z * string) :=
  [(0, "open"); (1, "short"); (2, "mousebite"); (3, "spur"); (4, "pin-hole");
   (5, "spurious_copper")]%Z.

Definition class_mapping_path : string := "DeepPCB/class_mapping.txt".

(** Successive [f.write] calls on a file opened at [p]. *)
Definition write_all (st : fs) (p : string) (lines : list string) : fs :=
  fold_left (fun st line => write_line st p line) lines st.

Definition class_mapping_lines : list string :=
  ("DeepPCB Class Mapping (YOLO format):" +:+ newline) ::
  ("=====================================" +:+ newline) ::
  ((fun '(class_id, class_name) => str_of_Z class_id +:+ ": " +:+ class_name +:+ newline)
     <$> class_mapping).

(** [create_class_mapping] *)
Definition create_class_mapping (st : fs) : result fs :=
  st ← open_write st class_mapping_path;
  Ok (write_all st class_mapping_path class_mapping_lines).

Inductive outcome : Type :=
| ConversionCompleted
| VerificationFailed
| ConversionFailed.

(** [main] of convert_deeppcb.py: the class mapping is written only
    when the collection and its verification both succeed. *)
Definition main (st : fs) : result (fs * outcome) :=
  '(collected, s) ← collect_deeppcb_dataset st;
  if collected : bool then
    '(verified, _) ← verify_conversion (files s);
    if verified : bool then
      st' ← create_class_mapping (files s);
      Ok (st', ConversionCompleted)
    else Ok (files s, VerificationFailed)
  else Ok (files s, ConversionFailed).

End ConvertDeepPCB.

(** ** The rest of prepare_data.py: verification, configuration, [main] *)

Module PrepareData.
Import Py PyStr FS Converter Splitter.
Local Open Scope string_scope.

Definition required_dirs : list string :=
  ["DeepPCB/images/train"; "DeepPCB/images/val"; "DeepPCB/images/test";
   "DeepPCB/labels/train"; "DeepPCB/labels/val"; "DeepPCB/labels/test"].

(** Every directory [os.makedirs] creates on the way to the required
    ones. *)
Definition created_dirs : list string :=
  ["DeepPCB"; "DeepPCB/images"; "DeepPCB/labels"] ++ required_dirs.

Inductive finding : Type :=
| Present (dir_path : string) (file_count : nat)
| EmptyDirectory
| Missing (dir_path : string).

(** The body of the loop of [verify_dataset_structure]: [os.listdir]
    raises when the path exists and is not a directory. *)
Definition check_dir (st : fs) (acc : bool * list finding) (dir_path : string)
  : result (bool * list finding) :=
  let '(all_good, log) := acc in
  if exists_ st dir_path then
    names ← listdir st dir_path;
    let file_count := length names in
    if (file_count =? 0)%nat
    then Ok (false, log ++ [Present dir_path file_count; EmptyDirectory])%list
    else Ok (all_good, log ++ [Present dir_path file_count])%list
  else Ok (false, log ++ [Missing dir_path])%list.

(** [verify_dataset_structure] *)
Definition verify_dataset_structure (st : fs) : result (bool * list finding) :=
  for_each (check_dir st) required_dirs (true, []).

(** The class names of the configuration file, in the order of their
    identifiers. *)
Definition names : list string :=
  ["missing_hole"; "mouse_bite"; "open_circuit"; "short"; "spur"; "spurious_copper"].

Definition dataset_config : list string :=
  (fun l => l +:+ newline) <$>
  ["# DeepPCB Dataset Configuration";
   "path: ./DeepPCB  # dataset root dir";
   "train: images/train  # train images (relative to 'path')";
   "val: images/val  # val images (relative to 'path')";
   "test: images/test  # test images (relative to 'path')";
   "";
   "# Classes";
   "nc: 6  # number of classes";
   "names: ['missing_hole', 'mouse_bite', 'open_circuit', 'short', 'spur', 'spurious_copper']"].

Definition dataset_yaml : string := "dataset.yaml".

(** [create_dataset_yaml] *)
Definition create_dataset_yaml (st : fs) : result fs :=
  st ← open_write st dataset_yaml;
  Ok (ConvertDeepPCB.write_all st dataset_yaml dataset_config).

Inductive outcome : Type :=
| UnifiedDatasetNotFound
| ReadyForTraining (structure_ok : bool)
| PreparationFailed.

(** [main] of prepare_data.py: nothing is touched when the unified data
    set is not there; the result of the verification is printed, not
    acted upon. *)
Definition main (st : fs) (raw : nat -> nat) : result (fs * outcome) :=
  if negb (exists_ st "DeepPCB/labels") || negb (exists_ st "DeepPCB/all_images")
  then Ok (st, UnifiedDatasetNotFound)
  else
    '(ok, st1, _) ← split_default st raw;
    if ok : bool then
      '(structure_ok, _) ← verify_dataset_structure st1;
      st2 ← create_dataset_yaml st1;
      Ok (st2, ReadyForTraining structure_ok)
    else Ok (st1, PreparationFailed).

End PrepareData.

(** ** The one-file pipeline (fix_and_setup_dataset.py) *)

Module FixAndSetup.
Import Py PyStr FS PyList Converter Collector Splitter.
Local Open Scope string_scope.

Definition unified_images : string := "DeepPCB/unified_images".
Definition unified_labels : string := "DeepPCB/unified_labels".

(** [step1_analyze_raw_data]: the listings are made for printing only,
    but they raise when a name starting with [group] is not a
    directory. *)
Definition step1_analyze_raw_data (st : fs) : result bool :=
  if negb (exists_ st pcb_data_dir) then Ok false
  else
    entries ← listdir st pcb_data_dir;
    let groups := filter (fun d => startswith "group" d = true) entries in
    match groups with
    | [] => Ok false
    | g :: _ =>
        let first_group := join pcb_data_dir g in
        subdirs ← listdir st first_group;
        _ ← for_each (fun (_ : unit) subdir =>
                        let subdir_path := join first_group subdir in
                        if isdir st subdir_path then _ ← listdir st subdir_path; Ok tt
                        else Ok tt)
                     subdirs tt;
        Ok true
    end.

Record tally : Type := mkTally {
  disk : fs;
  total_images : nat;
  total_labels : nat
}.

Definition test_image_patterns (image_dir base_name : string) : list string :=
  [join image_dir (base_name +:+ "_test.jpg");
   join image_dir (base_name +:+ "_test.png");
   join image_dir (base_name +:+ ".jpg");
   join image_dir (base_name +:+ ".png")].

Definition dest_image (group base_name : string) : string :=
  join unified_images ((group +:+ "_" +:+ base_name) +:+ ".jpg").

Definition dest_label (group base_name : string) : string :=
  join unified_labels ((group +:+ "_" +:+ base_name) +:+ ".txt").

(** Lines 77-108: the body of the loop over the annotation files. *)
Definition collect_annotation (group image_dir : string) (t : tally) (ann_file : string)
  : result tally :=
  let base_name := (splitext (basename ann_file)).1 in
  match List.find (exists_ (disk t)) (test_image_patterns image_dir base_name) with
  | None => Ok t
  | Some found_image =>
      st1 ← copy2 (disk t) found_image (dest_image group base_name);
      let '(ok, st2) := convert_annotation st1 ann_file found_image (dest_label group base_name) in
      Ok (if ok : bool then mkTally st2 (S (total_images t)) (S (total_labels t))
          else mkTally st2 (total_images t) (total_labels t))
  end.

(** Lines 53-108: the body of the loop over the groups. *)
Definition collect_group (t : tally) (group : string) : result tally :=
  let group_path := join pcb_data_dir group in
  entries ← listdir (disk t) group_path;
  let subdirs := filter (fun d => isdir (disk t) (join group_path d) = true) entries in
  match pick_subdirs group_path subdirs with
  | (Some image_dir, Some annotation_dir) =>
      for_each (collect_annotation group image_dir)
               (glob_suffix (disk t) annotation_dir ".txt") t
  | _ => Ok t
  end.

(** [step2_collect_and_convert] *)
Definition step2_collect_and_convert (st : fs) : result (bool * tally) :=
  st ← makedirs st ["DeepPCB"; unified_images];
  st ← makedirs st ["DeepPCB"; unified_labels];
  entries ← listdir st pcb_data_dir;
  t ← for_each collect_group (filter (fun d => startswith "group" d = true) entries)
               (mkTally st 0 0);
  Ok (bool_decide (0 < total_images t), t).

(** Lines 172-179: an image is kept when its label file exists. *)
Definition labelled (st : fs) (img_file : string) : option (string * string) :=
  let base_name := (splitext (basename img_file)).1 in
  let label_file := "DeepPCB/unified_labels/" +:+ base_name +:+ ".txt" in
  if exists_ st label_file then Some (img_file, label_file) else None.

(** [step3_split_dataset]: the returned flag, the new state, and the
    three lists of pairs. *)
Definition step3_split_dataset (st : fs) (raw : nat -> nat)
  : result (bool * fs * option (splits (string * string))) :=
  st ← make_output_dirs st;
  let image_files := glob_suffix st unified_images ".jpg" in
  if bool_decide (image_files = []) then Ok (false, st, None)
  else
    let valid_pairs := omap (labelled st) image_files in
    s ← step3_split_pairs raw valid_pairs;
    st ← copy_split st ("DeepPCB/images/train", "DeepPCB/labels/train") (train s);
    st ← copy_split st ("DeepPCB/images/val", "DeepPCB/labels/val") (val s);
    st ← copy_split st ("DeepPCB/images/test", "DeepPCB/labels/test") (test s);
    Ok (true, st, Some s).

(** The class names of [step4_create_yaml], by identifier. *)
Definition names : list (Z * string) :=
  [(0, "open"); (1, "short"); (2, "mousebite"); (3, "spur"); (4, "pin-hole");
   (5, "spurious_copper")]%Z.

(** [step4_create_yaml]; [root] is the text of [Path.cwd() / 'DeepPCB']. *)
Definition yaml_content (root : string) : list string :=
  (fun l => l +:+ newline) <$>
  (["# DeepPCB Dataset Configuration";
    "path: " +:+ root;
    "train: images/train";
    "val: images/val  ";
    "test: images/test";
    "";
    "# Classes";
    "nc: 6";
    "names:"] ++
   ((fun '(class_id, class_name) => "  " +:+ str_of_Z class_id +:+ ": " +:+ class_name)
      <$> names))%list.

Definition step4_create_yaml (st : fs) (root : string) : result fs :=
  st ← open_write st "dataset.yaml";
  Ok (ConvertDeepPCB.write_all st "dataset.yaml" (yaml_content root)).

(** The loop of [step5_verify]: a missing or empty directory clears the
    flag. *)
Definition check_dir (st : fs) (all_good : bool) (dir_path : string) : result bool :=
  if exists_ st dir_path then
    entries ← listdir st dir_path;
    Ok (if (length entries =? 0)%nat then false else all_good)
  else Ok false.

(** [step5_verify] *)
Definition step5_verify (st : fs) : result bool :=
  all_good ← for_each (check_dir st) PrepareData.required_dirs true;
  Ok (if exists_ st "dataset.yaml" then all_good else false).

Inductive outcome : Type :=
| NoRawData
| NothingCollected
| NothingToSplit
| SetupCompleted
| SetupVerificationFailed.

(** [main]: each step runs only when the one before returned [True]. *)
Definition main (st : fs) (raw : nat -> nat) (root : string) : result (fs * outcome) :=
  found ← step1_analyze_raw_data st;
  if found : bool then
    '(collected, t) ← step2_collect_and_convert st;
    if collected : bool then
      '(split, st1, _) ← step3_split_dataset (disk t) raw;
      if split : bool then
        st2 ← step4_create_yaml st1 root;
        verified ← step5_verify st2;
        Ok (st2, if verified : bool then SetupCompleted else SetupVerificationFailed)
      else Ok (st1, NothingToSplit)
    else Ok (disk t, NothingCollected)
  else Ok (st, NoRawData).

End FixAndSetup.

(** ** Sample runs of the later steps *)

Module Scenarios.
Import Py PyStr Binary64 FS Converter Collector Splitter.
Local Open Scope string_scope.

(** The unified data set the collector leaves for one group of four
    boards. *)
Definition unified_fs : fs :=
  list_to_map [
    ("DeepPCB", Dir); ("DeepPCB/all_images", Dir); ("DeepPCB/labels", Dir);
    ("DeepPCB/all_images/group1_0001_test.jpg", File (mkFile [] (Some (640, 640)%Z)));
    ("DeepPCB/all_images/group1_0002_test.jpg", File (mkFile [] (Some (640, 640)%Z)));
    ("DeepPCB/all_images/group1_0003_test.jpg", File (mkFile [] (Some (640, 640)%Z)));
    ("DeepPCB/all_images/group1_0004_test.jpg", File (mkFile [] (Some (640, 640)%Z)));
    ("DeepPCB/labels/group1_0001.txt",
       File (text_file ["0 0.093750 0.187500 0.156250 0.312500" +:+ newline]));
    ("DeepPCB/labels/group1_0002.txt",
       File (text_file ["1 0.093750 0.187500 0.156250 0.312500" +:+ newline]));
    ("DeepPCB/labels/group1_0003.txt",
       File (text_file ["2 0.093750 0.187500 0.156250 0.312500" +:+ newline]));
    ("DeepPCB/labels/group1_0004.txt",
       File (text_file ["3 0.093750 0.187500 0.156250 0.312500" +:+ newline]))].

(** The splitter of prepare_data.py run on it, and on an empty disk. *)
Definition split_run : bool * fs * list Splitter.event :=
  match split_default unified_fs (fun k => k) with
  | Ok r => r
  | Raise _ => (false, ∅, [])
  end.

Definition empty_split_run : bool * fs * list Splitter.event :=
  match split_default ∅ (fun k => k) with
  | Ok r => r
  | Raise _ => (true, ∅, [])
  end.

(** Unified images that have no label file, once the output directories
    exist. *)
Definition unlabelled_fs : fs :=
  match make_output_dirs
          (list_to_map [
             ("DeepPCB", Dir); ("DeepPCB/unified_images", Dir);
             ("DeepPCB/unified_labels", Dir);
             ("DeepPCB/unified_images/group1_0001.jpg",
                File (mkFile [] (Some (640, 640)%Z)))]) with
  | Ok st => st
  | Raise _ => ∅
  end.

(** A raw data directory that holds a stray regular file named like a
    group. *)
Definition stray_fs : fs :=
  list_to_map [
    ("DeepPCB", Dir); ("DeepPCB/PCBData", Dir);
    ("DeepPCB/all_images", Dir); ("DeepPCB/labels", Dir);
    ("DeepPCB/unified_images", Dir); ("DeepPCB/unified_labels", Dir);
    ("DeepPCB/PCBData/group_notes.txt", File (text_file ["about the groups"]))].

End Scenarios.

(** * Properties *)

(** ** Rounding in binary64

    The facts about [SpecFloat] the claims need: what the rounding
    pipeline [binary_round_aux] computes on a positive significand in
    the normal range, and from it specifications of the conversion from
    integers, of the product and of the quotient. *)

Module Binary64Facts.
  Import Py Binary64.
  Local Open Scope Z_scope.

Lemma digits2_pos_bounds p :
  2 ^ (Zpos (digits2_pos p) - 1) <= Zpos p < 2 ^ Zpos (digits2_pos p).
Proof.
  induction p as [p IH | p IH | ]; cbn [digits2_pos].
  - rewrite Pos2Z.inj_succ.
    replace (Z.succ (Zpos (digits2_pos p)) - 1) with (Z.succ (Zpos (digits2_pos p) - 1)) by lia.
    rewrite !Z.pow_succ_r by lia. lia.
  - rewrite Pos2Z.inj_succ.
    replace (Z.succ (Zpos (digits2_pos p)) - 1) with (Z.succ (Zpos (digits2_pos p) - 1)) by lia.
    rewrite !Z.pow_succ_r by lia. lia.
  - cbn. lia.
Qed.

Lemma Zdigits2_bounds m : 0 < m -> 2 ^ (Zdigits2 m - 1) <= m < 2 ^ Zdigits2 m.
Proof. destruct m as [|p|p]; try lia. intros _. apply digits2_pos_bounds. Qed.

Lemma Zdigits2_pos m : 0 < m -> 0 < Zdigits2 m.
Proof. destruct m; simpl; lia. Qed.

Lemma Zdigits2_unique m d : 0 < d -> 2 ^ (d - 1) <= m < 2 ^ d -> Zdigits2 m = d.
Proof.
  intros Hd [Hlo Hhi].
  assert (Hm : 0 < m) by (pose proof (Z.pow_pos_nonneg 2 (d - 1)); lia).
  pose proof (Zdigits2_bounds m Hm) as [Hlo' Hhi'].
  pose proof (Zdigits2_pos m Hm) as Hp.
  destruct (Z.lt_trichotomy (Zdigits2 m) d) as [Hlt | [Heq | Hgt]]; [ | exact Heq | ].
  - assert (2 ^ Zdigits2 m <= 2 ^ (d - 1)) by (apply Z.pow_le_mono_r; lia). lia.
  - assert (2 ^ d <= 2 ^ (Zdigits2 m - 1)) by (apply Z.pow_le_mono_r; lia). lia.
Qed.



Lemma located_of_loc N D : located (shr_record_of_loc (N / D) (loc_of (N mod D) D)) N D.
Proof.
  unfold located. generalize (loc_of (N mod D) D) as l. intros [|[| |]]; cbn; auto.
Qed.

Lemma shr_1_located mrs N D :
  0 <= N -> 0 < D -> located mrs N D -> located (shr_1 mrs) N (2 * D).
Proof.
  intros HN HD [Hm Hl].
  pose proof (Z.div_mod N D ltac:(lia)) as Hdm.
  pose proof (Z.mod_pos_bound N D HD) as HR.
  set (R := N mod D) in *. set (q := N / D) in *. clearbody R q.
  assert (Hq : 0 <= q) by nia.
  assert (Hdiv : forall b q', q = 2 * q' + b -> 0 <= b <= 1 ->
             N / (2 * D) = q' /\ N mod (2 * D) = b * D + R).
  { intros b q' Hq' Hb.
    assert (HNeq : N = (2 * D) * q' + (b * D + R)) by nia.
    assert (Hrange : 0 <= b * D + R < 2 * D) by nia.
    split; symmetry.
    - apply (Z.div_unique_pos N (2 * D) q' (b * D + R)); assumption.
    - apply (Z.mod_unique_pos N (2 * D) q' (b * D + R)); assumption. }
  destruct mrs as [m r s]. cbn [shr_m] in Hm. cbn [loc_of_shr_record] in Hl.
  assert (Hs : orb r s = negb (R =? 0)).
  { unfold loc_of in Hl. destruct (R =? 0); destruct r, s; cbn in *; congruence. }
  unfold located. cbn [shr_1]. rewrite Hs.
  destruct m as [|[p|p|]|p]; try lia.
  - destruct (Hdiv 0 0 ltac:(lia) ltac:(lia)) as [-> ->].
    cbn [shr_m loc_of_shr_record]. split; [reflexivity|].
    unfold loc_of. rewrite Z.mul_0_l, Z.add_0_l.
    destruct (Z.eqb_spec R 0); cbn [negb]; [reflexivity|].
    f_equal. symmetry. apply Z.compare_lt_iff. lia.
  - destruct (Hdiv 1 (Zpos p) ltac:(lia) ltac:(lia)) as [-> ->].
    cbn [shr_m loc_of_shr_record]. split; [reflexivity|].
    unfold loc_of.
    destruct (Z.eqb_spec (1 * D + R) 0); [lia|].
    destruct (Z.eqb_spec R 0); cbn [negb]; f_equal; symmetry.
    + apply Z.compare_eq_iff. lia.
    + apply Z.compare_gt_iff. lia.
  - destruct (Hdiv 0 (Zpos p) ltac:(lia) ltac:(lia)) as [-> ->].
    cbn [shr_m loc_of_shr_record]. split; [reflexivity|].
    unfold loc_of. rewrite Z.mul_0_l, Z.add_0_l.
    destruct (Z.eqb_spec R 0); cbn [negb]; [reflexivity|].
    f_equal. symmetry. apply Z.compare_lt_iff. lia.
  - destruct (Hdiv 1 0 ltac:(lia) ltac:(lia)) as [-> ->].
    cbn [shr_m loc_of_shr_record]. split; [reflexivity|].
    unfold loc_of.
    destruct (Z.eqb_spec (1 * D + R) 0); [lia|].
    destruct (Z.eqb_spec R 0); cbn [negb]; f_equal; symmetry.
    + apply Z.compare_eq_iff. lia.
    + apply Z.compare_gt_iff. lia.
Qed.

Lemma pow2_xO p : 2 ^ Zpos p~0 = 2 ^ Zpos p * 2 ^ Zpos p.
Proof. rewrite <- Z.pow_add_r by lia. f_equal. lia. Qed.

Lemma pow2_xI p : 2 ^ Zpos p~1 = 2 * (2 ^ Zpos p * 2 ^ Zpos p).
Proof.
  rewrite <- Z.pow_add_r, <- Z.pow_succ_r by lia. f_equal. lia.
Qed.

Lemma iter_shr_1_located p : forall mrs N D,
  0 <= N -> 0 < D -> located mrs N D ->
  located (SpecFloat.iter_pos shr_1 p mrs) N (2 ^ Zpos p * D).
Proof.
  induction p as [p IH | p IH | ]; intros mrs N D HN HD Hloc; cbn [SpecFloat.iter_pos].
  - assert (Hp : 0 < 2 ^ Zpos p) by (apply Z.pow_pos_nonneg; lia).
    replace (2 ^ Zpos p~1 * D) with (2 ^ Zpos p * (2 ^ Zpos p * (2 * D)))
      by (rewrite pow2_xI; ring).
    apply IH; [lia | nia |]. apply IH; [lia | lia |]. now apply shr_1_located.
  - assert (Hp : 0 < 2 ^ Zpos p) by (apply Z.pow_pos_nonneg; lia).
    replace (2 ^ Zpos p~0 * D) with (2 ^ Zpos p * (2 ^ Zpos p * D))
      by (rewrite pow2_xO; ring).
    apply IH; [lia | nia |]. now apply IH.
  - replace (2 ^ 1 * D) with (2 * D) by lia. now apply shr_1_located.
Qed.

Lemma shr_located mrs e n N D :
  0 <= N -> 0 < D -> 0 <= n -> located mrs N D ->
  located (fst (shr mrs e n)) N (2 ^ n * D) /\ snd (shr mrs e n) = e + n.
Proof.
  intros HN HD Hn Hloc. destruct n as [|p|p]; try lia; cbn [shr fst snd].
  - rewrite Z.pow_0_r, Z.mul_1_l, Z.add_0_r. auto.
  - split; [now apply iter_shr_1_located | reflexivity].
Qed.

Lemma round_nearest_even_spec mrs N D :
  0 <= N -> 0 < D -> located mrs N D ->
  let M := round_nearest_even (shr_m mrs) (loc_of_shr_record mrs) in
  N / D <= M <= N / D + 1 /\ 2 * Z.abs (M * D - N) <= D /\
  (N mod D = 0 -> M = N / D).
Proof.
  intros HN HD [Hm Hl] M. subst M. rewrite Hm, Hl.
  pose proof (Z.div_mod N D ltac:(lia)) as Hdm.
  pose proof (Z.mod_pos_bound N D HD) as HR.
  set (R := N mod D) in *. set (q := N / D) in *. clearbody R q.
  unfold loc_of. destruct (Z.eqb_spec R 0) as [HR0 | HR0]; cbn [round_nearest_even].
  - split; [lia|]. split; [|reflexivity]. nia.
  - destruct (Z.compare_spec (2 * R) D) as [Hc | Hc | Hc].
    + destruct (Z.even q); (split; [lia|]); (split; [nia | lia]).
    + split; [lia|]. split; [nia | lia].
    + split; [lia|]. split; [nia | lia].
Qed.

Lemma fexp_normal x : -1074 <= x - 53 -> fexp prec emax x = x - 53.
Proof. unfold fexp, SpecFloat.emin, prec, emax. lia. Qed.

Lemma round_aux_pos sx N D mx ex lx :
  0 < D -> mx = N / D -> lx = loc_of (N mod D) D -> 2 ^ 52 <= mx ->
  let k := Zdigits2 mx - 53 in
  -1074 <= ex + k -> ex + k + 1 <= 971 ->
  exists m e M,
    binary_round_aux prec emax sx mx ex lx = S754_finite sx m e /\
    2 ^ 52 <= Zpos m < 2 ^ 53 /\
    (e = ex + k \/ e = ex + k + 1) /\
    Zpos m * 2 ^ (e - (ex + k)) = M /\
    0 <= k /\
    N / (2 ^ k * D) <= M <= N / (2 ^ k * D) + 1 /\
    2 * Z.abs (M * (2 ^ k * D) - N) <= 2 ^ k * D /\
    (N mod (2 ^ k * D) = 0 -> M = N / (2 ^ k * D)).
Proof.
  intros HD Hmx Hlx Hlo k Hnorm Hover.
  assert (Hmx0 : 0 < mx) by (pose proof (Z.pow_pos_nonneg 2 52); lia).
  assert (HN : 0 <= N).
  { destruct (Z.le_gt_cases 0 N) as [|Hneg]; [assumption|].
    assert (N / D < 0) by (apply Z.div_lt_upper_bound; lia). lia. }
  pose proof (Zdigits2_bounds mx Hmx0) as [Hdlo Hdhi].
  assert (Hk : 0 <= k).
  { unfold k. destruct (Z.le_gt_cases 53 (Zdigits2 mx)) as [|Hlt]; [lia|].
    assert (2 ^ Zdigits2 mx <= 2 ^ 52) by (apply Z.pow_le_mono_r; lia). lia. }
  assert (H2k : 0 < 2 ^ k) by (apply Z.pow_pos_nonneg; lia).
  unfold binary_round_aux, shr_fexp.
  rewrite (fexp_normal (Zdigits2 mx + ex)) by (unfold k in Hnorm; lia).
  replace (Zdigits2 mx + ex - 53 - ex) with k by (unfold k; lia).
  assert (Hloc0 : located (shr_record_of_loc mx lx) N D)
    by (subst mx lx; apply located_of_loc).
  destruct (shr_located _ ex k N D HN HD Hk Hloc0) as [Hloc1 He1].
  destruct (shr (shr_record_of_loc mx lx) ex k) as [mrs1 e1].
  cbn [fst snd] in Hloc1, He1. subst e1.
  pose proof (round_nearest_even_spec mrs1 N (2 ^ k * D) HN ltac:(nia) Hloc1) as HM.
  cbv zeta in HM.
  set (M := round_nearest_even (shr_m mrs1) (loc_of_shr_record mrs1)) in *.
  destruct HM as (HM1 & HM2 & HM3).
  assert (Hm1 : N / (2 ^ k * D) = mx / 2 ^ k).
  { subst mx. rewrite Z.mul_comm. symmetry. apply Z.div_div; lia. }
  assert (Hm1r : 2 ^ 52 <= N / (2 ^ k * D) < 2 ^ 53).
  { rewrite Hm1.
    assert (E1 : 2 ^ (Zdigits2 mx - 1) = 2 ^ 52 * 2 ^ k)
      by (rewrite <- Z.pow_add_r by lia; f_equal; unfold k; lia).
    assert (E2 : 2 ^ Zdigits2 mx = 2 ^ 53 * 2 ^ k)
      by (rewrite <- Z.pow_add_r by lia; f_equal; unfold k; lia).
    split.
    - apply Z.div_le_lower_bound; lia.
    - apply Z.div_lt_upper_bound; lia. }
  destruct (Z.eq_dec M (2 ^ 53)) as [HMtop | HMtop].
  - (* the mantissa carried into the next binade *)
    rewrite HMtop.
    replace (Zdigits2 (2 ^ 53)) with 54 by reflexivity.
    rewrite (fexp_normal (54 + (ex + k))) by lia.
    replace (54 + (ex + k) - 53 - (ex + k)) with 1 by lia.
    cbn [shr shr_record_of_loc SpecFloat.iter_pos shr_1 shr_m].
    change (2 ^ 53) with (Zpos (xO (Z.to_pos (2 ^ 52)))).
    cbn [shr_1 shr_m].
    destruct (Z.leb_spec (ex + k + 1) (emax - prec)) as [_ | Hbad];
      [| unfold emax, prec in Hbad; lia].
    exists (Z.to_pos (2 ^ 52)), (ex + k + 1), M.
    split; [reflexivity|].
    split; [cbn; lia|].
    split; [right; reflexivity|].
    split; [replace (ex + k + 1 - (ex + k)) with 1 by lia; rewrite HMtop; reflexivity|].
    repeat split; auto; lia.
  - assert (HMr : 2 ^ 52 <= M < 2 ^ 53) by lia.
    rewrite (Zdigits2_unique M 53 ltac:(lia) HMr).
    rewrite (fexp_normal (53 + (ex + k))) by lia.
    replace (53 + (ex + k) - 53 - (ex + k)) with 0 by lia.
    cbn [shr shr_record_of_loc shr_m].
    destruct M as [|pM|pM] eqn:EM; try (pose proof (Z.pow_pos_nonneg 2 52); lia).
    destruct (Z.leb_spec (ex + k) (emax - prec)) as [_ | Hbad];
      [| unfold emax, prec in Hbad; lia].
    exists pM, (ex + k), (Zpos pM).
    split; [reflexivity|].
    split; [lia|].
    split; [left; reflexivity|].
    split; [rewrite Z.sub_diag, Z.pow_0_r; lia|].
    repeat split; auto; lia.
Qed.

(* Relative-error form: W is the rounded significand in units of 2^ex. *)
Lemma round_aux_rel sx N D mx ex lx :
  0 < D -> mx = N / D -> lx = loc_of (N mod D) D -> 2 ^ 52 <= mx ->
  let k := Zdigits2 mx - 53 in
  -1074 <= ex + k -> ex + k + 1 <= 971 ->
  exists m e W,
    binary_round_aux prec emax sx mx ex lx = S754_finite sx m e /\
    2 ^ 52 <= Zpos m < 2 ^ 53 /\
    ex + k <= e <= ex + k + 1 /\
    Zpos m * 2 ^ (e - ex) = W /\
    2 ^ 53 * Z.abs (W * D - N) <= N /\
    (forall j, N <= 2 ^ j * D -> W <= 2 ^ j) /\
    (N mod (2 ^ k * D) = 0 -> W * D = N).
Proof.
  intros HD Hmx Hlx Hlo k Hnorm Hover.
  destruct (round_aux_pos sx N D mx ex lx HD Hmx Hlx Hlo Hnorm Hover)
    as (m & e & M & Heq & Hm & He & HM & Hk & HMb & HMn & HMe).
  fold k in He, HM, Hk, HMb, HMn, HMe.
  assert (H2k : 0 < 2 ^ k) by (apply Z.pow_pos_nonneg; lia).
  assert (Hmx0 : 0 < mx) by (pose proof (Z.pow_pos_nonneg 2 52); lia).
  pose proof (Zdigits2_bounds mx Hmx0) as [Hdlo _].
  assert (E1 : 2 ^ (Zdigits2 mx - 1) = 2 ^ 52 * 2 ^ k)
    by (rewrite <- Z.pow_add_r by lia; f_equal; unfold k; lia).
  assert (HND : mx * D <= N).
  { subst mx. rewrite Z.mul_comm. apply Z.mul_div_le. lia. }
  assert (HNlo : 2 ^ 52 * (2 ^ k * D) <= N) by nia.
  exists m, e, (M * 2 ^ k).
  split; [exact Heq|]. split; [exact Hm|]. split; [lia|].
  split.
  { rewrite <- HM, <- Z.mul_assoc, <- Z.pow_add_r by lia. do 2 f_equal. lia. }
  split.
  { replace (M * 2 ^ k * D - N) with (M * (2 ^ k * D) - N) by ring.
    change (2 ^ 53) with (2 * 2 ^ 52). nia. }
  split.
  { intros j Hj.
    assert (Hjk : k + 52 <= j).
    { destruct (Z.le_gt_cases (k + 52) j) as [|Hlt]; [assumption|].
      destruct (Z.le_gt_cases 0 j) as [Hj0|Hj0].
      - assert (2 * 2 ^ j <= 2 ^ (k + 52)).
        { rewrite <- Z.pow_succ_r by lia. apply Z.pow_le_mono_r; lia. }
        rewrite Z.pow_add_r in * by lia. nia.
      - rewrite Z.pow_neg_r in Hj by lia. nia. }
    assert (E2 : 2 ^ j = 2 ^ (j - k) * 2 ^ k)
      by (rewrite <- Z.pow_add_r by lia; f_equal; lia).
    assert (H2jk : 0 < 2 ^ (j - k)) by (apply Z.pow_pos_nonneg; lia).
    rewrite E2. apply Z.mul_le_mono_nonneg_r; [lia|].
    pose proof (Z.div_mod N (2 ^ k * D) ltac:(nia)) as Hdm.
    pose proof (Z.mod_pos_bound N (2 ^ k * D) ltac:(nia)) as HR.
    destruct (Z.eq_dec (N mod (2 ^ k * D)) 0) as [HR0 | HR0].
    - rewrite (HMe HR0). apply Z.div_le_upper_bound; nia.
    - assert (N / (2 ^ k * D) < 2 ^ (j - k)); [|lia].
      apply Z.div_lt_upper_bound; [nia|].
      assert (N <> 2 ^ (j - k) * (2 ^ k * D)); [|nia].
      intros Habs. apply HR0. rewrite Habs. apply Z.mod_mul. nia. }
  intros HR0. rewrite (HMe HR0).
  pose proof (Z.div_mod N (2 ^ k * D) ltac:(nia)) as Hdm. nia.
Qed.


Lemma Zdigits2_le m j : 0 < m -> m < 2 ^ j -> Zdigits2 m <= j.
Proof.
  intros Hm Hj. pose proof (Zdigits2_bounds m Hm) as [Hlo _].
  pose proof (Zdigits2_pos m Hm).
  destruct (Z.le_gt_cases (Zdigits2 m) j) as [|Hgt]; [assumption|].
  assert (2 ^ j <= 2 ^ (Zdigits2 m - 1)); [|lia].
  destruct (Z.le_gt_cases 0 j); [apply Z.pow_le_mono_r; lia|].
  rewrite (Z.pow_neg_r 2 j) by lia. apply Z.pow_nonneg. lia.
Qed.

Lemma Zdigits2_gt m j : 0 <= j -> 2 ^ j <= m -> j < Zdigits2 m.
Proof.
  intros Hj Hm.
  assert (0 < m) by (pose proof (Z.pow_pos_nonneg 2 j); lia).
  pose proof (Zdigits2_bounds m ltac:(assumption)) as [_ Hhi].
  destruct (Z.lt_ge_cases j (Zdigits2 m)) as [|Hge]; [assumption|].
  assert (2 ^ Zdigits2 m <= 2 ^ j) by (apply Z.pow_le_mono_r; [lia|lia]). lia.
Qed.

Lemma Pos_iter_xO p n : Zpos (Pos.iter xO p n) = Zpos p * 2 ^ Zpos n.
Proof.
  induction n as [|n IH] using Pos.peano_ind.
  - cbn [Pos.iter]. lia.
  - rewrite Pos.iter_succ, Pos2Z.inj_xO, IH, Pos2Z.inj_succ, Z.pow_succ_r by lia. ring.
Qed.

Lemma of_Z_pos n :
  0 < n -> Zdigits2 n <= 1023 ->
  exists m e,
    of_Z n = S754_finite false m e /\
    2 ^ 52 <= Zpos m < 2 ^ 53 /\
    Zdigits2 n - 53 <= e <= Zdigits2 n - 52 /\
    (n < 2 ^ 53 -> Zpos m = n * 2 ^ (53 - Zdigits2 n) /\ e = Zdigits2 n - 53).
Proof.
  intros Hn Hd. destruct n as [|p|p]; try lia.
  pose proof (Zdigits2_bounds (Zpos p) Hn) as [Hlo Hhi].
  pose proof (Zdigits2_pos (Zpos p) Hn) as Hdp.
  unfold of_Z, binary_normalize, binary_round.
  change (Zpos (digits2_pos p)) with (Zdigits2 (Zpos p)).
  remember (Zdigits2 (Zpos p)) as d eqn:Hdef.
  rewrite Z.add_0_r, (fexp_normal d) by lia.
  unfold shl_align. rewrite Z.sub_0_r.
  destruct (d - 53) as [|q|q] eqn:Eq.
  - (* exactly 53 digits *)
    destruct (round_aux_rel false (Zpos p) 1 (Zpos p) 0 loc_Exact) as
      (m & e & W & Heq & Hm & He & HW & _ & _ & Hex);
      try (rewrite <- ?Hdef, ?Z.div_1_r, ?Z.mod_1_r; try reflexivity; lia).
    { replace 52 with (d - 1) by lia. exact Hlo. }
    rewrite <- Hdef, Eq in He, Hex.
    rewrite Z.pow_0_r, Z.mul_1_l, Z.mod_1_r in Hex. specialize (Hex eq_refl).
    assert (Hd53 : d = 53) by lia. rewrite Hd53 in Hhi.
    assert (e = 0).
    { destruct (Z.eq_dec e 0) as [|Hne]; [assumption|].
      assert (e = 1) by lia. subst e. change (2 ^ (1 - 0)) with 2 in HW. lia. }
    subst e. change (2 ^ (0 - 0)) with 1 in HW.
    exists m, 0. split; [exact Heq|]. split; [exact Hm|]. split; [lia|].
    intros _. split; [|lia]. rewrite Hd53. change (2 ^ (53 - 53)) with 1. lia.
  - (* more than 53 digits: rounding *)
    destruct (round_aux_rel false (Zpos p) 1 (Zpos p) 0 loc_Exact) as
      (m & e & W & Heq & Hm & He & HW & _ & _ & Hex);
      try (rewrite <- ?Hdef, ?Z.div_1_r, ?Z.mod_1_r; try reflexivity; lia).
    { assert (2 ^ 52 <= 2 ^ (d - 1)) by (apply Z.pow_le_mono_r; lia). lia. }
    rewrite <- Hdef in He. exists m, e. split; [exact Heq|]. split; [exact Hm|]. split; [lia|].
    intros Hsmall. exfalso.
    assert (2 ^ 53 <= 2 ^ (d - 1)) by (apply Z.pow_le_mono_r; lia). lia.
  - (* fewer than 53 digits: exact after alignment *)
    rewrite Pos_iter_xO.
    assert (Hq : Zpos q = 53 - d) by lia.
    set (N := Zpos p * 2 ^ Zpos q).
    assert (H2q : 0 < 2 ^ Zpos q) by (apply Z.pow_pos_nonneg; lia).
    assert (HNlo : 2 ^ 52 <= N).
    { unfold N. replace 52 with ((d - 1) + Zpos q) by lia. rewrite Z.pow_add_r by lia. nia. }
    assert (HNhi : N < 2 ^ 53).
    { unfold N. replace 53 with (d + Zpos q) by lia. rewrite Z.pow_add_r by lia. nia. }
    assert (HdN : Zdigits2 N = 53) by (apply Zdigits2_unique; lia).
    destruct (round_aux_rel false N 1 N (Z.neg q) loc_Exact) as
      (m & e & W & Heq & Hm & He & HW & _ & _ & Hex);
      try (rewrite ?HdN, ?Z.div_1_r, ?Z.mod_1_r; try reflexivity; lia).
    rewrite HdN in He, Hex. replace (53 - 53) with 0 in * by lia.
    rewrite Z.pow_0_r, Z.mul_1_l, Z.mod_1_r in Hex. specialize (Hex eq_refl).
    assert (e = Z.neg q).
    { destruct (Z.eq_dec e (Z.neg q)) as [|Hne]; [assumption|].
      assert (e = Z.neg q + 1) by lia. subst e.
      replace (Z.neg q + 1 - Z.neg q) with 1 in HW by lia. rewrite Z.pow_1_r in HW. lia. }
    subst e. rewrite Z.sub_diag, Z.pow_0_r in HW.
    exists m, (Z.neg q). split; [exact Heq|]. split; [exact Hm|]. split; [lia|].
    intros _. split; [|lia]. rewrite <- Hq. fold N. lia.
Qed.

Lemma fmul_pos mx ex my ey :
  2 ^ 52 <= Zpos mx < 2 ^ 53 -> 2 ^ 52 <= Zpos my < 2 ^ 53 ->
  -1126 <= ex + ey <= 917 ->
  exists m e W,
    fmul (S754_finite false mx ex) (S754_finite false my ey) = S754_finite false m e /\
    2 ^ 52 <= Zpos m < 2 ^ 53 /\
    ex + ey + 52 <= e <= ex + ey + 54 /\
    Zpos m * 2 ^ (e - (ex + ey)) = W /\
    2 ^ 53 * Z.abs (W - Zpos mx * Zpos my) <= Zpos mx * Zpos my.
Proof.
  intros Hx Hy He. unfold fmul, SFmul. cbn [xorb].
  set (P := Zpos (mx * my)).
  assert (HP : P = Zpos mx * Zpos my) by reflexivity.
  assert (HPlo : 2 ^ 104 <= P).
  { rewrite HP. change (2 ^ 104) with (2 ^ 52 * 2 ^ 52). nia. }
  assert (HPhi : P < 2 ^ 106).
  { rewrite HP. change (2 ^ 106) with (2 ^ 53 * 2 ^ 53). nia. }
  assert (Hd1 : 104 < Zdigits2 P) by (apply Zdigits2_gt; lia).
  assert (Hd2 : Zdigits2 P <= 106) by (apply Zdigits2_le; lia).
  destruct (round_aux_rel false P 1 P (ex + ey) loc_Exact) as
      (m & e & W & Heq & Hm & Hee & HW & Hrel & _ & _);
    try (rewrite ?Z.div_1_r, ?Z.mod_1_r; try reflexivity; lia).
  exists m, e, W. rewrite Z.mul_1_r in Hrel. rewrite <- HP.
  repeat split; try assumption; lia.
Qed.

Lemma trunc_pos_scale m e E W :
  0 <= m -> E <= e -> m * 2 ^ (e - E) = W -> trunc_pos m e = trunc_pos W E.
Proof.
  intros Hm HE HW. unfold trunc_pos.
  assert (Hpow : forall a b, 0 <= a -> 0 <= b -> 2 ^ (a + b) = 2 ^ a * 2 ^ b)
    by (intros; apply Z.pow_add_r; lia).
  assert (Hpos : forall a, 0 <= a -> 0 < 2 ^ a) by (intros; apply Z.pow_pos_nonneg; lia).
  destruct (Z.leb_spec 0 e) as [He | He], (Z.leb_spec 0 E) as [HE0 | HE0]; try lia.
  - subst W. rewrite <- Z.mul_assoc, <- Hpow by lia. do 2 f_equal. lia.
  - subst W. replace (e - E) with (e + - E) by lia. rewrite Hpow by lia.
    rewrite Z.mul_assoc. symmetry. apply Z.div_mul. pose proof (Hpos (- E) ltac:(lia)). lia.
  - subst W. replace (- E) with ((- e) + (e - E)) by lia. rewrite Hpow by lia.
    pose proof (Hpos (- e) ltac:(lia)). pose proof (Hpos (e - E) ltac:(lia)).
    symmetry. apply Z.div_mul_cancel_r; lia.
Qed.

Lemma trunc_pos_mono W1 W2 E : W1 <= W2 -> trunc_pos W1 E <= trunc_pos W2 E.
Proof.
  intros HW. unfold trunc_pos. destruct (Z.leb_spec 0 E).
  - apply Z.mul_le_mono_nonneg_r; [apply Z.pow_nonneg|]; lia.
  - apply Z.div_le_mono; [apply Z.pow_pos_nonneg|]; lia.
Qed.

Lemma trunc_pos_nonneg W E : 0 <= W -> 0 <= trunc_pos W E.
Proof.
  intros HW. unfold trunc_pos. destruct (Z.leb_spec 0 E).
  - apply Z.mul_nonneg_nonneg; [|apply Z.pow_nonneg]; lia.
  - apply Z.div_pos; [|apply Z.pow_pos_nonneg]; lia.
Qed.


Lemma int_of_product_mono n a b :
  0 < n -> Zdigits2 n <= 900 ->
  2 ^ 52 <= Zpos a < 2 ^ 53 -> 2 ^ 52 <= Zpos b < 2 ^ 53 ->
  Zpos a * (2 ^ 53 + 1) <= Zpos b * (2 ^ 53 - 1) ->
  exists i j,
    int_of_product n (S754_finite false a (-53)) = Ok i /\
    int_of_product n (S754_finite false b (-53)) = Ok j /\
    0 <= i <= j.
Proof.
  intros Hn Hd Ha Hb Hab.
  unfold int_of_product, int_mul_float, float_of_int.
  destruct (of_Z_pos n Hn ltac:(lia)) as (mn & en & -> & Hmn & Hen & _).
  pose proof (Zdigits2_pos n Hn) as Hdn.
  cbn [mbind result_bind].
  destruct (fmul_pos mn en a (-53) Hmn Ha ltac:(lia)) as (m1 & e1 & W1 & -> & Hm1 & He1 & HW1 & Hr1).
  destruct (fmul_pos mn en b (-53) Hmn Hb ltac:(lia)) as (m2 & e2 & W2 & -> & Hm2 & He2 & HW2 & Hr2).
  cbn [int_of_float cond_Zopp].
  rewrite (trunc_pos_scale (Zpos m1) e1 (en + -53) W1) by lia.
  rewrite (trunc_pos_scale (Zpos m2) e2 (en + -53) W2) by lia.
  eexists _, _. split; [reflexivity|]. split; [reflexivity|].
  assert (0 <= W1).
  { rewrite <- HW1. apply Z.mul_nonneg_nonneg; [lia | apply Z.pow_nonneg; lia]. }
  split; [now apply trunc_pos_nonneg|]. apply trunc_pos_mono.
  assert (2 ^ 53 * W1 <= 2 ^ 53 * W2); [|lia].
  transitivity (Zpos mn * (Zpos a * (2 ^ 53 + 1))); [lia|].
  transitivity (Zpos mn * (Zpos b * (2 ^ 53 - 1))); [nia|lia].
Qed.

Lemma new_location_loc_of D R : 0 < D -> 0 <= R < D -> new_location D R = loc_of R D.
Proof.
  intros HD HR. unfold new_location, new_location_even, new_location_odd, loc_of.
  destruct (Z.even D) eqn:Ev; [reflexivity|].
  destruct (Z.eqb_spec R 0); [reflexivity|]. f_equal.
  assert (Hodd : Z.odd D = true) by (rewrite <- Z.negb_even, Ev; reflexivity).
  apply Z.odd_spec in Hodd. destruct Hodd as [c Hc].
  destruct (Z.compare_spec (2 * R + 1) D), (Z.compare_spec (2 * R) D); try reflexivity; lia.
Qed.

Lemma shift_match m s :
  0 <= s ->
  match s with Z.pos _ => Z.shiftl m s | 0 => m | Z.neg _ => 0 end = m * 2 ^ s.
Proof.
  intros Hs. destruct s as [|ps|ps]; try lia.
  apply Z.shiftl_mul_pow2. lia.
Qed.

Lemma fdiv_core_pos sx sy mx ex my ey :
  let E := (Zdigits2 (Zpos mx) + ex) - (Zdigits2 (Zpos my) + ey) in
  -1021 <= E <= 1022 -> -1074 <= ex - ey ->
  exists m e W s e',
    e' = Z.min (E - 53) (ex - ey) /\ s = ex - ey - e' /\ 0 <= s /\
    fdiv (S754_finite sx mx ex) (S754_finite sy my ey) = S754_finite (xorb sx sy) m e /\
    2 ^ 52 <= Zpos m < 2 ^ 53 /\
    E - 53 <= e <= E - 51 /\ e' <= e /\
    Zpos m * 2 ^ (e - e') = W /\
    2 ^ 53 * Z.abs (W * Zpos my - Zpos mx * 2 ^ s) <= Zpos mx * 2 ^ s /\
    2 ^ 52 * Zpos my <= Zpos mx * 2 ^ s /\
    (forall j, Zpos mx * 2 ^ s <= 2 ^ j * Zpos my -> W <= 2 ^ j).
Proof.
  intros E HE Hsub.
  pose proof (Zdigits2_bounds (Zpos mx) eq_refl) as [Hxlo Hxhi].
  pose proof (Zdigits2_bounds (Zpos my) eq_refl) as [Hylo Hyhi].
  pose proof (Zdigits2_pos (Zpos mx) eq_refl) as Hdx.
  pose proof (Zdigits2_pos (Zpos my) eq_refl) as Hdy.
  remember (Zdigits2 (Zpos mx)) as d1 eqn:Hd1.
  remember (Zdigits2 (Zpos my)) as d2 eqn:Hd2.
  assert (HEdef : E = d1 + ex - (d2 + ey)) by (unfold E; reflexivity).
  clearbody E.
  remember (Z.min (E - 53) (ex - ey)) as e' eqn:He'def.
  remember (ex - ey - e') as s eqn:Hsdef.
  assert (Hs : 0 <= s) by lia.
  assert (Hs' : 53 - d1 + d2 <= s) by lia.
  set (N := Zpos mx * 2 ^ s).
  assert (H2s : 0 < 2 ^ s) by (apply Z.pow_pos_nonneg; lia).
  assert (HN0 : 0 < N) by (unfold N; nia).
  assert (Hcore : SFdiv_core_binary prec emax (Zpos mx) ex (Zpos my) ey =
                  (N / Zpos my, e', loc_of (N mod Zpos my) (Zpos my))).
  { unfold SFdiv_core_binary. rewrite <- Hd1, <- Hd2.
    rewrite (fexp_normal (d1 + ex - (d2 + ey))) by lia.
    rewrite <- HEdef, <- He'def, <- Hsdef.
    rewrite (shift_match (Zpos mx) s Hs). fold N. unfold Z.div, Z.modulo.
    pose proof (Z.mod_pos_bound N (Zpos my) eq_refl) as HR. unfold Z.modulo in HR.
    destruct (Z.div_eucl N (Zpos my)) as [q r].
    rewrite new_location_loc_of by lia. reflexivity. }
  unfold fdiv, SFdiv. rewrite Hcore.
  (* the quotient has at least 53 digits *)
  assert (Hqlo : 2 ^ 52 <= N / Zpos my).
  { apply Z.div_le_lower_bound; [lia|].
    assert (2 ^ (d1 - 1 + s) = 2 ^ (d1 - 1) * 2 ^ s) by (apply Z.pow_add_r; lia).
    assert (2 ^ (52 + d2) <= 2 ^ (d1 - 1 + s)) by (apply Z.pow_le_mono_r; lia).
    assert (2 ^ (52 + d2) = 2 ^ 52 * 2 ^ d2) by (apply Z.pow_add_r; lia).
    unfold N. nia. }
  assert (Hqhi : N / Zpos my < 2 ^ (d1 + s - d2 + 1)).
  { apply Z.div_lt_upper_bound; [lia|].
    assert (2 ^ (d1 + s) = 2 ^ d1 * 2 ^ s) by (apply Z.pow_add_r; lia).
    assert (2 ^ (d1 + s) = 2 ^ (d2 - 1) * 2 ^ (d1 + s - d2 + 1))
      by (rewrite <- Z.pow_add_r by lia; f_equal; lia).
    assert (0 < 2 ^ (d1 + s - d2 + 1)) by (apply Z.pow_pos_nonneg; lia).
    unfold N. nia. }
  assert (Hq0 : 0 < N / Zpos my) by (pose proof (Z.pow_pos_nonneg 2 52); lia).
  pose proof (Zdigits2_le _ _ Hq0 Hqhi) as Hdq_hi.
  assert (Hdq_lo : d1 + s - d2 <= Zdigits2 (N / Zpos my)).
  { assert (d1 + s - d2 - 1 < Zdigits2 (N / Zpos my)); [|lia].
    apply Zdigits2_gt; [lia|].
    apply Z.div_le_lower_bound; [lia|].
    assert (2 ^ (d1 - 1 + s) = 2 ^ (d1 - 1) * 2 ^ s) by (apply Z.pow_add_r; lia).
    assert (2 ^ (d1 - 1 + s) = 2 ^ d2 * 2 ^ (d1 + s - d2 - 1))
      by (rewrite <- Z.pow_add_r by lia; f_equal; lia).
    assert (0 < 2 ^ (d1 + s - d2 - 1)) by (apply Z.pow_pos_nonneg; lia).
    unfold N. nia. }
  destruct (round_aux_rel (xorb sx sy) N (Zpos my) (N / Zpos my) e' (loc_of (N mod Zpos my) (Zpos my)))
    as (m & e & W & Heq & Hm & He & HW & Hrel & Hceil & _);
    try reflexivity; try lia.
  exists m, e, W, s, e'.
  split; [first [reflexivity | assumption]|]. split; [first [reflexivity | assumption]|]. split; [exact Hs|].
  split; [exact Heq|]. split; [exact Hm|].
  split; [lia|]. split; [lia|].
  split; [exact HW|]. split; [exact Hrel|]. split; [|exact Hceil].
  pose proof (Z.mul_div_le N (Zpos my) eq_refl). fold N. nia.
Qed.

Lemma Qpow2_pos e : (0 < 2 ^ e)%Q.
Proof. apply Qpower_0_lt. reflexivity. Qed.

Lemma Qpow2_nz e : ~ (2 ^ e == 0)%Q.
Proof. intros H. pose proof (Qpow2_pos e) as Hp. rewrite H in Hp. discriminate. Qed.

Lemma inject_Z_pos n : 0 < n -> (0 < inject_Z n)%Q.
Proof. intros. change 0%Q with (inject_Z 0). now rewrite <- Zlt_Qlt. Qed.

Lemma inject_Z_nz n : 0 < n -> ~ (inject_Z n == 0)%Q.
Proof. intros Hn H. pose proof (inject_Z_pos n Hn) as Hp. rewrite H in Hp. discriminate. Qed.

Lemma Qpow2_add a b : (2 ^ (a + b) == 2 ^ a * 2 ^ b)%Q.
Proof. apply Qpower_plus. discriminate. Qed.

Lemma Qpow2_inject a : 0 <= a -> (inject_Z (2 ^ a) == 2 ^ a)%Q.
Proof. intros. now rewrite Zpower_Qpower. Qed.

Lemma SF2Q_scaled m e e' W :
  e' <= e -> Zpos m * 2 ^ (e - e') = W ->
  (SF2Q (S754_finite false m e) == inject_Z W * 2 ^ e')%Q.
Proof.
  intros He HW. cbn [SF2Q]. subst W.
  rewrite inject_Z_mult, Qpow2_inject by lia.
  replace e with ((e - e') + e') at 1 by lia. rewrite Qpow2_add. ring.
Qed.

Lemma fdiv_spec mx ex my ey :
  let E := (Zdigits2 (Zpos mx) + ex) - (Zdigits2 (Zpos my) + ey) in
  -1021 <= E <= 1022 -> -1074 <= ex - ey ->
  exists m e,
    fdiv (S754_finite false mx ex) (S754_finite false my ey) = S754_finite false m e /\
    2 ^ 52 <= Zpos m < 2 ^ 53 /\
    E - 53 <= e <= E - 51 /\
    let x := (SF2Q (S754_finite false mx ex) / SF2Q (S754_finite false my ey))%Q in
    let v := SF2Q (S754_finite false m e) in
    (x * (1 - ulp_rel) <= v /\ v <= x * (1 + ulp_rel) /\ (x <= 1 -> v <= 1))%Q.
Proof.
  intros E HE Hsub.
  destruct (fdiv_core_pos false false mx ex my ey HE Hsub)
    as (m & e & W & s & e' & He' & Hs & Hs0 & Heq & Hm & He & Hee & HW & Hrel & Hbig & Hceil).
  fold E in He', He. clearbody E.
  exists m, e. split; [exact Heq|]. split; [exact Hm|]. split; [exact He|].
  intros x v.
  assert (Hv : (v == inject_Z W * 2 ^ e')%Q) by (apply SF2Q_scaled; assumption).
  set (N := Zpos mx * 2 ^ s) in *.
  assert (Hx : (x == inject_Z N / inject_Z (Zpos my) * 2 ^ e')%Q).
  { unfold x, N. cbn [SF2Q]. rewrite inject_Z_mult, Qpow2_inject by lia.
    replace ex with (s + e' + ey) at 1 by lia. rewrite !Qpow2_add.
    field. split; [apply inject_Z_nz; lia | apply Qpow2_nz]. }
  pose proof (Qpow2_pos e') as Hc.
  set (c := (2 ^ e')%Q) in *.
  assert (HB : (0 < inject_Z (Zpos my))%Q) by (apply inject_Z_pos; lia).
  set (B := inject_Z (Zpos my)) in *.
  assert (HNpos : 0 < N).
  { unfold N. assert (0 < 2 ^ s) by (apply Z.pow_pos_nonneg; lia). nia. }
  assert (HNq : (0 < inject_Z N)%Q) by (apply inject_Z_pos; lia).
  (* transfer the integer error bound *)
  assert (Hlo : (inject_Z N * (1 - ulp_rel) <= inject_Z W * B)%Q).
  { assert (HZ : N * (2 ^ 53 - 1) <= 2 ^ 53 * (W * Zpos my)) by lia.
    rewrite Zle_Qle, !inject_Z_mult in HZ. fold B in HZ.
    change (inject_Z (2 ^ 53 - 1)) with (9007199254740991 # 1)%Q in HZ.
    change (inject_Z (2 ^ 53)) with (9007199254740992 # 1)%Q in HZ.
    unfold ulp_rel. lra. }
  assert (Hhi : (inject_Z W * B <= inject_Z N * (1 + ulp_rel))%Q).
  { assert (HZ : 2 ^ 53 * (W * Zpos my) <= N * (2 ^ 53 + 1)) by lia.
    rewrite Zle_Qle, !inject_Z_mult in HZ. fold B in HZ.
    change (inject_Z (2 ^ 53 + 1)) with (9007199254740993 # 1)%Q in HZ.
    change (inject_Z (2 ^ 53)) with (9007199254740992 # 1)%Q in HZ.
    unfold ulp_rel. lra. }
  set (Nq := inject_Z N) in *. set (Wq := inject_Z W) in *.
  assert (Ht : (Nq / B * B == Nq)%Q) by (field; lra).
  set (t := (Nq / B)%Q) in *.
  assert (Hlo' : (t * (1 - ulp_rel) <= Wq)%Q) by (unfold ulp_rel in *; nra).
  assert (Hhi' : (Wq <= t * (1 + ulp_rel))%Q) by (unfold ulp_rel in *; nra).
  rewrite Hv, Hx.
  split; [|split].
  - unfold ulp_rel in *; nra.
  - unfold ulp_rel in *; nra.
  - intros Hx1'. assert (Hx1 : (t * c <= 1)%Q) by first [exact Hx1' | rewrite <- Hx; exact Hx1'].
    assert (Ht1 : (1 <= t)%Q).
    { assert (HZ : 1 * Zpos my <= N) by (fold N in Hbig; lia).
      rewrite Zle_Qle, inject_Z_mult in HZ. fold B Nq in HZ.
      change (inject_Z 1) with 1%Q in HZ. nra. }
    destruct (Z.le_gt_cases e' 0) as [Hneg | Hpos].
    + (* 1 is a multiple of the unit in the last place *)
      assert (Hc' : (c * inject_Z (2 ^ (- e')) == 1)%Q).
      { unfold c. rewrite Qpow2_inject by lia. rewrite <- Qpow2_add.
        replace (e' + - e') with 0 by lia. reflexivity. }
      assert (H2j : (0 < inject_Z (2 ^ (- e')))%Q)
        by (apply inject_Z_pos, Z.pow_pos_nonneg; lia).
      assert (HZ : N <= 2 ^ (- e') * Zpos my).
      { rewrite Zle_Qle, inject_Z_mult. fold B Nq.
        set (p := inject_Z (2 ^ (- e'))) in *. nra. }
      apply Hceil in HZ. rewrite Zle_Qle in HZ. fold Wq in HZ.
      set (p := inject_Z (2 ^ (- e'))) in *. nra.
    + exfalso.
      assert (Hc1 : (1 <= c)%Q) by (apply Qpower_1_le; [lra | lia]).
      assert (HZ : 2 * Zpos my <= N).
      { fold N in Hbig. change (2 ^ 52) with (2 * 2 ^ 51) in Hbig. lia. }
      rewrite Zle_Qle, inject_Z_mult in HZ. fold B Nq in HZ.
      change (inject_Z 2) with 2%Q in HZ. nra.
Qed.

End Binary64Facts.

(** ** Slices and the shuffle *)

Module PyListFacts.
Import PyList.

Lemma swap_perm {A : Type} (l : list A) (i j : nat) : swap l i j ≡ₚ l.
Proof.
  unfold swap.
  destruct (l !! i) as [a|] eqn:Hi; [|reflexivity].
  destruct (l !! j) as [b|] eqn:Hj; [|reflexivity].
  now apply Permutation_insert_swap.
Qed.

Lemma shuffle_from_perm {A : Type} (raw : nat -> nat) (i : nat) :
  forall (k : nat) (l : list A), shuffle_from raw k i l ≡ₚ l.
Proof.
  induction i as [|i IH]; intros k l; cbn [shuffle_from]; [reflexivity|].
  rewrite IH. apply swap_perm.
Qed.

(** Whatever the random draws, the shuffle only reorders the list. *)
Lemma shuffle_perm {A : Type} (raw : nat -> nat) (l : list A) : shuffle raw l ≡ₚ l.
Proof. apply shuffle_from_perm. Qed.

Lemma shuffle_length {A : Type} (raw : nat -> nat) (l : list A) :
  length (shuffle raw l) = length l.
Proof. now rewrite shuffle_perm. Qed.

Lemma norm_index_nonneg (len i : Z) : (0 <= i)%Z -> norm_index len i = Z.min i len.
Proof. intros Hi. unfold norm_index. destruct (Z.ltb_spec i 0); lia. Qed.

(** The three slices at [0 <= a <= b] put end to end give the list
    back, also when the bounds exceed its length. *)
Lemma slices_app {A : Type} (l : list A) (a b : Z) :
  (0 <= a <= b)%Z ->
  slice l None (Some a) ++ slice l (Some a) (Some b) ++ slice l (Some b) None = l.
Proof.
  intros Hab. unfold slice. rewrite !norm_index_nonneg by lia.
  set (len := Z.of_nat (length l)).
  set (a' := Z.to_nat (Z.min a len)). set (b' := Z.to_nat (Z.min b len)).
  replace (Z.to_nat (Z.min a len - 0)) with a' by (unfold a'; lia).
  replace (Z.to_nat 0) with 0%nat by reflexivity. rewrite drop_0.
  replace (Z.to_nat (Z.min b len - Z.min a len)) with (b' - a')%nat by (unfold a', b'; lia).
  rewrite (take_ge (drop b' l)) by (rewrite length_drop; unfold b', len; lia).
  rewrite app_assoc, take_take_drop.
  replace (a' + (b' - a'))%nat with b' by (unfold a', b'; lia).
  apply take_drop.
Qed.

Lemma slices_length {A : Type} (l : list A) (a b : Z) :
  (0 <= a <= b)%Z -> (b <= Z.of_nat (length l))%Z ->
  length (slice l None (Some a)) = Z.to_nat a /\
  length (slice l (Some a) (Some b)) = Z.to_nat (b - a) /\
  length (slice l (Some b) None) = (length l - Z.to_nat b)%nat.
Proof.
  intros Hab Hb. unfold slice. rewrite !norm_index_nonneg by lia.
  rewrite !length_take, !length_drop.
  remember (length l) as n eqn:Hn. clear Hn l.
  rewrite !Z.min_l by lia.
  replace (Z.to_nat 0) with 0%nat by reflexivity.
  repeat split; lia.
Qed.

End PyListFacts.

(** ** The dataset splitter *)

Module SplitterFacts.
Import Py Binary64 Binary64Facts PyList PyListFacts Splitter.

(** The default ratios: [0.7 + 0.2] is not the double [0.9] but the
    one just below it. *)
Lemma ratio_sum : fadd lit_0_7 lit_0_2 = S754_finite false 8106479329266892 (-53).
Proof. vm_compute. reflexivity. Qed.

(** Each literal is within half a unit in the last place of the
    decimal it stands for. *)
Lemma literals_nearest :
  int_truediv 7 10 = Ok lit_0_7 /\ int_truediv 2 10 = Ok lit_0_2 /\
  int_truediv 1 10 = Ok lit_0_1 /\ int_truediv 9 10 = Ok lit_0_9.
Proof. vm_compute. repeat split; reflexivity. Qed.

Lemma split_indices_100 : split_indices 100 lit_0_7 lit_0_2 = Ok (70, 89)%Z.
Proof. vm_compute. reflexivity. Qed.

Lemma step3_indices_100 :
  int_of_product 100 lit_0_7 = Ok 70%Z /\ int_of_product 100 lit_0_9 = Ok 90%Z.
Proof. vm_compute. split; reflexivity. Qed.

Lemma cut_lengths {A : Type} (l : list A) (a b : Z) :
  (0 <= a <= b)%Z -> (b <= Z.of_nat (length l))%Z ->
  length (train (cut l a b)) = Z.to_nat a /\
  length (val (cut l a b)) = Z.to_nat (b - a) /\
  length (test (cut l a b)) = (length l - Z.to_nat b)%nat.
Proof. intros. now apply slices_length. Qed.

(** C1, on the code: with the default ratios, 100 pairs are split
    into 70, 19 and 11 whatever the shuffle does, not into 70, 20 and
    10: [int(100 * (0.7 + 0.2))] is 89. *)
Theorem split_sizes_100 {A : Type} (raw : nat -> nat) (valid_pairs : list A) :
  length valid_pairs = 100 ->
  exists s, split_pairs raw lit_0_7 lit_0_2 valid_pairs = Ok s /\
            length (train s) = 70 /\ length (val s) = 19 /\ length (test s) = 11.
Proof.
  intros Hlen. unfold split_pairs.
  rewrite shuffle_length, Hlen, split_indices_100. cbn [mbind result_bind].
  eexists. split; [reflexivity|].
  destruct (cut_lengths (shuffle raw valid_pairs) 70 89) as (H1 & H2 & H3);
    [lia | rewrite shuffle_length, Hlen; lia |].
  rewrite H1, H2, H3, shuffle_length, Hlen. repeat split; reflexivity.
Qed.

Lemma split_sizes_100_witness :
  exists s, split_pairs (fun k => k) lit_0_7 lit_0_2 (seq 0 100) = Ok s /\
            length (train s) = 70 /\ length (val s) = 19 /\ length (test s) = 11.
Proof. apply (split_sizes_100 (fun k => k) (seq 0 100)). reflexivity. Defined.

(** The sibling pipeline writes the literal [0.9] and does split 100
    pairs into 70, 20 and 10. *)
Lemma step3_split_sizes_100 {A : Type} (raw : nat -> nat) (valid_pairs : list A) :
  length valid_pairs = 100 ->
  exists s, step3_split_pairs raw valid_pairs = Ok s /\
            length (train s) = 70 /\ length (val s) = 20 /\ length (test s) = 10.
Proof.
  intros Hlen. unfold step3_split_pairs.
  destruct step3_indices_100 as [E1 E2].
  rewrite shuffle_length, Hlen. change (Z.of_nat 100) with 100%Z.
  rewrite E1, E2. cbn [mbind result_bind].
  eexists. split; [reflexivity|].
  destruct (cut_lengths (shuffle raw valid_pairs) 70 90) as (H1 & H2 & H3);
    [lia | rewrite shuffle_length, Hlen; lia |].
  rewrite H1, H2, H3, shuffle_length, Hlen. repeat split; reflexivity.
Qed.

(** The split indices are ordered: [0 <= train_end <= val_end], for
    every number of pairs a list can hold. *)
Lemma indices_ordered (n : nat) (a b : positive) :
  (0 < n)%nat -> (Z.of_nat n < 2 ^ 63)%Z ->
  (2 ^ 52 <= Zpos a < 2 ^ 53)%Z -> (2 ^ 52 <= Zpos b < 2 ^ 53)%Z ->
  (Zpos a * (2 ^ 53 + 1) <= Zpos b * (2 ^ 53 - 1))%Z ->
  exists i j,
    int_of_product (Z.of_nat n) (S754_finite false a (-53)) = Ok i /\
    int_of_product (Z.of_nat n) (S754_finite false b (-53)) = Ok j /\
    (0 <= i <= j)%Z.
Proof.
  intros Hn Hmax Ha Hb Hab.
  apply int_of_product_mono; try assumption; [lia|].
  assert (Zdigits2 (Z.of_nat n) <= 63)%Z by (apply Zdigits2_le; lia). lia.
Qed.

Lemma split_indices_ordered (n : nat) :
  (0 < n)%nat -> (Z.of_nat n < 2 ^ 63)%Z ->
  exists train_end val_end,
    split_indices n lit_0_7 lit_0_2 = Ok (train_end, val_end) /\
    (0 <= train_end <= val_end)%Z.
Proof.
  intros Hn Hmax. unfold split_indices. rewrite ratio_sum.
  destruct (indices_ordered n 6305039478318694 8106479329266892 Hn Hmax)
    as (i & j & Hi & Hj & Hij); [lia | lia | lia |].
  fold lit_0_7 in Hi. rewrite Hi, Hj. cbn [mbind result_bind]. eauto.
Qed.

Lemma step3_indices_ordered (n : nat) :
  (0 < n)%nat -> (Z.of_nat n < 2 ^ 63)%Z ->
  exists train_end val_end,
    int_of_product (Z.of_nat n) lit_0_7 = Ok train_end /\
    int_of_product (Z.of_nat n) lit_0_9 = Ok val_end /\
    (0 <= train_end <= val_end)%Z.
Proof.
  intros Hn Hmax.
  destruct (indices_ordered n 6305039478318694 8106479329266893 Hn Hmax)
    as (i & j & Hi & Hj & Hij); [lia | lia | lia |]. eauto.
Qed.

Lemma cut_app {A : Type} (l : list A) (a b : Z) :
  (0 <= a <= b)%Z -> train (cut l a b) ++ val (cut l a b) ++ test (cut l a b) = l.
Proof. intros. now apply slices_app. Qed.

(** Three lists that together are a rearrangement of a duplicate-free
    list have no element in common. *)
Lemma parts_disjoint {A : Type} (l1 l2 l3 l : list A) :
  l1 ++ l2 ++ l3 ≡ₚ l -> NoDup l -> l1 ## l2 /\ l1 ## l3 /\ l2 ## l3.
Proof.
  intros Hperm Hnd. rewrite <- Hperm in Hnd.
  apply NoDup_app in Hnd as (_ & H1 & Hnd).
  apply NoDup_app in Hnd as (_ & H23 & _).
  repeat split.
  - intros x Hx1 Hx2. apply (H1 x Hx1). apply elem_of_app. now left.
  - intros x Hx1 Hx3. apply (H1 x Hx1). apply elem_of_app. now right.
  - intros x Hx2 Hx3. exact (H23 x Hx2 Hx3).
Qed.

(** C2: for every non-empty list of valid pairs and every shuffle, the
    splitter of prepare_data.py (default ratios) and the one of
    fix_and_setup_dataset.py both return three lists that, put
    together, are a rearrangement of the valid pairs: no pair is
    dropped or duplicated; and when the pairs are distinct, no pair is
    in two of the lists.  The length bound is that of a CPython list. *)
Theorem split_is_partition {A : Type} (raw : nat -> nat) (valid_pairs : list A) :
  valid_pairs <> [] -> (Z.of_nat (length valid_pairs) < 2 ^ 63)%Z ->
  exists s s3,
    split_pairs raw lit_0_7 lit_0_2 valid_pairs = Ok s /\
    step3_split_pairs raw valid_pairs = Ok s3 /\
    train s ++ val s ++ test s ≡ₚ valid_pairs /\
    train s3 ++ val s3 ++ test s3 ≡ₚ valid_pairs /\
    (NoDup valid_pairs ->
     (train s ## val s /\ train s ## test s /\ val s ## test s) /\
     (train s3 ## val s3 /\ train s3 ## test s3 /\ val s3 ## test s3)).
Proof.
  intros Hne Hmax.
  assert (Hpos : (0 < length valid_pairs)%nat) by (destruct valid_pairs; [congruence | cbn; lia]).
  unfold split_pairs, step3_split_pairs. rewrite shuffle_length.
  destruct (split_indices_ordered _ Hpos Hmax) as (a & b & -> & Hab).
  destruct (step3_indices_ordered _ Hpos Hmax) as (a3 & b3 & -> & -> & Hab3).
  cbn [mbind result_bind]. eexists _, _. split; [reflexivity|]. split; [reflexivity|].
  assert (P : train (cut (shuffle raw valid_pairs) a b) ++
              val (cut (shuffle raw valid_pairs) a b) ++
              test (cut (shuffle raw valid_pairs) a b) ≡ₚ valid_pairs)
    by (rewrite cut_app by assumption; apply shuffle_perm).
  assert (P3 : train (cut (shuffle raw valid_pairs) a3 b3) ++
               val (cut (shuffle raw valid_pairs) a3 b3) ++
               test (cut (shuffle raw valid_pairs) a3 b3) ≡ₚ valid_pairs)
    by (rewrite cut_app by assumption; apply shuffle_perm).
  split; [exact P|]. split; [exact P3|].
  intros Hnd. split; eapply parts_disjoint; eassumption.
Qed.

Lemma split_is_partition_witness :
  exists s s3,
    split_pairs (fun k => 7 * k)%nat lit_0_7 lit_0_2 [1; 2; 3; 4; 5]%nat = Ok s /\
    step3_split_pairs (fun k => 7 * k)%nat [1; 2; 3; 4; 5]%nat = Ok s3 /\
    train s ++ val s ++ test s ≡ₚ [1; 2; 3; 4; 5]%nat /\
    train s3 ++ val s3 ++ test s3 ≡ₚ [1; 2; 3; 4; 5]%nat /\
    (NoDup [1; 2; 3; 4; 5]%nat ->
     (train s ## val s /\ train s ## test s /\ val s ## test s) /\
     (train s3 ## val s3 /\ train s3 ## test s3 /\ val s3 ## test s3)).
Proof.
  apply (split_is_partition (fun k => 7 * k)%nat [1; 2; 3; 4; 5]%nat).
  - discriminate.
  - vm_compute. reflexivity.
Defined.

End SplitterFacts.

(** ** The annotation converter: parsing and files *)

Module ConverterFacts.
Import Py PyStr Binary64 Binary64Facts FS Converter Samples.
Local Open Scope string_scope.
Local Open Scope Z_scope.

(** C5: the class remapping sends every strictly positive raw class
    identifier [c] to [c - 1] and leaves 0 unchanged; so 1 becomes 0,
    0 stays 0 and 6 becomes 5. *)
Theorem remap_class_policy :
  (forall c, 0 < c -> remap_class c = c - 1) /\
  remap_class 0 = 0 /\ remap_class 1 = 0 /\ remap_class 6 = 5.
Proof.
  split; [|repeat split; reflexivity].
  intros c Hc. unfold remap_class. destruct (Z.ltb_spec 0 c); lia.
Qed.

Lemma remap_class_policy_witness : remap_class 6 = 6 - 1.
Proof. apply (proj1 remap_class_policy 6). lia. Defined.

(** The remapped identifier is the first field of the written line. *)
Example remap_in_output :
  convert_line 640 640 "10,20,110,220,6" =
    Ok (Some ("5 0.093750 0.187500 0.156250 0.312500" +:+ newline)) /\
  convert_line 640 640 "10,20,110,220,1" =
    Ok (Some ("0 0.093750 0.187500 0.156250 0.312500" +:+ newline)) /\
  convert_line 640 640 "10,20,110,220,0" =
    Ok (Some ("0 0.093750 0.187500 0.156250 0.312500" +:+ newline)).
Proof. vm_compute. repeat split; reflexivity. Qed.

(** The format of a coordinate: a sign, the integer part, a point and
    exactly six digits. *)
Lemma format_6f_shape (s : bool) (m : positive) (e : Z) :
  exists int_part frac_part,
    format_6f (S754_finite s m e) =
      (if s then "-" else "") +:+ int_part +:+ "." +:+ frac_part /\
    String.length frac_part = 6%nat.
Proof. eexists _, _. split; reflexivity. Qed.



Lemma convert_line'_eq (w h : Z) (raw : string) : convert_line' w h raw = convert_line w h raw.
Proof.
  unfold convert_line', convert_line.
  destruct (is_empty (strip raw)); [reflexivity|].
  destruct (5 <=? length (fields (strip raw)))%nat; [|reflexivity].
  destruct (ints5 (fields (strip raw))); reflexivity.
Qed.

Lemma write_lines'_eq (w h : Z) (out : string) (lines : list string) :
  forall st, write_lines' w h out lines st = write_lines w h out lines st.
Proof.
  induction lines as [|raw rest IH]; intros st; cbn [write_lines' write_lines]; [reflexivity|].
  rewrite convert_line'_eq. destruct (convert_line w h raw) as [[s|]|e]; auto.
Qed.

(** The two converters of the repository compute the same function. *)
Lemma convert_annotation_eq (st : fs) (ann img out : string) :
  convert_annotation st ann img out = convert_annotation_file st ann img out.
Proof.
  unfold convert_annotation, convert_annotation_file.
  destruct (image_size st img) as [[w h]|]; [|reflexivity].
  destruct (open_read st ann); [|reflexivity].
  destruct (open_write st out) as [st1|]; [|reflexivity].
  destruct (open_read st1 ann); [|reflexivity].
  now rewrite write_lines'_eq.
Qed.


Lemma emit_app (w h : Z) (pre post : list string) :
  emit w h (pre ++ post)%list =
    let '(w1, ok1) := emit w h pre in
    if ok1 then let '(w2, ok2) := emit w h post in ((w1 ++ w2)%list, ok2) else (w1, false).
Proof.
  induction pre as [|raw pre IH]; cbn [emit app].
  - destruct (emit w h post); reflexivity.
  - destruct (convert_line w h raw) as [[s|]|e]; [| exact IH | reflexivity].
    rewrite IH. destruct (emit w h pre) as [w1 [|]]; [|reflexivity].
    destruct (emit w h post); reflexivity.
Qed.

(** The loop appends to the output file what [emit] computes. *)
Lemma write_lines_emit (w h : Z) (out : string) (lines : list string) :
  forall (st : fs) (f : file),
    st !! out = Some (File f) ->
    write_lines w h out lines st =
      (<[out := File (mkFile (f_lines f ++ (emit w h lines).1)%list (f_image f))]> st,
       (emit w h lines).2).
Proof.
  induction lines as [|raw rest IH]; intros st f Hf; cbn [write_lines emit].
  - cbn [fst snd]. rewrite app_nil_r. f_equal. symmetry. apply insert_id.
    rewrite Hf. destruct f; reflexivity.
  - destruct (convert_line w h raw) as [[s|]|e].
    + unfold write_line. rewrite Hf.
      rewrite (IH _ (mkFile (f_lines f ++ [s])%list (f_image f))) by apply lookup_insert_eq.
      destruct (emit w h rest) as [ws ok]. cbn [fst snd f_lines f_image].
      rewrite insert_insert_eq, <- app_assoc. reflexivity.
    + now apply IH.
    + cbn [fst snd]. rewrite app_nil_r. f_equal. symmetry. apply insert_id.
      rewrite Hf. destruct f; reflexivity.
Qed.


Lemma open_write_Ok (st st1 : fs) (p : string) :
  open_write st p = Ok st1 ->
  st1 = <[p := File (text_file [])]> st /\ st !! p <> Some Dir /\
  is_empty p = false /\ parent_ok st p = true.
Proof.
  unfold open_write. intros H.
  assert (Hnd : st !! p <> Some Dir) by (intros E; rewrite E in H; discriminate).
  assert (H' : (if is_empty p || negb (parent_ok st p) then Raise FileNotFoundError
                else Ok (<[p := File (text_file [])]> st)) = Ok st1).
  { destruct (st !! p) as [[|f]|]; congruence. }
  destruct (is_empty p); [discriminate|].
  destruct (parent_ok st p); [|discriminate].
  cbn in H'. injection H' as <-. auto.
Qed.

(** The converter in closed form, once its three files are opened. *)
Lemma convert_opened (st st1 : fs) (ann img out : string) (w h : Z) (lines0 : list string) :
  image_size st img = Ok (w, h) -> open_read st ann = Ok lines0 ->
  open_write st out = Ok st1 ->
  let lines := if bool_decide (ann = out) then [] else lines0 in
  open_read st1 ann = Ok lines /\
  convert_annotation_file st ann img out =
    ((emit w h lines).2, <[out := File (text_file (emit w h lines).1)]> st).
Proof.
  intros Himg Hann Hout lines.
  destruct (open_write_Ok _ _ _ Hout) as (-> & _ & _ & _).
  assert (Hread : open_read (<[out := File (text_file [])]> st) ann = Ok lines).
  { unfold lines, open_read. case_bool_decide as E.
    - subst ann. now rewrite lookup_insert_eq.
    - rewrite lookup_insert_ne by congruence. exact Hann. }
  split; [exact Hread|].
  unfold convert_annotation_file. rewrite Himg, Hann, Hout, Hread.
  rewrite (write_lines_emit w h out lines _ (text_file [])) by apply lookup_insert_eq.
  cbn [f_lines f_image text_file app]. now rewrite insert_insert_eq.
Qed.






Example abc_is_malformed : malformed "a,b,c".
Proof. reflexivity. Qed.

(** A field of more than 4300 digits is refused by [int], so its line
    is malformed as well. *)
Example long_field_is_malformed :
  parse_int (zeros 4300) = Some 0 /\ parse_int (zeros 4301) = None /\
  malformed ("1,2,3,4," +:+ zeros 4301).
Proof. repeat split; vm_compute; reflexivity. Qed.

(** What malformed means: fewer than five fields, or a field among the
    first five that [int()] rejects. *)
Lemma malformed_iff (raw : string) :
  malformed raw <->
  (length (fields (strip raw)) < 5)%nat \/
  exists field, field ∈ take 5 (fields (strip raw)) /\ parse_int field = None.
Proof.
  unfold malformed, parse_line.
  destruct (Nat.leb_spec 5 (length (fields (strip raw)))) as [Hlen | Hlen].
  - unfold ints5.
    destruct (fields (strip raw)) as [|f1 [|f2 [|f3 [|f4 [|f5 rest]]]]]; cbn in Hlen; try lia.
    cbn [take fmap list_fmap]. split.
    + intros H. right.
      destruct (parse_int f1) eqn:E1; [|exists f1; split; [rewrite !elem_of_cons; tauto | assumption]].
      destruct (parse_int f2) eqn:E2; [|exists f2; split; [rewrite !elem_of_cons; tauto | assumption]].
      destruct (parse_int f3) eqn:E3; [|exists f3; split; [rewrite !elem_of_cons; tauto | assumption]].
      destruct (parse_int f4) eqn:E4; [|exists f4; split; [rewrite !elem_of_cons; tauto | assumption]].
      destruct (parse_int f5) eqn:E5; [|exists f5; split; [rewrite !elem_of_cons; tauto | assumption]].
      discriminate.
    + intros [H | (field & Hin & Hnone)]; [cbn in H; lia|].
      assert (Hcases : field = f1 \/ field = f2 \/ field = f3 \/ field = f4 \/ field = f5)
        by (rewrite !elem_of_cons, elem_of_nil in Hin; tauto).
      destruct Hcases as [-> | [-> | [-> | [-> | ->]]]]; rewrite Hnone;
        repeat (match goal with |- context [parse_int ?x] => destruct (parse_int x) end);
        reflexivity.
  - split; [intros _; left; lia | reflexivity].
Qed.



(** The valid lines around the malformed one are both written. *)
Example demo_conversion :
  convert_annotation_file demo_fs "a.txt" "a.jpg" "out.txt" =
    (true,
     <["out.txt" := File (text_file
         ["4 0.003125 0.004687 0.003125 0.003125" +:+ newline;
          "0 0.093750 0.187500 0.156250 0.312500" +:+ newline])]> demo_fs).
Proof.
  assert (H1 : image_size demo_fs "a.jpg" = Ok (640, 640)) by reflexivity.
  assert (H2 : open_read demo_fs "a.txt"
               = Ok (["1 2 3 4 5"] ++ "a,b,c" :: ["10,20,110,220,1"])%list) by reflexivity.
  assert (H3 : open_write demo_fs "out.txt" = Ok (<["out.txt" := File (text_file [])]> demo_fs))
    by reflexivity.
  destruct (convert_opened _ _ _ _ _ _ _ _ H1 H2 H3) as [_ ->].
  vm_compute emit. reflexivity.
Qed.



End ConverterFacts.

(** ** The annotation converter: arithmetic *)

Module NormalizeFacts.
Import Py PyStr Binary64 Binary64Facts FS Converter.
Local Open Scope Z_scope.

Lemma SF2Q_pos (m : positive) (e : Z) : (0 < SF2Q (S754_finite false m e))%Q.
Proof.
  cbn [SF2Q]. pose proof (Qpow2_pos e). pose proof (inject_Z_pos (Zpos m) eq_refl).
  rewrite Qmult_1_l. now apply Qmult_lt_0_compat.
Qed.

Lemma SF2Q_int (p : positive) : (SF2Q (S754_finite false p 0) == inject_Z (Zpos p))%Q.
Proof. cbn [SF2Q]. change (2 ^ 0)%Q with 1%Q. ring. Qed.

(** An integer below [2^53] is converted exactly. *)
Lemma of_Z_exact (w : Z) :
  0 < w < 2 ^ 53 ->
  exists mw ew,
    of_Z w = S754_finite false mw ew /\
    2 ^ 52 <= Zpos mw < 2 ^ 53 /\ -52 <= ew <= 0 /\
    (SF2Q (S754_finite false mw ew) == inject_Z w)%Q.
Proof.
  intros [Hw0 Hw].
  assert (Hd : Zdigits2 w <= 53) by (apply Zdigits2_le; lia).
  pose proof (Zdigits2_pos w Hw0) as Hd0.
  destruct (of_Z_pos w Hw0 ltac:(lia)) as (mw & ew & Heq & Hm & He & Hex).
  destruct (Hex Hw) as [Hmw Hew].
  exists mw, ew. split; [exact Heq|]. split; [exact Hm|]. split; [lia|].
  cbn [SF2Q]. rewrite Hmw, inject_Z_mult, Qpow2_inject by lia.
  rewrite Hew.
  assert (E : (2 ^ (53 - Zdigits2 w) * 2 ^ (Zdigits2 w - 53) == 1)%Q).
  { rewrite <- Qpow2_add. replace (53 - Zdigits2 w + (Zdigits2 w - 53)) with 0 by lia.
    reflexivity. }
  rewrite Qmult_1_l, <- Qmult_assoc, E. ring.
Qed.

(** [a / b] on positive integers: no exception, and the correctly
    rounded quotient. *)
Lemma int_truediv_pos (a b : Z) :
  0 < a -> 0 < b -> Zdigits2 a <= 1000 -> Zdigits2 b <= 1000 ->
  exists m e,
    int_truediv a b = Ok (S754_finite false m e) /\
    2 ^ 52 <= Zpos m < 2 ^ 53 /\
    Zdigits2 a - Zdigits2 b - 53 <= e <= Zdigits2 a - Zdigits2 b - 51 /\
    let x := (inject_Z a / inject_Z b)%Q in
    let v := SF2Q (S754_finite false m e) in
    (x * (1 - ulp_rel) <= v /\ v <= x * (1 + ulp_rel) /\ (x <= 1 -> v <= 1))%Q.
Proof.
  intros Ha Hb Hda Hdb.
  pose proof (Zdigits2_pos a Ha). pose proof (Zdigits2_pos b Hb).
  unfold int_truediv.
  destruct (Z.eqb_spec b 0); [lia|]. destruct (Z.eqb_spec a 0); [lia|].
  destruct (Z.ltb_spec a 0); [lia|]. destruct (Z.ltb_spec b 0); [lia|].
  destruct a as [|pa|pa]; try lia. destruct b as [|pb|pb]; try lia.
  change (Z.to_pos (Z.abs (Z.pos pa))) with pa.
  change (Z.to_pos (Z.abs (Z.pos pb))) with pb.
  destruct (fdiv_spec pa 0 pb 0) as (m & e & Heq & Hm & He & Hv); [lia | lia |].
  rewrite Heq. exists m, e. split; [reflexivity|]. split; [exact Hm|]. split; [lia|].
  cbv zeta in Hv |- *. rewrite !SF2Q_int in Hv. exact Hv.
Qed.

(** [x / w] on a positive double and a positive integer below [2^53]. *)
Lemma float_truediv_int_pos (m : positive) (e w : Z) :
  2 ^ 52 <= Zpos m < 2 ^ 53 -> -900 <= e <= 900 -> 0 < w < 2 ^ 53 ->
  exists m' e',
    float_truediv_int (S754_finite false m e) w = Ok (S754_finite false m' e') /\
    2 ^ 52 <= Zpos m' < 2 ^ 53 /\
    let x := (SF2Q (S754_finite false m e) / inject_Z w)%Q in
    let v := SF2Q (S754_finite false m' e') in
    (x * (1 - ulp_rel) <= v /\ v <= x * (1 + ulp_rel) /\ (x <= 1 -> v <= 1))%Q.
Proof.
  intros Hm He Hw.
  destruct (of_Z_exact w Hw) as (mw & ew & Heq & Hmw & Hew & Hval).
  unfold float_truediv_int, float_of_int. rewrite Heq. cbn [mbind result_bind is_zero].
  assert (Hdm : Zdigits2 (Zpos m) = 53) by (apply Zdigits2_unique; lia).
  assert (Hdw : Zdigits2 (Zpos mw) = 53) by (apply Zdigits2_unique; lia).
  destruct (fdiv_spec m e mw ew) as (m' & e' & Heq' & Hm' & He' & Hv);
    [rewrite Hdm, Hdw; lia | lia |].
  rewrite Heq'. exists m', e'. split; [reflexivity|]. split; [exact Hm'|].
  cbv zeta in Hv |- *. rewrite Hval in Hv. exact Hv.
Qed.

Lemma inject_Z_minus (a b : Z) : (inject_Z (a - b) == inject_Z a - inject_Z b)%Q.
Proof. unfold Z.sub. rewrite inject_Z_plus, inject_Z_opp. reflexivity. Qed.

Lemma Qdiv_le_compat (a b W : Q) : (0 < W -> a <= b -> a / W <= b / W)%Q.
Proof.
  intros HW Hab. unfold Qdiv. apply Qmult_le_compat_r; [exact Hab|].
  apply Qlt_le_weak, Qinv_lt_0_compat, HW.
Qed.

(** One axis of the normalisation: the centre [((x1 + x2) / 2) / w] and
    the size [(x2 - x1) / w] are computed without exception; each is at
    most 1 and within the rounding error of its exact value. *)
Lemma axis_normalized (x1 x2 w : Z) :
  0 <= x1 < x2 -> x2 <= w -> w <= 2 ^ 52 ->
  exists ms es mc ec mb eb,
    int_truediv (x1 + x2) 2 = Ok (S754_finite false ms es) /\
    float_truediv_int (S754_finite false ms es) w = Ok (S754_finite false mc ec) /\
    int_truediv (x2 - x1) w = Ok (S754_finite false mb eb) /\
    let cs := ((inject_Z x1 + inject_Z x2) / 2 / inject_Z w)%Q in
    let bs := ((inject_Z x2 - inject_Z x1) / inject_Z w)%Q in
    let c := SF2Q (S754_finite false mc ec) in
    let b := SF2Q (S754_finite false mb eb) in
    (0 < cs <= 1 /\ 0 < bs <= 1 /\
     cs * ((1 - ulp_rel) * (1 - ulp_rel)) <= c /\ c <= cs * ((1 + ulp_rel) * (1 + ulp_rel)) /\
     c <= 1 /\
     bs * (1 - ulp_rel) <= b /\ b <= bs * (1 + ulp_rel) /\ b <= 1)%Q.
Proof.
  intros Hx Hxw Hw.
  assert (HdS : Zdigits2 (x1 + x2) <= 54) by (apply Zdigits2_le; lia).
  assert (HdS0 : 0 < Zdigits2 (x1 + x2)) by (apply Zdigits2_pos; lia).
  assert (Hdw : Zdigits2 w <= 53) by (apply Zdigits2_le; lia).
  assert (Hdd : Zdigits2 (x2 - x1) <= 53) by (apply Zdigits2_le; lia).
  destruct (int_truediv_pos (x1 + x2) 2) as (ms & es & HS & Hms & Hes & HvS);
    [lia | lia | lia | cbn; lia |].
  change (Zdigits2 2) with 2 in Hes.
  destruct (float_truediv_int_pos ms es w Hms) as (mc & ec & HC & Hmc & HvC); [lia | lia |].
  destruct (int_truediv_pos (x2 - x1) w) as (mb & eb & HB & Hmb & Heb & HvB);
    [lia | lia | lia | lia |].
  exists ms, es, mc, ec, mb, eb.
  split; [exact HS|]. split; [exact HC|]. split; [exact HB|].
  cbv zeta in HvS, HvC, HvB |- *.
  rewrite inject_Z_plus in HvS. rewrite inject_Z_minus in HvB.
  change (inject_Z 2) with 2%Q in HvS.
  (* the integer hypotheses, over the rationals *)
  assert (H0 : (0 <= inject_Z x1)%Q) by (change 0%Q with (inject_Z 0); rewrite <- Zle_Qle; lia).
  assert (H12 : (inject_Z x1 + 1 <= inject_Z x2)%Q).
  { change 1%Q with (inject_Z 1). rewrite <- inject_Z_plus, <- Zle_Qle. lia. }
  assert (H2w : (inject_Z x2 <= inject_Z w)%Q) by (rewrite <- Zle_Qle; lia).
  assert (Hwmax : (inject_Z w <= 4503599627370496)%Q).
  { change 4503599627370496%Q with (inject_Z (2 ^ 52)). rewrite <- Zle_Qle. lia. }
  set (X1 := inject_Z x1) in *. set (X2 := inject_Z x2) in *. set (W := inject_Z w) in *.
  set (v := SF2Q (S754_finite false ms es)) in *.
  set (c := SF2Q (S754_finite false mc ec)) in *.
  set (b := SF2Q (S754_finite false mb eb)) in *.
  assert (HW : (0 < W)%Q) by lra.
  destruct HvS as (HvS1 & HvS2 & _). destruct HvC as (HvC1 & HvC2 & HvC3).
  destruct HvB as (HvB1 & HvB2 & HvB3).
  set (hS := ((X1 + X2) / 2)%Q) in *.
  assert (EhS : (2 * hS == X1 + X2)%Q) by (unfold hS; field).
  unfold ulp_rel in *.
  assert (HvW : (v <= W)%Q) by lra.
  assert (Hcs : (hS / W * W == hS)%Q) by (field; lra).
  assert (Hbs : ((X2 - X1) / W * W == X2 - X1)%Q) by (field; lra).
  assert (Hq : (v / W * W == v)%Q) by (field; lra).
  set (cs := (hS / W)%Q) in *. set (bs := ((X2 - X1) / W)%Q) in *.
  set (q := (v / W)%Q) in *.
  assert (Hcs0 : (0 < cs)%Q) by (apply Qlt_shift_div_l; lra).
  assert (Hcs1 : (cs <= 1)%Q) by (apply Qle_shift_div_r; lra).
  assert (Hbs0 : (0 < bs)%Q) by (apply Qlt_shift_div_l; lra).
  assert (Hbs1 : (bs <= 1)%Q) by (apply Qle_shift_div_r; lra).
  assert (Hq1 : (q <= 1)%Q) by (apply Qle_shift_div_r; lra).
  assert (Hqlo : (cs * (1 - (1 # 9007199254740992)) <= q)%Q).
  { apply (Qmult_le_r _ _ W HW). nra. }
  assert (Hqhi : (q <= cs * (1 + (1 # 9007199254740992)))%Q).
  { apply (Qmult_le_r _ _ W HW). nra. }
  specialize (HvC3 Hq1). specialize (HvB3 Hbs1).
  repeat split; try assumption; try lra; nra.
Qed.

(** C3: for a box with [0 <= x1 < x2 <= w] and [0 <= y1 < y2 <= h] the
    converter computes its four normalised values without exception and
    each of them, as the double it is, lies in [[0, 1]].  The widths and
    heights are those an image can have (PIL holds them in C ints);
    the proof covers all up to [2^52]. *)
Theorem normalized_in_unit_interval (x1 y1 x2 y2 w h : Z) :
  0 <= x1 < x2 -> x2 <= w -> 0 <= y1 < y2 -> y2 <= h ->
  w <= 2 ^ 52 -> h <= 2 ^ 52 ->
  exists cx cy bw bh,
    normalize x1 y1 x2 y2 w h = Ok (cx, cy, bw, bh) /\
    in_unit_interval cx /\ in_unit_interval cy /\
    in_unit_interval bw /\ in_unit_interval bh.
Proof.
  intros Hx Hxw Hy Hyh Hw Hh.
  destruct (axis_normalized x1 x2 w Hx Hxw Hw)
    as (msx & esx & mcx & ecx & mbx & ebx & HSx & HCx & HBx & Hvx).
  destruct (axis_normalized y1 y2 h Hy Hyh Hh)
    as (msy & esy & mcy & ecy & mby & eby & HSy & HCy & HBy & Hvy).
  unfold normalize. rewrite HSx. cbn [mbind result_bind]. rewrite HCx. cbn [mbind result_bind].
  rewrite HSy. cbn [mbind result_bind]. rewrite HCy. cbn [mbind result_bind].
  rewrite HBx. cbn [mbind result_bind]. rewrite HBy. cbn [mbind result_bind].
  eexists _, _, _, _. split; [reflexivity|].
  cbv zeta in Hvx, Hvy.
  destruct Hvx as (_ & _ & _ & _ & Hcx & _ & _ & Hbx).
  destruct Hvy as (_ & _ & _ & _ & Hcy & _ & _ & Hby).
  unfold in_unit_interval. cbn [is_finite].
  repeat split; try assumption; apply Qlt_le_weak, SF2Q_pos.
Qed.

Lemma normalized_in_unit_interval_witness :
  exists cx cy bw bh,
    normalize 10 20 110 220 640 480 = Ok (cx, cy, bw, bh) /\
    in_unit_interval cx /\ in_unit_interval cy /\
    in_unit_interval bw /\ in_unit_interval bh.
Proof.
  apply (normalized_in_unit_interval 10 20 110 220 640 480); lia.
Defined.

Lemma round_half_even_div_spec (a b : Z) :
  0 < b -> 2 * Z.abs (round_half_even_div a b * b - a) <= b.
Proof.
  intros Hb. unfold round_half_even_div.
  pose proof (Z.div_mod a b ltac:(lia)) as Hdm.
  pose proof (Z.mod_pos_bound a b Hb) as Hr.
  set (q := a / b) in *. set (r := a mod b) in *. clearbody q r.
  destruct (Z.compare_spec (2 * r) b); [destruct (Z.even q)| |]; nia.
Qed.

(** The persisted six-decimal form of a positive double is within half
    a millionth of it. *)
Lemma persisted_close (m : positive) (e : Z) :
  let v := SF2Q (S754_finite false m e) in
  let p := persisted (S754_finite false m e) in
  (v - (1 # 2000000) <= p /\ p <= v + (1 # 2000000))%Q.
Proof.
  cbn [SF2Q persisted]. unfold micro_units.
  destruct (Z.leb_spec 0 e) as [He | He].
  - rewrite !inject_Z_mult, Qpow2_inject by lia.
    change (inject_Z 1000000) with 1000000%Q.
    set (M := inject_Z (Zpos m)). set (P := (2 ^ e)%Q).
    assert (E : (1 * (M * 1000000 * P / 1000000) == 1 * M * P)%Q) by field.
    rewrite E. split; lra.
  - set (b := 2 ^ (- e)).
    assert (Hb : 0 < b) by (apply Z.pow_pos_nonneg; lia).
    pose proof (round_half_even_div_spec (Zpos m * 1000000) b Hb) as Hr.
    set (r := round_half_even_div (Zpos m * 1000000) b) in *. clearbody r.
    assert (Hlo : Zpos m * 1000000 * 2 - b <= 2 * (r * b)) by lia.
    assert (Hhi : 2 * (r * b) <= Zpos m * 1000000 * 2 + b) by lia.
    rewrite Zle_Qle in Hlo, Hhi.
    rewrite inject_Z_minus, !inject_Z_mult in Hlo.
    rewrite inject_Z_plus, !inject_Z_mult in Hhi.
    change (inject_Z 1000000) with 1000000%Q in *.
    change (inject_Z 2) with 2%Q in *.
    assert (HP : (2 ^ e * inject_Z b == 1)%Q).
    { unfold b. rewrite Qpow2_inject by lia. rewrite <- Qpow2_add.
      replace (e + - e) with 0 by lia. reflexivity. }
    pose proof (inject_Z_pos b Hb) as HB. pose proof (Qpow2_pos e) as HPpos.
    set (M := inject_Z (Zpos m)) in *. set (P := (2 ^ e)%Q) in *.
    set (B := inject_Z b) in *. set (R := inject_Z r) in *.
    assert (EM : (1 * M * P * B == M)%Q) by (rewrite Qmult_1_l, <- Qmult_assoc, HP; ring).
    set (RB := (R * B)%Q) in *.
    split.
    + apply (Qmult_le_r _ _ B HB).
      setoid_replace (1 * (R / 1000000) * B)%Q with (RB * (1 # 1000000))%Q using relation Qeq by (unfold RB; field).
      setoid_replace ((1 * M * P - (1 # 2000000)) * B)%Q
        with (1 * M * P * B - (1 # 2000000) * B)%Q using relation Qeq by ring.
      rewrite EM. clear EM HP. clearbody M B RB P. lra.
    + apply (Qmult_le_r _ _ B HB).
      setoid_replace (1 * (R / 1000000) * B)%Q with (RB * (1 # 1000000))%Q using relation Qeq by (unfold RB; field).
      setoid_replace ((1 * M * P + (1 # 2000000)) * B)%Q
        with (1 * M * P * B + (1 # 2000000) * B)%Q using relation Qeq by ring.
      rewrite EM. clear EM HP. clearbody M B RB P. lra.
Qed.

(** The round trip on one axis, over the rationals: [cs] and [bs] are
    the exact centre and size, [c] and [b] the computed doubles, [pc]
    and [pb] their persisted forms. *)
Lemma axis_round_trip (X1 X2 W cs bs c b pc pb : Q) :
  (0 < W ->
   cs * W == (X1 + X2) * (1 # 2) -> bs * W == X2 - X1 ->
   0 < cs <= 1 -> 0 < bs <= 1 ->
   cs * ((1 - ulp_rel) * (1 - ulp_rel)) <= c -> c <= cs * ((1 + ulp_rel) * (1 + ulp_rel)) ->
   bs * (1 - ulp_rel) <= b -> b <= bs * (1 + ulp_rel) ->
   c - (1 # 2000000) <= pc -> pc <= c + (1 # 2000000) ->
   b - (1 # 2000000) <= pb -> pb <= b + (1 # 2000000) ->
   (Qabs ((c - b / 2) * W - X1) <= W * (1 # 2251799813685248) /\
    Qabs ((c + b / 2) * W - X2) <= W * (1 # 2251799813685248)) /\
   (Qabs ((pc - pb / 2) * W - X1) <= W * (1 # 1000000) /\
    Qabs ((pc + pb / 2) * W - X2) <= W * (1 # 1000000)))%Q.
Proof.
  unfold ulp_rel. intros HW Hcs Hbs [Hcs0 Hcs1] [Hbs0 Hbs1] Hc1 Hc2 Hb1 Hb2 Hp1 Hp2 Hq1 Hq2.
  assert (E1 : (X1 == (cs - bs * (1 # 2)) * W)%Q).
  { setoid_replace ((cs - bs * (1 # 2)) * W)%Q with (cs * W - (bs * W) * (1 # 2))%Q
      using relation Qeq by ring. rewrite Hcs, Hbs. ring. }
  assert (E2 : (X2 == (cs + bs * (1 # 2)) * W)%Q).
  { setoid_replace ((cs + bs * (1 # 2)) * W)%Q with (cs * W + (bs * W) * (1 # 2))%Q
      using relation Qeq by ring. rewrite Hcs, Hbs. ring. }
  assert (D1 : forall u v : Q, ((u - v / 2) * W - X1 == (u - cs - (v - bs) * (1 # 2)) * W)%Q).
  { intros u v. rewrite E1. field. }
  assert (D2 : forall u v : Q, ((u + v / 2) * W - X2 == (u - cs + (v - bs) * (1 # 2)) * W)%Q).
  { intros u v. rewrite E2. field. }
  rewrite !D1, !D2. clear D1 D2 E1 E2 Hcs Hbs.
  assert (K : forall d t : Q, (- t <= d -> d <= t -> Qabs (d * W) <= W * t)%Q).
  { intros d t Hlo Hhi. apply Qabs_Qle_condition. split; nra. }
  repeat split; apply K; lra.
Qed.

(** C4: the round-trip law.  Denormalising the normalised record gives
    the box back: exactly when the formulas are read over the
    rationals; within [w * 2^-51] (resp. [h * 2^-51]) for the doubles
    the converter computes; and within one millionth of the width
    (resp. height) for the six-decimal values it persists. *)
Theorem round_trip (x1 y1 x2 y2 w h : Z) :
  0 <= x1 < x2 -> x2 <= w -> 0 <= y1 < y2 -> y2 <= h ->
  w <= 2 ^ 52 -> h <= 2 ^ 52 ->
  (let '(cx, cy, bw, bh) := normalize_exact x1 y1 x2 y2 w h in
   let '(x1', y1', x2', y2') := denormalize cx cy bw bh w h in
   x1' == inject_Z x1 /\ y1' == inject_Z y1 /\ x2' == inject_Z x2 /\ y2' == inject_Z y2)%Q /\
  exists cx cy bw bh,
    normalize x1 y1 x2 y2 w h = Ok (cx, cy, bw, bh) /\
    (let '(x1', y1', x2', y2') := denormalize (SF2Q cx) (SF2Q cy) (SF2Q bw) (SF2Q bh) w h in
     Qabs (x1' - inject_Z x1) <= inject_Z w * (1 # 2251799813685248) /\
     Qabs (y1' - inject_Z y1) <= inject_Z h * (1 # 2251799813685248) /\
     Qabs (x2' - inject_Z x2) <= inject_Z w * (1 # 2251799813685248) /\
     Qabs (y2' - inject_Z y2) <= inject_Z h * (1 # 2251799813685248))%Q /\
    (let '(x1', y1', x2', y2') :=
       denormalize (persisted cx) (persisted cy) (persisted bw) (persisted bh) w h in
     Qabs (x1' - inject_Z x1) <= inject_Z w * (1 # 1000000) /\
     Qabs (y1' - inject_Z y1) <= inject_Z h * (1 # 1000000) /\
     Qabs (x2' - inject_Z x2) <= inject_Z w * (1 # 1000000) /\
     Qabs (y2' - inject_Z y2) <= inject_Z h * (1 # 1000000))%Q.
Proof.
  intros Hx Hxw Hy Hyh Hw Hh.
  assert (HW : (0 < inject_Z w)%Q) by (apply inject_Z_pos; lia).
  assert (HH : (0 < inject_Z h)%Q) by (apply inject_Z_pos; lia).
  split.
  { cbn [normalize_exact denormalize]. repeat split; field; lra. }
  destruct (axis_normalized x1 x2 w Hx Hxw Hw)
    as (msx & esx & mcx & ecx & mbx & ebx & HSx & HCx & HBx & Hvx).
  destruct (axis_normalized y1 y2 h Hy Hyh Hh)
    as (msy & esy & mcy & ecy & mby & eby & HSy & HCy & HBy & Hvy).
  unfold normalize. rewrite HSx. cbn [mbind result_bind]. rewrite HCx. cbn [mbind result_bind].
  rewrite HSy. cbn [mbind result_bind]. rewrite HCy. cbn [mbind result_bind].
  rewrite HBx. cbn [mbind result_bind]. rewrite HBy. cbn [mbind result_bind].
  eexists _, _, _, _. split; [reflexivity|].
  cbv zeta in Hvx, Hvy.
  destruct Hvx as (Hcsx & Hbsx & Hc1x & Hc2x & _ & Hb1x & Hb2x & _).
  destruct Hvy as (Hcsy & Hbsy & Hc1y & Hc2y & _ & Hb1y & Hb2y & _).
  destruct (persisted_close mcx ecx) as [Pc1x Pc2x].
  destruct (persisted_close mbx ebx) as [Pb1x Pb2x].
  destruct (persisted_close mcy ecy) as [Pc1y Pc2y].
  destruct (persisted_close mby eby) as [Pb1y Pb2y].
  assert (Ecx : ((inject_Z x1 + inject_Z x2) / 2 / inject_Z w * inject_Z w
                 == (inject_Z x1 + inject_Z x2) * (1 # 2))%Q) by (field; lra).
  assert (Ebx : ((inject_Z x2 - inject_Z x1) / inject_Z w * inject_Z w
                 == inject_Z x2 - inject_Z x1)%Q) by (field; lra).
  assert (Ecy : ((inject_Z y1 + inject_Z y2) / 2 / inject_Z h * inject_Z h
                 == (inject_Z y1 + inject_Z y2) * (1 # 2))%Q) by (field; lra).
  assert (Eby : ((inject_Z y2 - inject_Z y1) / inject_Z h * inject_Z h
                 == inject_Z y2 - inject_Z y1)%Q) by (field; lra).
  destruct (axis_round_trip _ _ _ _ _ _ _ _ _ HW Ecx Ebx
              Hcsx Hbsx Hc1x Hc2x Hb1x Hb2x Pc1x Pc2x Pb1x Pb2x) as [[Fx1 Fx2] [Px1 Px2]].
  destruct (axis_round_trip _ _ _ _ _ _ _ _ _ HH Ecy Eby
              Hcsy Hbsy Hc1y Hc2y Hb1y Hb2y Pc1y Pc2y Pb1y Pb2y) as [[Fy1 Fy2] [Py1 Py2]].
  cbn [denormalize]. repeat split; assumption.
Qed.

Lemma round_trip_witness :
  exists cx cy bw bh,
    normalize 10 20 110 220 640 480 = Ok (cx, cy, bw, bh) /\
    (let '(x1', y1', x2', y2') :=
       denormalize (persisted cx) (persisted cy) (persisted bw) (persisted bh) 640 480 in
     Qabs (x1' - inject_Z 10) <= inject_Z 640 * (1 # 1000000) /\
     Qabs (y1' - inject_Z 20) <= inject_Z 480 * (1 # 1000000) /\
     Qabs (x2' - inject_Z 110) <= inject_Z 640 * (1 # 1000000) /\
     Qabs (y2' - inject_Z 220) <= inject_Z 480 * (1 # 1000000))%Q.
Proof.
  destruct (round_trip 10 20 110 220 640 480) as [_ (cx & cy & bw & bh & Hn & _ & Hp)];
    try lia.
  exists cx, cy, bw, bh. split; [exact Hn | exact Hp].
Defined.

End NormalizeFacts.

(** ** The annotation converter: when it succeeds *)

Module ConverterRuns.
Import Py PyStr Binary64 Binary64Facts FS Converter Samples ConverterFacts NormalizeFacts.
Local Open Scope string_scope.
Local Open Scope Z_scope.



Lemma is_ok_Ok {A : Type} (r : result A) : is_ok r = true -> exists a, r = Ok a.
Proof. destruct r; [eauto | discriminate]. Qed.








(** An empty annotation file gives an empty label file and success. *)
Example empty_annotation_file :
  let st : fs := <["e.txt" := File (text_file [])]>
                   (<["e.jpg" := File (mkFile [] (Some (640, 640)))]> ∅) in
  convert_annotation_file st "e.txt" "e.jpg" "out.txt"
    = (true, <["out.txt" := File (text_file [])]> st).
Proof. vm_compute. reflexivity. Qed.

Lemma overflow_line_raises : convert_line 640 640 overflow_line = Raise OverflowError.
Proof. vm_compute. reflexivity. Qed.


End ConverterRuns.

(** ** The collector and the pipeline steps *)

Module PipelineFacts.
Import Py PyStr Binary64 FS Converter ConverterFacts PyList Splitter Collector Samples.
Local Open Scope string_scope.

(** The converter changes the output file, or nothing. *)
Lemma convert_state_cases (st : fs) (ann img out : string) :
  (convert_annotation_file st ann img out).2 = st \/
  exists written,
    (convert_annotation_file st ann img out).2 = <[out := File (text_file written)]> st.
Proof.
  destruct (image_size st img) as [[w h]|e] eqn:Himg.
  2:{ left. unfold convert_annotation_file. now rewrite Himg. }
  destruct (open_read st ann) as [lines|e] eqn:Hann.
  2:{ left. unfold convert_annotation_file. now rewrite Himg, Hann. }
  destruct (open_write st out) as [st1|e] eqn:Hout.
  2:{ left. unfold convert_annotation_file. now rewrite Himg, Hann, Hout. }
  right. destruct (convert_opened _ _ _ _ _ _ _ _ Himg Hann Hout) as [_ ->]. eauto.
Qed.

Lemma convert_frame (st : fs) (ann img out p : string) :
  p <> out -> (convert_annotation_file st ann img out).2 !! p = st !! p.
Proof.
  intros Hp. destruct (convert_state_cases st ann img out) as [-> | [ws ->]]; [reflexivity|].
  now rewrite lookup_insert_ne.
Qed.

(** When the image cannot be opened, the converter fails and touches
    nothing. *)
Lemma convert_unopened_image (st : fs) (ann img out : string) (e : exn) :
  image_size st img = Raise e -> convert_annotation_file st ann img out = (false, st).
Proof. intros H. unfold convert_annotation_file. now rewrite H. Qed.

Lemma copy2_Ok (st st1 : fs) (src dst : string) :
  copy2 st src dst = Ok st1 ->
  exists f, st !! src = Some (File f) /\
            src <> copy_target st src dst /\
            st1 = <[copy_target st src dst := File f]> st.
Proof.
  unfold copy2. destruct (st !! src) as [[|f]|]; try discriminate.
  case_bool_decide as Hsame; [discriminate|].
  intros H. exists f. split; [reflexivity|]. split; [exact Hsame|].
  destruct (st !! copy_target st src dst) as [[|g]|]; try discriminate;
    destruct (is_empty (copy_target st src dst) || negb (parent_ok st (copy_target st src dst)));
    congruence.
Qed.

Lemma join_relative (a b : string) :
  startswith "/" b = false -> is_empty a = false -> endswith "/" a = false ->
  join a b = a +:+ "/" +:+ b.
Proof. intros H1 H2 H3. unfold join. now rewrite H1, H2, H3. Qed.

(** The image and the label of a pair go to different paths. *)
Lemma dest_paths_differ (group_dir base_name test_image_path : string) :
  startswith "/" group_dir = false ->
  dest_label_path group_dir base_name <> dest_image_path group_dir test_image_path.
Proof.
  intros Hg. unfold dest_label_path, dest_image_path, unified_labels_dir, unified_image_dir.
  assert (Hrel : forall r, startswith "/" (group_dir +:+ "_" +:+ r) = false).
  { intros r. destruct group_dir as [|c g]; [reflexivity|].
    unfold startswith in *.
    change (String c g +:+ "_" +:+ r) with (String c (g +:+ "_" +:+ r)).
    cbn [String.prefix] in *.
    destruct (ascii_dec "/" c); [|reflexivity].
    destruct g; discriminate Hg. }
  rewrite !join_relative by (apply Hrel || reflexivity).
  lazy beta iota delta [String.append]. fold String.append. congruence.
Qed.

(** The copy is made, and the pair processed, when the image is a
    regular file and its destination can be written. *)
Lemma process_pair_runs (s : state) (group_dir ann_file base_name test_image_path : string)
    (f : file) :
  let dst := dest_image_path group_dir test_image_path in
  files s !! test_image_path = Some (File f) ->
  files s !! dst <> Some Dir -> test_image_path <> dst ->
  is_empty dst = false -> parent_ok (files s) dst = true ->
  exists s', process_pair group_dir ann_file base_name test_image_path s = Ok s' /\
             total_processed s' = S (total_processed s).
Proof.
  intros dst Hsrc Hnd Hne Hdst Hpar. unfold process_pair, copy2, copy_target.
  fold dst. rewrite Hsrc.
  assert (Hd : isdir (files s) dst = false).
  { unfold isdir. destruct (files s !! dst) as [[|g]|]; congruence. }
  rewrite Hd, bool_decide_eq_false_2 by assumption.
  rewrite Hdst, Hpar. cbn [orb negb].
  assert (E : match files s !! dst with
              | Some Dir => Raise IsADirectoryError
              | _ => Ok (<[dst := File f]> (files s))
              end = Ok (<[dst := File f]> (files s)))
    by (destruct (files s !! dst) as [[|g]|]; congruence).
  rewrite E. cbn [mbind result_bind].
  destruct (convert_annotation_file _ _ _ _) as [ok st2]. eauto.
Qed.

Lemma sample_run :
  exists s, collect_deeppcb_dataset sample_fs = Ok (true, s) /\
    total_processed s = 2 /\ total_converted s = 1 /\
    is_Some (files s !! "DeepPCB/all_images/group1_0002_test.jpg") /\
    files s !! "DeepPCB/labels/group1_0002.txt" = None /\
    is_Some (files s !! "DeepPCB/all_images/group1_0001_test.jpg") /\
    is_Some (files s !! "DeepPCB/labels/group1_0001.txt").
Proof.
  eexists. split; [vm_compute; reflexivity|].
  cbn [total_processed total_converted files].
  repeat split; try (vm_compute; eauto; fail).
Qed.

(** C10: in the collector the image of a matched pair is copied into
    the unified image directory before the annotation is converted and
    stays there when the conversion fails; when the failure is that the
    image cannot be opened, no label file is written for it.  So the
    image directory can hold an image without a label file, as the
    sample run shows. *)
Theorem image_kept_when_conversion_fails :
  (forall (s s' : state) (group_dir ann_file base_name test_image_path : string),
      startswith "/" group_dir = false ->
      isdir (files s) (dest_image_path group_dir test_image_path) = false ->
      process_pair group_dir ann_file base_name test_image_path s = Ok s' ->
      exists f,
        files s !! test_image_path = Some (File f) /\
        files s' !! dest_image_path group_dir test_image_path = Some (File f) /\
        total_processed s' = S (total_processed s) /\
        (f_image f = None ->
         total_converted s' = total_converted s /\
         files s' !! dest_label_path group_dir base_name
           = files s !! dest_label_path group_dir base_name)) /\
  (exists s, collect_deeppcb_dataset sample_fs = Ok (true, s) /\
     is_Some (files s !! "DeepPCB/all_images/group1_0002_test.jpg") /\
     files s !! "DeepPCB/labels/group1_0002.txt" = None).
Proof.
  split.
  - intros s s' g ann base img Hg Hnd Hrun. unfold process_pair in Hrun.
    destruct (copy2 (files s) img (dest_image_path g img)) as [st1|e] eqn:Hcopy;
      [|discriminate].
    cbn [mbind result_bind] in Hrun.
    destruct (copy2_Ok _ _ _ _ Hcopy) as (f & Hsrc & Hne & ->).
    unfold copy_target in *. rewrite Hnd in *.
    pose proof (dest_paths_differ g base img Hg) as Hdiff.
    set (dimg := dest_image_path g img) in *. set (dlab := dest_label_path g base) in *.
    set (st1 := <[dimg := File f]> (files s)) in *.
    pose proof (convert_frame st1 ann img dlab dimg ltac:(congruence)) as Hframe.
    destruct (convert_annotation_file st1 ann img dlab) as [ok st2] eqn:Hconv.
    injection Hrun as <-. cbn [files total_processed total_converted].
    exists f. split; [exact Hsrc|]. split.
    { cbn [snd] in Hframe. rewrite Hframe. apply lookup_insert_eq. }
    split; [reflexivity|].
    intros Hnone.
    assert (Himg : image_size st1 img = Raise UnidentifiedImageError).
    { unfold image_size, st1. rewrite lookup_insert_ne by congruence.
      now rewrite Hsrc, Hnone. }
    rewrite (convert_unopened_image _ _ _ _ _ Himg) in Hconv. injection Hconv as <- <-.
    split; [reflexivity|]. unfold st1. now rewrite lookup_insert_ne by congruence.
  - destruct sample_run as (s & Hrun & _ & _ & Himg & Hlab & _). eauto.
Qed.

Lemma image_kept_when_conversion_fails_witness :
  exists f,
    files (mkState prepared_fs 0 0 []) !! "DeepPCB/PCBData/group1/g1/0002_test.jpg"
      = Some (File f) /\
    files sample_step !! dest_image_path "group1" "DeepPCB/PCBData/group1/g1/0002_test.jpg"
      = Some (File f) /\
    total_processed sample_step = S (total_processed (mkState prepared_fs 0 0 [])) /\
    (f_image f = None ->
     total_converted sample_step = total_converted (mkState prepared_fs 0 0 []) /\
     files sample_step !! dest_label_path "group1" "0002"
       = files (mkState prepared_fs 0 0 []) !! dest_label_path "group1" "0002").
Proof.
  apply (proj1 image_kept_when_conversion_fails (mkState prepared_fs 0 0 []) sample_step
           "group1" "DeepPCB/PCBData/group1/g1_not/0002.txt" "0002"
           "DeepPCB/PCBData/group1/g1/0002_test.jpg").
  - reflexivity.
  - vm_compute. reflexivity.
  - vm_compute. reflexivity.
Defined.














Example empty_run_fails : empty_run.1 = false /\ printed empty_run.2 = [NoPCBData].
Proof. vm_compute. split; reflexivity. Qed.

Example sample_split :
  exists st s log,
    collect_deeppcb_dataset sample_fs = Ok (true, s) /\
    split_default (files s) (fun k => k) = Ok (true, st, log) /\
    log = [FoundPairs 1; ProcessingSplit "train" 0; ProcessingSplit "val" 0;
           ProcessingSplit "test" 1; SplitCompleted 0 0 1].
Proof.
  eexists _, _, _. split; [vm_compute; reflexivity|].
  split; [vm_compute; reflexivity | reflexivity].
Qed.

End PipelineFacts.

(** ** Directory listings list each entry once *)

Module ListingFacts.
Import Py PyStr FS Splitter.
Local Open Scope string_scope.

Lemma substring_all (s : string) : String.substring 0 (String.length s) s = s.
Proof. induction s as [|c s IH]; cbn; [reflexivity | now rewrite IH]. Qed.

Lemma prefix_split (p : string) :
  forall k, String.prefix p k = true ->
            k = p +:+ String.substring (String.length p) (String.length k - String.length p) k.
Proof.
  induction p as [|a p IH]; intros k Hk.
  - cbn. rewrite Nat.sub_0_r. now rewrite substring_all.
  - destruct k as [|b k]; [discriminate|]. cbn in Hk.
    destruct (ascii_dec a b) as [->|]; [|discriminate].
    change (String b k = String b (p +:+ String.substring (String.length p)
                                      (String.length k - String.length p) k)).
    f_equal. now apply IH.
Qed.

(** An entry of a directory is the directory's path, a separator and
    the entry's name. *)
Lemma child_name_Some (d k n : string) : child_name d k = Some n -> k = d +:+ "/" +:+ n.
Proof.
  unfold child_name, startswith.
  destruct (String.prefix (d +:+ "/") k) eqn:Hp; [|discriminate].
  apply prefix_split in Hp.
  assert (Hlen : String.length (d +:+ "/") = String.length d + 1).
  { clear. induction d as [|c d IH]; [reflexivity|].
    change (S (String.length (d +:+ "/")) = S (String.length d + 1)). now rewrite IH. }
  rewrite Hlen in Hp.
  destruct (is_empty _ || contains_char slash _); [discriminate|].
  intros [= <-]. rewrite Hp at 1.
  generalize (String.substring (String.length d + 1)
                (String.length k - (String.length d + 1)) k) as r.
  clear. intros r. induction d as [|c d IH]; [reflexivity|].
  change (String c ((d +:+ "/") +:+ r) = String c (d +:+ "/" +:+ r)). now rewrite IH.
Qed.

Lemma NoDup_omap_retract {A B : Type} (f : A -> option B) (g : B -> A) (l : list A) :
  (forall x y, f x = Some y -> x = g y) -> NoDup l -> NoDup (omap f l).
Proof.
  intros Hfg. induction 1 as [|x l Hx Hnd IH]; [constructor|].
  change (omap f (x :: l)) with (match f x with Some y => y :: omap f l | None => omap f l end).
  destruct (f x) as [y|] eqn:Hy; [|exact IH].
  constructor; [|exact IH].
  intros Hin. apply list_elem_of_omap in Hin as (x' & Hx' & Hy').
  apply Hfg in Hy, Hy'. apply Hx. congruence.
Qed.

Lemma entries_NoDup (st : fs) (d : string) : NoDup (entries st d).
Proof.
  unfold entries, listdir. destruct (st !! d) as [[|f]|]; try constructor.
  apply (NoDup_omap_retract _ (fun n => d +:+ "/" +:+ n)).
  - intros k n. apply child_name_Some.
  - apply NoDup_fst_map_to_list.
Qed.

Lemma glob_suffix_NoDup (st : fs) (d suffix : string) : NoDup (glob_suffix st d suffix).
Proof.
  unfold glob_suffix. apply NoDup_fmap_2_strong.
  - intros n1 n2 _ _ H. apply (inj (String.app d)) in H. now apply (inj (String.app "/")) in H.
  - apply NoDup_filter, entries_NoDup.
Qed.

(** The valid pairs of the splitter are distinct: each label file is in
    at most one pair. *)
Lemma valid_pairs_NoDup (st : fs) (image_dir labels_dir : string) :
  NoDup (valid_pairs_of st image_dir (glob_suffix st labels_dir ".txt")).
Proof.
  unfold valid_pairs_of. apply (NoDup_omap_retract _ snd).
  - intros l [img l']. unfold pair_for.
    destruct (image_for st image_dir l); cbn; congruence.
  - apply glob_suffix_NoDup.
Qed.

End ListingFacts.

(** ** The annotation converter: failures and unguarded paths *)

Module ConverterEdges.
Import Py PyStr Binary64 Binary64Facts FS Converter Samples ConverterFacts ConverterRuns.
Local Open Scope string_scope.
Local Open Scope Z_scope.


Lemma emit_stops (w h : Z) (pre post : list string) (bad : string) (e : exn)
    (written : list string) :
  emit w h pre = (written, true) -> convert_line w h bad = Raise e ->
  emit w h (pre ++ bad :: post)%list = (written, false).
Proof.
  intros Hpre Hbad. rewrite emit_app, Hpre. cbn [emit]. rewrite Hbad.
  now rewrite app_nil_r.
Qed.




(** When a line raises an exception the inner handler does not catch,
    both converters return [False] and leave behind an output file that
    holds the records of the lines before that one, and nothing of the
    lines after it. *)
Theorem partial_output_on_error (st st1 : fs) (ann img out : string) (w h : Z)
    (pre post : list string) (bad : string) (e : exn) (written : list string) :
  image_size st img = Ok (w, h) ->
  open_read st ann = Ok (pre ++ bad :: post)%list ->
  open_write st out = Ok st1 -> ann <> out ->
  emit w h pre = (written, true) -> convert_line w h bad = Raise e ->
  convert_annotation_file st ann img out = (false, <[out := File (text_file written)]> st) /\
  convert_annotation st ann img out = (false, <[out := File (text_file written)]> st).
Proof.
  intros Himg Hann Hout Hne Hpre Hbad.
  destruct (convert_opened st st1 ann img out w h _ Himg Hann Hout) as [_ Heq].
  rewrite bool_decide_eq_false_2 in Heq by exact Hne.
  rewrite (emit_stops w h pre post bad e written Hpre Hbad) in Heq.
  cbn [fst snd] in Heq. split; [exact Heq|]. rewrite <- Heq. apply convert_annotation_eq.
Qed.

Lemma partial_output_on_error_witness :
  convert_annotation_file overflow_fs "a.txt" "a.jpg" "out.txt" =
    (false, <["out.txt" := File (text_file
               ["0 0.093750 0.187500 0.156250 0.312500" +:+ newline])]> overflow_fs) /\
  convert_annotation overflow_fs "a.txt" "a.jpg" "out.txt" =
    (false, <["out.txt" := File (text_file
               ["0 0.093750 0.187500 0.156250 0.312500" +:+ newline])]> overflow_fs).
Proof.
  apply (partial_output_on_error overflow_fs
           (<["out.txt" := File (text_file [])]> overflow_fs)
           "a.txt" "a.jpg" "out.txt" 640 640
           ["10,20,110,220,1"] ["1,2,3,4,5"] overflow_line OverflowError).
  - reflexivity.
  - reflexivity.
  - reflexivity.
  - discriminate.
  - vm_compute. reflexivity.
  - vm_compute. reflexivity.
Defined.



(** The output path is not checked against the inputs.  When it is the
    annotation file itself, the file is emptied before it is read: the
    converter returns [True] and every annotation is lost.  When it is
    the image, the image is replaced by the label text and can no
    longer be opened. *)
Theorem output_path_not_guarded (st : fs) (ann img : string) (w h : Z)
    (lines : list string) :
  image_size st img = Ok (w, h) -> open_read st ann = Ok lines ->
  (is_ok (open_write st ann) = true ->
   convert_annotation_file st ann img ann = (true, <[ann := File (text_file [])]> st)) /\
  (is_ok (open_write st img) = true -> ann <> img -> (emit w h lines).2 = true ->
   exists written,
     convert_annotation_file st ann img img = (true, <[img := File (text_file written)]> st) /\
     image_size (<[img := File (text_file written)]> st) img = Raise UnidentifiedImageError).
Proof.
  intros Himg Hann. split.
  - intros Hout. destruct (is_ok_Ok _ Hout) as [st1 Hst1].
    destruct (convert_opened st st1 ann img ann w h lines Himg Hann Hst1) as [_ Heq].
    rewrite bool_decide_eq_true_2 in Heq by reflexivity. exact Heq.
  - intros Hout Hne Hfin. destruct (is_ok_Ok _ Hout) as [st1 Hst1].
    destruct (convert_opened st st1 ann img img w h lines Himg Hann Hst1) as [_ Heq].
    rewrite bool_decide_eq_false_2 in Heq by exact Hne.
    rewrite Hfin in Heq. eexists. split; [exact Heq|].
    unfold image_size. now rewrite lookup_insert_eq.
Qed.

Lemma output_path_not_guarded_witness :
  convert_annotation_file demo_fs "a.txt" "a.jpg" "a.txt"
    = (true, <["a.txt" := File (text_file [])]> demo_fs) /\
  exists written,
    convert_annotation_file demo_fs "a.txt" "a.jpg" "a.jpg"
      = (true, <["a.jpg" := File (text_file written)]> demo_fs) /\
    image_size (<["a.jpg" := File (text_file written)]> demo_fs) "a.jpg"
      = Raise UnidentifiedImageError.
Proof.
  destruct (output_path_not_guarded demo_fs "a.txt" "a.jpg" 640 640
              (["1 2 3 4 5"] ++ "a,b,c" :: ["10,20,110,220,1"]) eq_refl eq_refl)
    as [Hann Himg].
  split.
  - apply Hann. reflexivity.
  - apply Himg; [reflexivity | discriminate | vm_compute; reflexivity].
Defined.

End ConverterEdges.

(** ** The dataset splitter: which splits are empty *)

Module SplitterSizes.
Import Py PyStr Binary64 Binary64Facts FS PyList PyListFacts Splitter SplitterFacts.
Local Open Scope Z_scope.

(** [int(n * x)] for a list length [n] and a ratio [x = a * 2^-53] in
    [[1/2, 1)]: the result is the integer part of [n * x] up to the
    rounding of the product. *)
Lemma int_of_product_bounds (n : Z) (a : positive) :
  0 < n < 2 ^ 53 -> 2 ^ 52 <= Zpos a < 2 ^ 53 ->
  exists i,
    int_of_product n (S754_finite false a (-53)) = Ok i /\
    0 <= i /\
    i * 2 ^ 106 <= n * Zpos a * (2 ^ 53 + 1) /\
    n * Zpos a * (2 ^ 53 - 1) < (i + 1) * 2 ^ 106.
Proof.
  intros Hn Ha.
  assert (Hd : Zdigits2 n <= 53) by (apply Zdigits2_le; lia).
  pose proof (Zdigits2_pos n ltac:(lia)) as Hdpos.
  unfold int_of_product, int_mul_float, float_of_int.
  destruct (of_Z_pos n ltac:(lia) ltac:(lia)) as (mn & en & -> & Hmn & Hen & Hex).
  destruct (Hex ltac:(lia)) as [Hmn_eq Hen_eq]. clear Hex.
  cbn [mbind result_bind].
  destruct (fmul_pos mn en a (-53) Hmn Ha ltac:(lia)) as (m & e & W & -> & Hm & He & HW & Hr).
  cbn [int_of_float cond_Zopp].
  rewrite (trunc_pos_scale (Zpos m) e (en + -53) W) by lia.
  eexists. split; [reflexivity|].
  assert (HW0 : 0 <= W).
  { rewrite <- HW. apply Z.mul_nonneg_nonneg; [lia | apply Z.pow_nonneg; lia]. }
  split; [now apply trunc_pos_nonneg|].
  unfold trunc_pos. destruct (Z.leb_spec 0 (en + -53)) as [|_]; [lia|].
  remember (2 ^ (53 - Zdigits2 n)) as P eqn:HP.
  assert (HPpos : 0 < P) by (subst P; apply Z.pow_pos_nonneg; lia).
  assert (Hpow : 2 ^ (- (en + -53)) = 2 ^ 53 * P).
  { subst P. rewrite <- Z.pow_add_r by lia. f_equal. lia. }
  rewrite Hpow.
  remember (W / (2 ^ 53 * P)) as i eqn:Hi.
  assert (Hdiv : i * (2 ^ 53 * P) <= W < (i + 1) * (2 ^ 53 * P)).
  { subst i. pose proof (Z.mul_div_le W (2 ^ 53 * P) ltac:(lia)).
    pose proof (Z.mul_succ_div_gt W (2 ^ 53 * P) ltac:(lia)). lia. }
  rewrite Hmn_eq in Hr.
  remember (n * Zpos a) as na eqn:Hna.
  assert (Hr' : 2 ^ 53 * Z.abs (W - na * P) <= na * P).
  { replace (na * P) with (n * P * Zpos a) by (subst na; ring). exact Hr. }
  assert (Hna0 : 0 <= na) by (subst na; lia).
  clear Hr Hmn_eq Hi HW Hpow HP Hna.
  split.
  - apply (Z.mul_le_mono_pos_r _ _ P HPpos).
    assert (2 ^ 53 * W <= na * P * (2 ^ 53 + 1)) by lia.
    replace (i * 2 ^ 106 * P) with (2 ^ 53 * (i * (2 ^ 53 * P))) by ring.
    replace (na * (2 ^ 53 + 1) * P) with (na * P * (2 ^ 53 + 1)) by ring.
    lia.
  - apply (Z.mul_lt_mono_pos_r P _ _ HPpos).
    assert (na * P * (2 ^ 53 - 1) <= 2 ^ 53 * W) by lia.
    replace ((i + 1) * 2 ^ 106 * P) with (2 ^ 53 * ((i + 1) * (2 ^ 53 * P))) by ring.
    replace (na * (2 ^ 53 - 1) * P) with (na * P * (2 ^ 53 - 1)) by ring.
    lia.
Qed.

(** The two split indices, for the ratio [0.7] and for the second
    ratio of either splitter ([0.7 + 0.2] as computed, or the literal
    [0.9]). *)
Lemma split_shape (n : Z) (b : positive) :
  0 < n < 2 ^ 53 ->
  b = 8106479329266892%positive \/ b = 8106479329266893%positive ->
  exists i j,
    int_of_product n lit_0_7 = Ok i /\
    int_of_product n (S754_finite false b (-53)) = Ok j /\
    0 <= i <= j /\ j < n /\
    (1 <= i /\ i < j <-> 4 <= n) /\
    (i = 0 <-> n = 1).
Proof.
  intros Hn Hb.
  assert (Hcases : n = 1 \/ n = 2 \/ n = 3 \/ n = 4 \/ n = 5 \/ 6 <= n) by lia.
  destruct Hcases as [->|[->|[->|[->|[->|Hbig]]]]].
  1-5: destruct Hb as [->| ->]; eexists _, _;
       (split; [vm_compute; reflexivity|]); (split; [vm_compute; reflexivity|]); lia.
  destruct (int_of_product_bounds n 6305039478318694 Hn ltac:(lia))
    as (i & Hi & Hi0 & Hiu & Hil).
  destruct (int_of_product_bounds n b Hn ltac:(destruct Hb as [->| ->]; lia))
    as (j & Hj & Hj0 & Hju & Hjl).
  exists i, j. split; [exact Hi|]. split; [exact Hj|].
  change (2 ^ 106) with 81129638414606681695789005144064 in *.
  change (2 ^ 53) with 9007199254740992 in *.
  destruct Hb as [->| ->]; lia.
Qed.

Lemma cut_sizes {A : Type} (raw : nat -> nat) (l : list A) (i j : Z) :
  0 <= i <= j -> j <= Z.of_nat (length l) ->
  Z.of_nat (length (train (cut (shuffle raw l) i j))) = i /\
  Z.of_nat (length (val (cut (shuffle raw l) i j))) = j - i /\
  Z.of_nat (length (test (cut (shuffle raw l) i j))) = Z.of_nat (length l) - j.
Proof.
  intros Hij Hj.
  destruct (cut_lengths (shuffle raw l) i j Hij) as (H1 & H2 & H3);
    [rewrite shuffle_length; exact Hj|].
  rewrite H1, H2, H3, shuffle_length. lia.
Qed.

(** For every non-empty list of fewer than [2^53] valid pairs and every
    shuffle, in both splitters: the test split is never empty; the
    training and validation splits are both non-empty exactly when
    there are at least four pairs; and the training split is empty
    exactly when there is a single pair. *)
Theorem splits_nonempty_iff {A : Type} (raw : nat -> nat) (valid_pairs : list A) :
  valid_pairs <> [] -> Z.of_nat (length valid_pairs) < 2 ^ 53 ->
  exists s s3,
    split_pairs raw lit_0_7 lit_0_2 valid_pairs = Ok s /\
    step3_split_pairs raw valid_pairs = Ok s3 /\
    (0 < length (test s))%nat /\ (0 < length (test s3))%nat /\
    ((0 < length (train s))%nat /\ (0 < length (val s))%nat
       <-> (4 <= length valid_pairs)%nat) /\
    ((0 < length (train s3))%nat /\ (0 < length (val s3))%nat
       <-> (4 <= length valid_pairs)%nat) /\
    (length (train s) = 0%nat <-> length valid_pairs = 1%nat) /\
    (length (train s3) = 0%nat <-> length valid_pairs = 1%nat).
Proof.
  intros Hne Hmax.
  assert (Hn : 0 < Z.of_nat (length valid_pairs) < 2 ^ 53)
    by (destruct valid_pairs; [congruence | cbn [length] in *; lia]).
  destruct (split_shape _ 8106479329266892 Hn ltac:(now left))
    as (i & j & Hi & Hj & Hij & Hjn & Hmid & Hone).
  destruct (split_shape _ 8106479329266893 Hn ltac:(now right))
    as (i3 & j3 & Hi3 & Hj3 & Hij3 & Hjn3 & Hmid3 & Hone3).
  unfold split_pairs, step3_split_pairs, split_indices.
  rewrite shuffle_length, ratio_sum.
  fold lit_0_9 in Hj3. rewrite Hi in Hi3. injection Hi3 as <-.
  rewrite Hi, Hj, Hj3. cbn [mbind result_bind].
  eexists _, _. split; [reflexivity|]. split; [reflexivity|].
  destruct (cut_sizes raw valid_pairs i j Hij ltac:(lia)) as (T & V & S).
  destruct (cut_sizes raw valid_pairs i j3 Hij3 ltac:(lia)) as (T3 & V3 & S3).
  repeat split; lia.
Qed.

Lemma splits_nonempty_iff_witness :
  exists s s3,
    split_pairs (fun k => k) lit_0_7 lit_0_2 [1; 2; 3]%nat = Ok s /\
    step3_split_pairs (fun k => k) [1; 2; 3]%nat = Ok s3 /\
    (0 < length (test s))%nat /\ (0 < length (test s3))%nat /\
    ((0 < length (train s))%nat /\ (0 < length (val s))%nat <-> (4 <= 3)%nat) /\
    ((0 < length (train s3))%nat /\ (0 < length (val s3))%nat <-> (4 <= 3)%nat) /\
    (length (train s) = 0%nat <-> 3%nat = 1%nat) /\
    (length (train s3) = 0%nat <-> 3%nat = 1%nat).
Proof.
  apply (splits_nonempty_iff (fun k => k) [1; 2; 3]%nat).
  - discriminate.
  - vm_compute. reflexivity.
Defined.

End SplitterSizes.

(** ** Strings and paths *)

Module PathFacts.
Import Py PyStr FS.
Local Open Scope string_scope.

Lemma append_cons (x : ascii) (a b : string) : String x a +:+ b = String x (a +:+ b).
Proof. reflexivity. Qed.

Lemma append_nil_l (b : string) : "" +:+ b = b.
Proof. reflexivity. Qed.

Lemma append_assoc (a b c : string) : (a +:+ b) +:+ c = a +:+ (b +:+ c).
Proof. induction a as [|x a IH]; [reflexivity|]. rewrite !append_cons. now rewrite IH. Qed.

Lemma append_nil_r (a : string) : a +:+ "" = a.
Proof. induction a as [|x a IH]; [reflexivity|]. rewrite append_cons. now rewrite IH. Qed.

Lemma length_append (a b : string) :
  String.length (a +:+ b) = String.length a + String.length b.
Proof.
  induction a as [|x a IH]; [reflexivity|].
  rewrite append_cons. cbn [String.length]. now rewrite IH.
Qed.

Lemma prefix_append (a b : string) : String.prefix a (a +:+ b) = true.
Proof.
  induction a as [|x a IH]; [now destruct b|].
  rewrite append_cons. cbn [String.prefix]. destruct (ascii_dec x x); [exact IH | congruence].
Qed.

Lemma prefix_length (p k : string) :
  String.prefix p k = true -> String.length p <= String.length k.
Proof.
  revert k. induction p as [|x p IH]; intros [|y k]; cbn [String.prefix String.length];
    try lia; try discriminate.
  destruct (ascii_dec x y); [|discriminate]. intros H. apply IH in H. lia.
Qed.

(** A path below a directory is not the directory itself. *)
Lemma under_neq (d p : string) : startswith (d +:+ "/") p = true -> p <> d.
Proof.
  intros H ->. apply prefix_length in H. rewrite length_append in H.
  cbn [String.length] in H. lia.
Qed.

Lemma contains_char_append (c : ascii) (a b : string) :
  contains_char c (a +:+ b) = contains_char c a || contains_char c b.
Proof.
  induction a as [|x a IH]; [reflexivity|].
  rewrite append_cons. cbn [contains_char]. rewrite IH. now rewrite orb_assoc.
Qed.

Lemma basename_no_slash (p : string) : contains_char slash (basename p) = false.
Proof.
  induction p as [|c p IH]; [reflexivity|].
  cbn [basename]. destruct (contains_char slash (String c p)) eqn:Hs; [|exact Hs].
  destruct (Ascii.eqb c slash && negb (contains_char slash p)) eqn:Hlast; [|exact IH].
  apply andb_true_iff in Hlast as [_ Hp]. now apply negb_true_iff in Hp.
Qed.

Lemma no_slash_relative (b : string) :
  contains_char slash b = false -> startswith "/" b = false.
Proof.
  destruct b as [|c b]; [reflexivity|]. cbn [contains_char]. intros H.
  apply orb_false_iff in H as [Hc _]. unfold startswith. cbn [String.prefix].
  destruct (ascii_dec "/" c) as [<-|]; [discriminate|reflexivity].
Qed.

Lemma rev_app_append (a b : string) : String.rev_app a b = String.rev a +:+ b.
Proof.
  revert b. unfold String.rev. induction a as [|x a IH]; intros b; [reflexivity|].
  cbn [String.rev_app]. rewrite IH, (IH (String x "")), append_assoc. reflexivity.
Qed.

Lemma rev_append (a b : string) : String.rev (a +:+ b) = String.rev b +:+ String.rev a.
Proof.
  induction a as [|x a IH].
  - rewrite append_nil_l. now rewrite append_nil_r.
  - rewrite append_cons. unfold String.rev at 1 3. cbn [String.rev_app].
    rewrite !rev_app_append, IH, append_assoc. reflexivity.
Qed.

Lemma endswith_append (a s : string) : endswith s (a +:+ s) = true.
Proof. unfold endswith. rewrite rev_append. apply prefix_append. Qed.

End PathFacts.

(** ** The dataset splitter: what it writes *)

Module SplitterEffects.
Import Py PyStr FS PyList Splitter PipelineFacts PathFacts PrepareData Scenarios.
Local Open Scope string_scope.

(** A loop keeps what each of its iterations keeps. *)
Lemma for_each_preserves {S X : Type} (I : S -> Prop) (body : S -> X -> result S)
    (xs : list X) :
  (forall s x s', I s -> body s x = Ok s' -> I s') ->
  forall s s', I s -> for_each body xs s = Ok s' -> I s'.
Proof.
  intros Hstep. induction xs as [|x xs IH]; intros s s' Hs; cbn [for_each].
  - now intros [= <-].
  - destruct (body s x) as [s1|] eqn:Hb; cbn [mbind result_bind]; [|discriminate].
    apply IH. exact (Hstep s x s1 Hs Hb).
Qed.

(** Membership in a list given in full, from membership in a part of it. *)
Ltac in_list H :=
  apply list_elem_of_In; apply list_elem_of_In in H; cbn in H |- *; tauto.

(** [os.makedirs] touches the directories of the chain only, and turns
    each of them into a directory. *)
Lemma makedirs_spec (chain : list string) :
  forall st st', makedirs st chain = Ok st' ->
    (forall p, p ∉ chain -> st' !! p = st !! p) /\
    (forall d, d ∈ chain -> st' !! d = Some Dir) /\
    (forall d, st !! d = Some Dir -> st' !! d = Some Dir).
Proof.
  induction chain as [|c chain IH]; intros st st'; cbn [makedirs].
  - intros [= <-]. split; [|split]; [auto | intros d Hd; inversion Hd | auto].
  - intros Hrun.
    assert (Hrest : makedirs (<[c := Dir]> st) chain = Ok st')
      by (destruct (st !! c) as [[|f]|]; [exact Hrun | discriminate | exact Hrun]).
    destruct (IH _ _ Hrest) as (Hframe & Hdirs & Hkept).
    assert (Hc : st' !! c = Some Dir) by (apply Hkept, lookup_insert_eq).
    split; [|split].
    + intros p Hp. rewrite Hframe by (intros ?; apply Hp; now right).
      apply lookup_insert_ne. intros ->. apply Hp. now left.
    + intros d Hd. apply elem_of_cons in Hd as [->|Hd]; [exact Hc | now apply Hdirs].
    + intros d Hd. destruct (decide (c = d)) as [->|Hne]; [exact Hc|].
      apply Hkept. now rewrite lookup_insert_ne.
Qed.

Lemma make_output_dirs_spec (st st' : fs) :
  make_output_dirs st = Ok st' ->
  (forall p, p ∉ created_dirs -> st' !! p = st !! p) /\
  (forall d, d ∈ created_dirs -> st' !! d = Some Dir) /\
  (forall d, st !! d = Some Dir -> st' !! d = Some Dir).
Proof.
  unfold make_output_dirs, output_dirs. cbn [for_each].
  repeat match goal with
         | |- context [makedirs ?s ?c] =>
             let st1 := fresh "st" in let H := fresh "H" in
             destruct (makedirs s c) as [st1|] eqn:H; cbn [mbind result_bind];
             [apply makedirs_spec in H as (? & ? & ?) | discriminate]
         end.
  intros [= <-]. unfold created_dirs, required_dirs. split; [|split].
  - intros p Hp.
    repeat match goal with
           | H : forall q, q ∉ _ -> _ !! q = _ !! q |- _ =>
               rewrite (H p) by (intros Hin; apply Hp; in_list Hin); clear H
           end.
    reflexivity.
  - intros d Hd. apply list_elem_of_In in Hd. cbn in Hd.
    repeat destruct Hd as [<-|Hd]; try contradiction;
      repeat first
        [ match goal with
          | H : forall d, d ∈ _ -> ?s !! d = Some Dir |- ?s !! _ = Some Dir =>
              apply H; apply list_elem_of_In; cbn; tauto
          end
        | match goal with
          | H : forall d, _ !! d = Some Dir -> ?s !! d = Some Dir |- ?s !! _ = Some Dir =>
              apply H
          end ].
  - auto 20.
Qed.

(** [shutil.copy2] never replaces a directory. *)
Lemma copy2_keeps_dirs (st st1 : fs) (src dst d : string) :
  copy2 st src dst = Ok st1 -> st !! d = Some Dir -> st1 !! d = Some Dir.
Proof.
  unfold copy2. destruct (st !! src) as [[|f]|]; try discriminate.
  case_bool_decide; [discriminate|].
  destruct (st !! copy_target st src dst) as [[|g]|] eqn:Ht; try discriminate;
    (destruct (is_empty _ || negb _); [discriminate|]); intros [= <-] Hd;
    (rewrite lookup_insert_ne; [exact Hd | congruence]).
Qed.

(** A copy into [d/name] lands below [d], also when [d/name] is a
    directory and the copy goes inside it. *)
Lemma copy_target_under (st : fs) (src d x : string) :
  is_empty d = false -> endswith "/" d = false ->
  startswith (d +:+ "/") (copy_target st src (join d (basename x))) = true.
Proof.
  intros Hd1 Hd2.
  rewrite (join_relative d (basename x))
    by (try apply no_slash_relative, basename_no_slash; assumption).
  unfold copy_target, startswith.
  destruct (isdir st _).
  - unfold join. rewrite (no_slash_relative _ (basename_no_slash src)).
    destruct (is_empty _ || endswith "/" _).
    + replace ((d +:+ "/" +:+ basename x) +:+ basename src)
        with ((d +:+ "/") +:+ (basename x +:+ basename src))
        by (now rewrite !append_assoc).
      apply prefix_append.
    + replace ((d +:+ "/" +:+ basename x) +:+ "/" +:+ basename src)
        with ((d +:+ "/") +:+ (basename x +:+ "/" +:+ basename src))
        by (now rewrite !append_assoc).
      apply prefix_append.
  - replace (d +:+ "/" +:+ basename x) with ((d +:+ "/") +:+ basename x)
      by (now rewrite append_assoc).
    apply prefix_append.
Qed.

Lemma copy2_frame (st st1 : fs) (src d x p : string) :
  is_empty d = false -> endswith "/" d = false ->
  copy2 st src (join d (basename x)) = Ok st1 ->
  startswith (d +:+ "/") p = false -> st1 !! p = st !! p.
Proof.
  intros Hd1 Hd2 Hcopy Hp.
  destruct (copy2_Ok _ _ _ _ Hcopy) as (f & _ & _ & ->).
  apply lookup_insert_ne. intros <-.
  rewrite (copy_target_under st src d x Hd1 Hd2) in Hp. discriminate.
Qed.

Lemma copy_split_spec (images_dst labels_dst : string) (pairs : list (string * string))
    (st st' : fs) :
  is_empty images_dst = false -> endswith "/" images_dst = false ->
  is_empty labels_dst = false -> endswith "/" labels_dst = false ->
  copy_split st (images_dst, labels_dst) pairs = Ok st' ->
  (forall p, startswith (images_dst +:+ "/") p = false ->
             startswith (labels_dst +:+ "/") p = false -> st' !! p = st !! p) /\
  (forall d, st !! d = Some Dir -> st' !! d = Some Dir).
Proof.
  intros Hi1 Hi2 Hl1 Hl2 Hrun. unfold copy_split in Hrun. cbn [fst snd] in Hrun.
  split.
  - intros p Hpi Hpl.
    apply (for_each_preserves (fun s => s !! p = st !! p) (copy_pair images_dst labels_dst)
             pairs) with (s := st) (s' := st');
      [|reflexivity | exact Hrun].
    intros s [image_path label_path] s' Hs. unfold copy_pair.
    destruct (copy2 s image_path _) as [s1|] eqn:E1; cbn [mbind result_bind]; [|discriminate].
    intros E2.
    rewrite (copy2_frame _ _ _ _ _ p Hl1 Hl2 E2 Hpl).
    rewrite (copy2_frame _ _ _ _ _ p Hi1 Hi2 E1 Hpi). exact Hs.
  - intros d Hd.
    apply (for_each_preserves (fun s => s !! d = Some Dir) (copy_pair images_dst labels_dst)
             pairs) with (s := st) (s' := st');
      [|exact Hd | exact Hrun].
    intros s [image_path label_path] s' Hs. unfold copy_pair.
    destruct (copy2 s image_path _) as [s1|] eqn:E1; cbn [mbind result_bind]; [|discriminate].
    intros E2. eapply copy2_keeps_dirs; [exact E2|]. eapply copy2_keeps_dirs; eassumption.
Qed.

(** The copies of the three splits, as both splitters make them. *)
Lemma copies_spec (s : splits (string * string)) (st st' : fs) :
  (st1 ← copy_split st ("DeepPCB/images/train", "DeepPCB/labels/train") (train s);
   st2 ← copy_split st1 ("DeepPCB/images/val", "DeepPCB/labels/val") (val s);
   copy_split st2 ("DeepPCB/images/test", "DeepPCB/labels/test") (test s)) = Ok st' ->
  (forall p, Forall (fun d => startswith (d +:+ "/") p = false) required_dirs ->
             st' !! p = st !! p) /\
  (forall d, st !! d = Some Dir -> st' !! d = Some Dir).
Proof.
  destruct (copy_split st _ (train s)) as [st1|] eqn:E1; cbn [mbind result_bind]; [|discriminate].
  destruct (copy_split st1 _ (val s)) as [st2|] eqn:E2; cbn [mbind result_bind]; [|discriminate].
  intros E3.
  apply copy_split_spec in E1 as [F1 D1]; try reflexivity.
  apply copy_split_spec in E2 as [F2 D2]; try reflexivity.
  apply copy_split_spec in E3 as [F3 D3]; try reflexivity.
  split; [|auto].
  intros p Hp. unfold required_dirs in Hp.
  repeat match goal with
         | H : Forall _ (_ :: _) |- _ => apply Forall_cons in H as [? H]
         end.
  rewrite F3, F2, F1 by assumption. reflexivity.
Qed.

(** Whatever it returns, [split_unified_dataset] creates or replaces
    entries only below the six output directories, besides creating
    those directories and their parents: the unified images and labels
    it reads are left as they were. *)
Theorem split_writes_confined (st st' : fs) (raw : nat -> nat) (image_dir labels_dir : string)
    (train_ratio val_ratio test_ratio : Binary64.float) (b : bool)
    (log : list Splitter.event) (p : string) :
  split_unified_dataset st raw image_dir labels_dir train_ratio val_ratio test_ratio
    = Ok (b, st', log) ->
  p ∉ created_dirs ->
  Forall (fun d => startswith (d +:+ "/") p = false) required_dirs ->
  st' !! p = st !! p.
Proof.
  unfold split_unified_dataset. intros Hrun Hp Hout.
  destruct (make_output_dirs st) as [st1|] eqn:Hmk; cbn [mbind result_bind] in Hrun;
    [|discriminate].
  apply make_output_dirs_spec in Hmk as (Hframe & _ & _).
  rewrite <- (Hframe p Hp).
  case_bool_decide; [now injection Hrun as _ <- _|].
  case_bool_decide; [now injection Hrun as _ <- _|].
  destruct (split_pairs _ _ _ _) as [s|]; cbn [mbind result_bind] in Hrun; [|discriminate].
  destruct (copy_split st1 _ (train s)) as [st2|] eqn:E1; cbn [mbind result_bind] in Hrun;
    [|discriminate].
  destruct (copy_split st2 _ (val s)) as [st3|] eqn:E2; cbn [mbind result_bind] in Hrun;
    [|discriminate].
  destruct (copy_split st3 _ (test s)) as [st4|] eqn:E3; cbn [mbind result_bind] in Hrun;
    [|discriminate].
  injection Hrun as _ <- _.
  apply (copies_spec s st1 st4); [|exact Hout].
  rewrite E1. cbn [mbind result_bind]. rewrite E2. cbn [mbind result_bind]. exact E3.
Qed.

Lemma split_writes_confined_witness :
  split_run.1.2 !! "DeepPCB/labels/group1_0001.txt"
    = unified_fs !! "DeepPCB/labels/group1_0001.txt".
Proof.
  apply (split_writes_confined unified_fs _ (fun k => k) "DeepPCB/all_images" "DeepPCB/labels"
           Binary64.lit_0_7 Binary64.lit_0_2 Binary64.lit_0_1 split_run.1.1 split_run.2).
  - vm_compute. reflexivity.
  - intros Hin. apply list_elem_of_In in Hin. cbn in Hin.
    repeat destruct Hin as [Hin|Hin]; try discriminate Hin. exact Hin.
  - repeat constructor.
Defined.

(** Whatever it returns, also [False], [split_unified_dataset] has
    created the six output directories and their parents; and when it
    returns [False] it has changed nothing else. *)
Theorem failed_split_leaves_directories (st st' : fs) (raw : nat -> nat)
    (image_dir labels_dir : string) (train_ratio val_ratio test_ratio : Binary64.float)
    (b : bool) (log : list Splitter.event) :
  split_unified_dataset st raw image_dir labels_dir train_ratio val_ratio test_ratio
    = Ok (b, st', log) ->
  (forall d, d ∈ created_dirs -> st' !! d = Some Dir) /\
  (b = false -> forall p, p ∉ created_dirs -> st' !! p = st !! p).
Proof.
  unfold split_unified_dataset. intros Hrun.
  destruct (make_output_dirs st) as [st1|] eqn:Hmk; cbn [mbind result_bind] in Hrun;
    [|discriminate].
  apply make_output_dirs_spec in Hmk as (Hframe & Hdirs & _).
  case_bool_decide; [injection Hrun as _ <- _; now split|].
  case_bool_decide; [injection Hrun as _ <- _; now split|].
  destruct (split_pairs _ _ _ _) as [s|]; cbn [mbind result_bind] in Hrun; [|discriminate].
  destruct (copy_split st1 _ (train s)) as [st2|] eqn:E1; cbn [mbind result_bind] in Hrun;
    [|discriminate].
  destruct (copy_split st2 _ (val s)) as [st3|] eqn:E2; cbn [mbind result_bind] in Hrun;
    [|discriminate].
  destruct (copy_split st3 _ (test s)) as [st4|] eqn:E3; cbn [mbind result_bind] in Hrun;
    [|discriminate].
  injection Hrun as <- <- _. split; [|discriminate].
  intros d Hd. apply (copies_spec s st1 st4); [|now apply Hdirs].
  rewrite E1. cbn [mbind result_bind]. rewrite E2. cbn [mbind result_bind]. exact E3.
Qed.

Lemma failed_split_leaves_directories_witness :
  (forall d, d ∈ created_dirs -> empty_split_run.1.2 !! d = Some Dir) /\
  (empty_split_run.1.1 = false ->
   forall p, p ∉ created_dirs -> empty_split_run.1.2 !! p = (∅ : fs) !! p).
Proof.
  apply (failed_split_leaves_directories ∅ _ (fun k => k) "DeepPCB/all_images" "DeepPCB/labels"
           Binary64.lit_0_7 Binary64.lit_0_2 Binary64.lit_0_1 _ empty_split_run.2).
  vm_compute. reflexivity.
Defined.

End SplitterEffects.

(** ** The dataset splitter: how images and labels are paired *)

Module PairingFacts.
Import Py PyStr FS PyList Splitter ListingFacts PathFacts Scenarios.
Local Open Scope string_scope.

(** What a directory listing or a pattern returns is on the disk. *)
Lemma entries_exist (st : fs) (d n : string) :
  n ∈ entries st d -> is_Some (st !! (d +:+ "/" +:+ n)).
Proof.
  unfold entries, listdir.
  destruct (st !! d) as [[|f]|]; [|intros H; inversion H|intros H; inversion H].
  intros Hn. apply list_elem_of_omap in Hn as (k & Hk & Hc).
  apply child_name_Some in Hc as <-.
  apply list_elem_of_fmap in Hk as ([k' v] & -> & Hkv).
  apply elem_of_map_to_list in Hkv. cbn. now rewrite Hkv.
Qed.

Lemma glob_exists (st : fs) (d suffix p : string) :
  p ∈ glob_suffix st d suffix -> exists_ st p = true.
Proof.
  unfold glob_suffix. intros Hp. apply list_elem_of_fmap in Hp as (n & -> & Hn).
  apply list_elem_of_filter in Hn as [_ Hn].
  unfold exists_. apply bool_decide_eq_true_2. now apply entries_exist.
Qed.

Lemma image_for_exists (st : fs) (image_dir label_file img : string) :
  image_for st image_dir label_file = Some img -> exists_ st img = true.
Proof.
  unfold image_for.
  destruct (List.find (exists_ st) _) as [found|] eqn:Hexact.
  - intros [= <-]. now apply List.find_some in Hexact as [_ ?].
  - intros Hfind. apply List.find_some in Hfind as [Hin _].
    apply list_elem_of_In in Hin. eapply glob_exists, Hin.
Qed.

(** The pairs built from a duplicate-free list of label files. *)
Lemma pairs_of_labels (st : fs) (image_dir : string) (labels : list string) :
  NoDup labels ->
  Forall (fun pr => pr.2 ∈ labels /\ exists_ st pr.1 = true)
         (valid_pairs_of st image_dir labels) /\
  NoDup (valid_pairs_of st image_dir labels).*2 /\
  length (valid_pairs_of st image_dir labels) <= length labels.
Proof.
  unfold valid_pairs_of. induction 1 as [|l labels Hl Hnd (IHf & IHn & IHl)].
  - repeat split; [constructor | constructor | reflexivity].
  - assert (Htail : Forall (fun pr => pr.2 ∈ l :: labels /\ exists_ st pr.1 = true)
                           (omap (pair_for st image_dir) labels)).
    { eapply Forall_impl; [exact IHf|]. intros pr [? ?]. split; [now right | assumption]. }
    change (omap (pair_for st image_dir) (l :: labels))
      with (match pair_for st image_dir l with
            | Some pr => pr :: omap (pair_for st image_dir) labels
            | None => omap (pair_for st image_dir) labels
            end).
    destruct (pair_for st image_dir l) as [pr|] eqn:Hpr.
    + assert (Hpr' : pr.2 = l /\ exists_ st pr.1 = true).
      { unfold pair_for in Hpr. destruct (image_for st image_dir l) as [img|] eqn:Himg;
          [|discriminate]. injection Hpr as <-. split; [reflexivity|].
        eapply image_for_exists, Himg. }
      destruct Hpr' as [Hsnd Himg]. repeat split.
      * constructor; [|exact Htail]. split; [rewrite Hsnd; now left | exact Himg].
      * cbn [fmap list_fmap]. rewrite Hsnd. constructor; [|exact IHn].
        intros Hin. apply Hl. apply list_elem_of_fmap in Hin as (pr' & -> & Hpr'').
        rewrite Forall_forall in IHf. now apply IHf.
      * cbn [length]. lia.
    + repeat split; [exact Htail | exact IHn | cbn [length]; lia].
Qed.

(** Every pair the splitter builds is made of a label file matched by
    the pattern and of an image that is on the disk; a label file is
    in at most one pair, so there are at most as many pairs as label
    files.  Nothing prevents an image from serving several labels. *)
Theorem valid_pairs_sound (st : fs) (image_dir labels_dir : string) :
  let label_files := glob_suffix st labels_dir ".txt" in
  let valid_pairs := valid_pairs_of st image_dir label_files in
  Forall (fun pr => pr.2 ∈ label_files /\
                      exists_ st pr.1 = true /\ exists_ st pr.2 = true) valid_pairs /\
  NoDup valid_pairs.*2 /\
  length valid_pairs <= length label_files.
Proof.
  intros label_files valid_pairs.
  destruct (pairs_of_labels st image_dir label_files (glob_suffix_NoDup _ _ _))
    as (Hf & Hn & Hl).
  split; [|split; assumption].
  eapply Forall_impl; [exact Hf|]. intros pr [Hin Himg].
  repeat split; [exact Hin | exact Himg | eapply glob_exists, Hin].
Qed.

Lemma split_on_first (g b : string) :
  contains_char "_" g = false ->
  split_on "_" (g +:+ "_" +:+ b) = g :: split_on "_" b.
Proof.
  induction g as [|x g IH]; [reflexivity|].
  cbn [contains_char]. intros H. apply orb_false_iff in H as [Hx Hg].
  rewrite append_cons. cbn [split_on].
  rewrite Ascii.eqb_sym, Hx. now rewrite (IH Hg).
Qed.

(** The token fallback of the splitter: a label named [g_b] whose
    exact-name image is missing is paired with the first listed image
    as soon as the name of that image contains [g], whatever [b] is.
    So all such labels of a group get one and the same image. *)
Theorem group_labels_share_one_image (st : fs) (image_dir label_file g b first : string)
    (rest : list string) :
  (splitext (basename label_file)).1 = g +:+ "_" +:+ b ->
  3 < String.length g -> contains_char "_" g = false ->
  List.find (exists_ st) (possible_image_names image_dir (g +:+ "_" +:+ b)) = None ->
  glob_suffix st image_dir "" = first :: rest ->
  is_substring g (splitext (basename first)).1 = true ->
  image_for st image_dir label_file = Some first.
Proof.
  intros Hbase Hlen Hg Hexact Hglob Hsub.
  unfold image_for. rewrite Hbase, Hexact, Hglob. cbn [List.find].
  unfold shares_token. rewrite (split_on_first g b Hg). cbn [existsb].
  apply Nat.ltb_lt in Hlen. now rewrite Hlen, Hsub.
Qed.

Lemma group_labels_share_one_image_witness :
  image_for unified_fs "DeepPCB/all_images" "DeepPCB/labels/group1_0001.txt"
    = Some "DeepPCB/all_images/group1_0003_test.jpg" /\
  image_for unified_fs "DeepPCB/all_images" "DeepPCB/labels/group1_0004.txt"
    = Some "DeepPCB/all_images/group1_0003_test.jpg".
Proof.
  split.
  - apply (group_labels_share_one_image unified_fs "DeepPCB/all_images"
             "DeepPCB/labels/group1_0001.txt" "group1" "0001"
             "DeepPCB/all_images/group1_0003_test.jpg"
             ["DeepPCB/all_images/group1_0001_test.jpg";
              "DeepPCB/all_images/group1_0002_test.jpg";
              "DeepPCB/all_images/group1_0004_test.jpg"]);
      solve [vm_compute; reflexivity | cbn; lia].
  - apply (group_labels_share_one_image unified_fs "DeepPCB/all_images"
             "DeepPCB/labels/group1_0004.txt" "group1" "0004"
             "DeepPCB/all_images/group1_0003_test.jpg"
             ["DeepPCB/all_images/group1_0001_test.jpg";
              "DeepPCB/all_images/group1_0002_test.jpg";
              "DeepPCB/all_images/group1_0004_test.jpg"]);
      solve [vm_compute; reflexivity | cbn; lia].
Defined.

End PairingFacts.

(** ** The one-file pipeline: where it differs from the two scripts *)

Module SetupFacts.
Import Py PyStr Binary64 FS PyList Collector Splitter FixAndSetup Scenarios.
Local Open Scope string_scope.

Lemma step3_split_nothing (raw : nat -> nat) :
  step3_split_pairs raw ([] : list (string * string)) = Ok (mkSplits [] [] []).
Proof. vm_compute. reflexivity. Qed.

(** [step3_split_dataset] fails only when there is no unified image.
    When there are images but none of them has a label file, it
    returns [True] having copied nothing, where the splitter of
    prepare_data.py returns [False]. *)
Theorem step3_succeeds_without_pairs (st st1 : fs) (raw : nat -> nat) :
  make_output_dirs st = Ok st1 ->
  let image_files := glob_suffix st1 unified_images ".jpg" in
  (image_files = [] -> step3_split_dataset st raw = Ok (false, st1, None)) /\
  (image_files <> [] -> omap (labelled st1) image_files = [] ->
   step3_split_dataset st raw = Ok (true, st1, Some (mkSplits [] [] []))) /\
  (forall b st' s, step3_split_dataset st raw = Ok (b, st', s) ->
                   (b = false <-> image_files = [])).
Proof.
  intros Hmk image_files. unfold step3_split_dataset. rewrite Hmk.
  cbn [mbind result_bind]. fold image_files.
  split; [|split].
  - intros ->. reflexivity.
  - intros Hne Hnone. rewrite bool_decide_eq_false_2 by exact Hne.
    rewrite Hnone, step3_split_nothing. reflexivity.
  - intros b st' s. case_bool_decide as Himg.
    + intros [= <- _ _]. tauto.
    + destruct (step3_split_pairs _ _) as [sp|]; cbn [mbind result_bind]; [|discriminate].
      destruct (copy_split st1 _ (train sp)) as [st2|]; cbn [mbind result_bind]; [|discriminate].
      destruct (copy_split st2 _ (val sp)) as [st3|]; cbn [mbind result_bind]; [|discriminate].
      destruct (copy_split st3 _ (test sp)) as [st4|]; cbn [mbind result_bind]; [|discriminate].
      intros [= <- _ _]. split; [discriminate | contradiction].
Qed.

Lemma step3_succeeds_without_pairs_witness :
  step3_split_dataset unlabelled_fs (fun k => k)
    = Ok (true, unlabelled_fs, Some (mkSplits [] [] [])).
Proof.
  destruct (step3_succeeds_without_pairs unlabelled_fs unlabelled_fs (fun k => k))
    as (_ & H & _).
  - vm_compute. reflexivity.
  - apply H; [vm_compute; discriminate | vm_compute; reflexivity].
Defined.

Lemma makedirs_existing (st : fs) (chain : list string) :
  Forall (fun d => st !! d = Some Dir) chain -> makedirs st chain = Ok st.
Proof.
  induction 1 as [|d chain Hd _ IH]; [reflexivity|].
  cbn [makedirs]. rewrite Hd, insert_id by exact Hd. exact IH.
Qed.

(** A regular file whose name starts with [group], listed first among
    the groups of the raw data directory, makes the first two steps of
    fix_and_setup_dataset.py, hence its [main], raise
    [NotADirectoryError]: they list every such entry as a directory.
    The collector of convert_deeppcb.py skips that entry. *)
Theorem stray_group_file (st : fs) (raw : nat -> nat) (root g : string)
    (names rest : list string) (f : file) :
  Forall (fun d => st !! d = Some Dir) ["DeepPCB"; unified_images; unified_labels] ->
  listdir st pcb_data_dir = Ok names ->
  filter (fun d => startswith "group" d = true) names = g :: rest ->
  st !! join pcb_data_dir g = Some (File f) ->
  step1_analyze_raw_data st = Raise NotADirectoryError /\
  step2_collect_and_convert st = Raise NotADirectoryError /\
  main st raw root = Raise NotADirectoryError /\
  g ∉ group_dirs st names.
Proof.
  intros Hdirs Hnames Hgroups Hfile.
  assert (Hlist : listdir st (join pcb_data_dir g) = Raise NotADirectoryError)
    by (unfold listdir; now rewrite Hfile).
  assert (Hstep1 : step1_analyze_raw_data st = Raise NotADirectoryError).
  { unfold step1_analyze_raw_data.
    assert (Hex : exists_ st pcb_data_dir = true).
    { unfold exists_. apply bool_decide_eq_true_2. unfold listdir in Hnames.
      destruct (st !! pcb_data_dir) as [[|?]|]; [eauto | discriminate | discriminate]. }
    rewrite Hex, Hnames. cbn [negb mbind result_bind]. rewrite Hgroups.
    lazy beta iota zeta. rewrite Hlist. reflexivity. }
  split; [exact Hstep1|]. split; [|split].
  - unfold step2_collect_and_convert.
    apply Forall_cons in Hdirs as [H0 Hdirs]. apply Forall_cons in Hdirs as [H1 Hdirs].
    apply Forall_cons in Hdirs as [H2 _].
    rewrite (makedirs_existing st ["DeepPCB"; unified_images]) by (repeat constructor; assumption).
    cbn [mbind result_bind].
    rewrite (makedirs_existing st ["DeepPCB"; unified_labels]) by (repeat constructor; assumption).
    cbn [mbind result_bind]. rewrite Hnames. cbn [mbind result_bind].
    rewrite Hgroups. cbn [for_each].
    assert (Hgroup : collect_group (mkTally st 0 0) g = Raise NotADirectoryError)
      by (unfold collect_group; cbn [disk]; now rewrite Hlist).
    rewrite Hgroup. reflexivity.
  - unfold main. now rewrite Hstep1.
  - unfold group_dirs. intros Hin. apply list_elem_of_filter in Hin as [Hg _].
    apply andb_true_iff in Hg as [_ Hg]. unfold isdir in Hg. now rewrite Hfile in Hg.
Qed.

Lemma stray_group_file_witness :
  step1_analyze_raw_data stray_fs = Raise NotADirectoryError /\
  step2_collect_and_convert stray_fs = Raise NotADirectoryError /\
  main stray_fs (fun k => k) "/data/DeepPCB" = Raise NotADirectoryError /\
  "group_notes.txt" ∉ group_dirs stray_fs ["group_notes.txt"].
Proof.
  apply (stray_group_file stray_fs (fun k => k) "/data/DeepPCB" "group_notes.txt"
           ["group_notes.txt"] [] (text_file ["about the groups"])).
  - repeat constructor.
  - vm_compute. reflexivity.
  - vm_compute. reflexivity.
  - vm_compute. reflexivity.
Defined.

End SetupFacts.

(** ** The normalisation: boxes given the wrong way round *)

Module NormalizeEdges.
Import Py PyStr Binary64 Binary64Facts FS Converter NormalizeFacts.
Local Open Scope Z_scope.

(** Rounding does not look at the sign. *)
Lemma binary_round_aux_opp (s : bool) (m e : Z) (l : location) :
  binary_round_aux prec emax (negb s) m e l = SFopp (binary_round_aux prec emax s m e l).
Proof.
  unfold binary_round_aux.
  destruct (shr_fexp prec emax m e l) as [mrs' e'].
  destruct (shr_fexp prec emax _ e' loc_Exact) as [mrs'' e''].
  destruct (shr_m mrs'') as [|p|p]; [reflexivity| |reflexivity].
  destruct (e'' <=? emax - prec); reflexivity.
Qed.

Lemma fdiv_opp (s : bool) (m : positive) (e : Z) (y : float) :
  fdiv (S754_finite (negb s) m e) y = SFopp (fdiv (S754_finite s m e) y).
Proof.
  unfold fdiv, SFdiv. destruct y as [sy|sy| |sy my ey].
  - now destruct s, sy.
  - now destruct s, sy.
  - reflexivity.
  - destruct (SFdiv_core_binary prec emax (Zpos m) e (Zpos my) ey) as [[mz ez] lz].
    rewrite <- binary_round_aux_opp. now destruct s, sy.
Qed.

(** [(-a) / b] on integers is the opposite of [a / b], for [a <> 0]. *)
Lemma int_truediv_opp (a b : Z) :
  a <> 0 ->
  int_truediv (- a) b =
    match int_truediv a b with
    | Ok f => Ok (SFopp f)
    | Raise e => Raise e
    end.
Proof.
  intros Ha. unfold int_truediv. destruct (b =? 0); [reflexivity|].
  destruct (Z.eqb_spec a 0) as [|_]; [contradiction|].
  destruct (Z.eqb_spec (- a) 0) as [|_]; [lia|].
  replace (- a <? 0) with (negb (a <? 0))
    by (destruct (Z.ltb_spec a 0), (Z.ltb_spec (- a) 0); reflexivity || lia).
  rewrite Z.abs_opp, fdiv_opp.
  destruct (fdiv (S754_finite (a <? 0) _ 0) _); reflexivity.
Qed.

Lemma SF2Q_opp (f : float) : (SF2Q (SFopp f) == - SF2Q f)%Q.
Proof.
  destruct f as [s|s| |s m e]; cbn [SFopp SF2Q]; try reflexivity.
  destruct s; cbn [negb]; ring.
Qed.

(** Swapping the two corners of a box keeps the centre and negates the
    width and the height: a box whose corners come in the wrong order
    is not rejected or reordered, it is written with negative sizes. *)
Theorem swapped_corners_negate_size (x1 y1 x2 y2 w h : Z) (cx cy bw bh : float) :
  x1 <> x2 -> y1 <> y2 ->
  normalize x1 y1 x2 y2 w h = Ok (cx, cy, bw, bh) ->
  normalize x2 y2 x1 y1 w h = Ok (cx, cy, SFopp bw, SFopp bh) /\
  (SF2Q (SFopp bw) == - SF2Q bw)%Q /\ (SF2Q (SFopp bh) == - SF2Q bh)%Q.
Proof.
  intros Hx Hy Hn. split; [|split; apply SF2Q_opp].
  revert Hn. unfold normalize.
  rewrite (Z.add_comm x2 x1), (Z.add_comm y2 y1).
  destruct (int_truediv (x1 + x2) 2) as [sx|]; cbn [mbind result_bind]; [|discriminate].
  destruct (float_truediv_int sx w) as [cx'|]; cbn [mbind result_bind]; [|discriminate].
  destruct (int_truediv (y1 + y2) 2) as [sy|]; cbn [mbind result_bind]; [|discriminate].
  destruct (float_truediv_int sy h) as [cy'|]; cbn [mbind result_bind]; [|discriminate].
  replace (x1 - x2) with (- (x2 - x1)) by ring.
  replace (y1 - y2) with (- (y2 - y1)) by ring.
  rewrite (int_truediv_opp (x2 - x1) w) by lia.
  rewrite (int_truediv_opp (y2 - y1) h) by lia.
  destruct (int_truediv (x2 - x1) w) as [bw'|]; cbn [mbind result_bind]; [|discriminate].
  destruct (int_truediv (y2 - y1) h) as [bh'|]; cbn [mbind result_bind]; [|discriminate].
  intros [= <- <- <- <-]. reflexivity.
Qed.

Lemma swapped_corners_negate_size_witness :
  normalize 110 220 10 20 640 480
    = Ok (S754_finite false 6755399441055744 (-56),
          S754_finite false 4503599627370496 (-54),
          SFopp (S754_finite false 5629499534213120 (-55)),
          SFopp (S754_finite false 7505999378950827 (-54))) /\
  (SF2Q (SFopp (S754_finite false 5629499534213120 (-55)))
     == - SF2Q (S754_finite false 5629499534213120 (-55)))%Q /\
  (SF2Q (SFopp (S754_finite false 7505999378950827 (-54)))
     == - SF2Q (S754_finite false 7505999378950827 (-54)))%Q.
Proof.
  apply (swapped_corners_negate_size 10 20 110 220 640 480).
  - lia.
  - lia.
  - vm_compute. reflexivity.
Defined.

End NormalizeEdges.

(** ** Class tables, configuration files and the verification steps *)

Module ScriptFacts.
Import Py PyStr FS PyList Converter Splitter ConverterFacts PathFacts SplitterEffects Scenarios.
Local Open Scope string_scope.

(** The identifiers the converters write for the raw classes 1 to 6
    are exactly the six identifiers of the class mapping file and of
    the configuration of fix_and_setup_dataset.py, each hit by one raw
    class; the raw class 0 is written as 0 too, like the raw class 1. *)
Theorem remapped_ids_are_the_mapped_classes :
  (forall c, (1 <= c <= 6)%Z ->
     exists name, (remap_class c, name) ∈ ConvertDeepPCB.class_mapping) /\
  (forall i name, (i, name) ∈ ConvertDeepPCB.class_mapping ->
     remap_class (i + 1) = i /\ (1 <= i + 1 <= 6)%Z /\
     forall c, (1 <= c <= 6)%Z -> remap_class c = i -> c = (i + 1)%Z) /\
  FixAndSetup.names = ConvertDeepPCB.class_mapping /\
  remap_class 0 = remap_class 1.
Proof.
  split; [|split; [|split; reflexivity]].
  - intros c Hc.
    assert (Hcases : (c = 1 \/ c = 2 \/ c = 3 \/ c = 4 \/ c = 5 \/ c = 6)%Z) by lia.
    unfold ConvertDeepPCB.class_mapping.
    destruct Hcases as [->|[->|[->|[->|[->| ->]]]]]; eexists; cbn;
      rewrite !elem_of_cons; eauto 10.
  - intros i name Hin. unfold ConvertDeepPCB.class_mapping in Hin.
    rewrite !elem_of_cons in Hin.
    assert (Hi : (0 <= i <= 5)%Z).
    { destruct Hin as [H|[H|[H|[H|[H|[H|H]]]]]]; try (injection H as -> _; lia).
      inversion H. }
    split; [|split; [lia|]].
    + unfold remap_class. destruct (Z.ltb_spec 0 (i + 1)); lia.
    + intros c Hc. unfold remap_class. destruct (Z.ltb_spec 0 c); lia.
Qed.

(** The class names of the configuration file prepare_data.py writes
    are those of its [names:] line; compared by identifier with the
    class mapping of convert_deeppcb.py, they agree on class 5 only. *)
Theorem class_names_disagree :
  last PrepareData.dataset_config =
    Some ("names: [" +:+
          String.concat ", " ((fun n => "'" +:+ n +:+ "'") <$> PrepareData.names) +:+
          "]" +:+ newline) /\
  length PrepareData.names = length ConvertDeepPCB.class_mapping /\
  forall (i : nat) (name : string),
    ConvertDeepPCB.class_mapping !! i = Some (Z.of_nat i, name) ->
    (PrepareData.names !! i = Some name <-> i = 5%nat).
Proof.
  split; [vm_compute; reflexivity|]. split; [reflexivity|].
  intros i name Hi.
  destruct i as [|[|[|[|[|[|i]]]]]]; cbn in Hi; try discriminate Hi;
    injection Hi as <-; cbn; split; intros H; try discriminate H; try lia; reflexivity.
Qed.

Lemma remapped_ids_are_the_mapped_classes_witness :
  exists name, (remap_class 3, name) ∈ ConvertDeepPCB.class_mapping.
Proof. apply (proj1 remapped_ids_are_the_mapped_classes 3%Z). lia. Defined.

Lemma class_names_disagree_witness :
  PrepareData.names !! 0%nat = Some "open" <-> 0%nat = 5%nat.
Proof.
  apply (proj2 (proj2 class_names_disagree) 0%nat "open"). reflexivity.
Defined.

Lemma write_all_spec (p : string) (lines : list string) :
  forall (st : fs) (f : file),
    st !! p = Some (File f) ->
    ConvertDeepPCB.write_all st p lines =
      <[p := File (mkFile (f_lines f ++ lines) (f_image f))]> st.
Proof.
  unfold ConvertDeepPCB.write_all.
  induction lines as [|l lines IH]; intros st f Hp; cbn [fold_left].
  - rewrite app_nil_r. destruct f. now rewrite insert_id.
  - unfold write_line at 2. rewrite Hp.
    rewrite (IH _ (mkFile (f_lines f ++ [l]) (f_image f))) by apply lookup_insert_eq.
    cbn [f_lines f_image]. rewrite insert_insert_eq, <- app_assoc. reflexivity.
Qed.

Lemma create_dataset_yaml_spec (st st' : fs) :
  PrepareData.create_dataset_yaml st = Ok st' ->
  st' = <[PrepareData.dataset_yaml := File (text_file PrepareData.dataset_config)]> st.
Proof.
  unfold PrepareData.create_dataset_yaml.
  destruct (open_write st PrepareData.dataset_yaml) as [st1|] eqn:Hopen;
    cbn [mbind result_bind]; [|discriminate].
  apply open_write_Ok in Hopen as (-> & _). intros Hst.
  assert (E : ConvertDeepPCB.write_all
                (<[PrepareData.dataset_yaml := File (text_file [])]> st)
                PrepareData.dataset_yaml PrepareData.dataset_config = st') by congruence.
  rewrite <- E.
  rewrite (write_all_spec _ _ _ (text_file [])) by apply lookup_insert_eq.
  cbn [f_lines f_image text_file app]. now rewrite insert_insert_eq.
Qed.

(** The two ways a run of the splitter ends. *)
Lemma split_run_cases (st st' : fs) (raw : nat -> nat) (image_dir labels_dir : string)
    (train_ratio val_ratio test_ratio : Binary64.float) (b : bool)
    (log : list Splitter.event) :
  split_unified_dataset st raw image_dir labels_dir train_ratio val_ratio test_ratio
    = Ok (b, st', log) ->
  exists st1,
    make_output_dirs st = Ok st1 /\
    ((b = false /\ st' = st1) \/
     (b = true /\ exists s,
        (st2 ← copy_split st1 ("DeepPCB/images/train", "DeepPCB/labels/train") (train s);
         st3 ← copy_split st2 ("DeepPCB/images/val", "DeepPCB/labels/val") (val s);
         copy_split st3 ("DeepPCB/images/test", "DeepPCB/labels/test") (test s)) = Ok st' /\
        log !! 0 = Some (FoundPairs (length (valid_pairs_of st1 image_dir
                                               (glob_suffix st1 labels_dir ".txt")))) /\
        split_pairs raw train_ratio val_ratio
          (valid_pairs_of st1 image_dir (glob_suffix st1 labels_dir ".txt")) = Ok s)).
Proof.
  unfold split_unified_dataset. intros Hrun.
  destruct (make_output_dirs st) as [st1|] eqn:Hmk; cbn [mbind result_bind] in Hrun;
    [|discriminate].
  exists st1. split; [reflexivity|].
  case_bool_decide; [injection Hrun as <- <- _; now left|].
  case_bool_decide; [injection Hrun as <- <- _; now left|].
  destruct (split_pairs _ _ _ _) as [s|] eqn:Hs; cbn [mbind result_bind] in Hrun;
    [|discriminate].
  destruct (copy_split st1 _ (train s)) as [st2|] eqn:E1; cbn [mbind result_bind] in Hrun;
    [|discriminate].
  destruct (copy_split st2 _ (val s)) as [st3|] eqn:E2; cbn [mbind result_bind] in Hrun;
    [|discriminate].
  destruct (copy_split st3 _ (test s)) as [st4|] eqn:E3; cbn [mbind result_bind] in Hrun;
    [|discriminate].
  injection Hrun as <- <- <-. right. split; [reflexivity|]. exists s.
  split; [|split; [|reflexivity]].
  - rewrite E1. cbn [mbind result_bind]. rewrite E2. cbn [mbind result_bind]. exact E3.
  - reflexivity.
Qed.

(** What [main] of prepare_data.py leaves behind: nothing is touched
    when the unified data set is missing; the configuration file is not
    written when the split fails; and it is written whenever the split
    succeeds, also when the structure check that precedes it failed. *)
Theorem prepare_main_outcomes (st st' : fs) (raw : nat -> nat) (o : PrepareData.outcome) :
  PrepareData.main st raw = Ok (st', o) ->
  match o with
  | PrepareData.UnifiedDatasetNotFound =>
      st' = st /\
      (exists_ st "DeepPCB/labels" = false \/ exists_ st "DeepPCB/all_images" = false)
  | PrepareData.PreparationFailed =>
      st' !! PrepareData.dataset_yaml = st !! PrepareData.dataset_yaml
  | PrepareData.ReadyForTraining structure_ok =>
      st' !! PrepareData.dataset_yaml = Some (File (text_file PrepareData.dataset_config))
  end.
Proof.
  unfold PrepareData.main.
  destruct (negb (exists_ st "DeepPCB/labels") || negb (exists_ st "DeepPCB/all_images"))
    eqn:Hguard.
  - intros [= <- <-]. split; [reflexivity|].
    apply orb_true_iff in Hguard as [H|H]; apply negb_true_iff in H; auto.
  - unfold split_default.
    destruct (split_unified_dataset _ _ _ _ _ _ _) as [[[ok st1] log]|] eqn:Hsplit;
      cbn [mbind result_bind]; [|discriminate].
    destruct ok.
    + destruct (PrepareData.verify_dataset_structure st1) as [[structure_ok findings]|];
        cbn [mbind result_bind]; [|discriminate].
      destruct (PrepareData.create_dataset_yaml st1) as [st2|] eqn:Hyaml;
        cbn [mbind result_bind]; [|discriminate].
      intros [= <- <-]. apply create_dataset_yaml_spec in Hyaml as ->.
      apply lookup_insert_eq.
    + intros [= <- <-].
      destruct (split_run_cases _ _ _ _ _ _ _ _ _ _ Hsplit) as (st0 & Hmk & [[_ ->]|[? _]]);
        [|discriminate].
      apply make_output_dirs_spec in Hmk as (Hframe & _).
      apply Hframe. intros Hin. apply list_elem_of_In in Hin. cbn in Hin.
      repeat destruct Hin as [Hin|Hin]; try discriminate Hin. exact Hin.
Qed.

Lemma prepare_main_outcomes_witness :
  match (PrepareData.ReadyForTraining true) with
  | PrepareData.UnifiedDatasetNotFound =>
      <[PrepareData.dataset_yaml := File (text_file PrepareData.dataset_config)]>
        split_run.1.2 = unified_fs /\
      (exists_ unified_fs "DeepPCB/labels" = false \/
       exists_ unified_fs "DeepPCB/all_images" = false)
  | PrepareData.PreparationFailed =>
      <[PrepareData.dataset_yaml := File (text_file PrepareData.dataset_config)]>
        split_run.1.2 !! PrepareData.dataset_yaml = unified_fs !! PrepareData.dataset_yaml
  | PrepareData.ReadyForTraining structure_ok =>
      <[PrepareData.dataset_yaml := File (text_file PrepareData.dataset_config)]>
        split_run.1.2 !! PrepareData.dataset_yaml
        = Some (File (text_file PrepareData.dataset_config))
  end.
Proof.
  apply (prepare_main_outcomes unified_fs _ (fun k => k) (PrepareData.ReadyForTraining true)).
  vm_compute. reflexivity.
Defined.

Lemma listdir_entries (st : fs) (d : string) :
  st !! d = Some Dir -> listdir st d = Ok (entries st d).
Proof. unfold entries, listdir. now intros ->. Qed.

Lemma check_dir_step (st : fs) (all_good : bool) (log : list PrepareData.finding)
    (d : string) :
  PrepareData.check_dir st (all_good, log) d =
    match st !! d with
    | Some Dir =>
        Ok (if (length (entries st d) =? 0)%nat
            then (false, log ++ [PrepareData.Present d (length (entries st d));
                                 PrepareData.EmptyDirectory])%list
            else (all_good, log ++ [PrepareData.Present d (length (entries st d))])%list)
    | Some (File _) => Raise NotADirectoryError
    | None => Ok (false, log ++ [PrepareData.Missing d])%list
    end.
Proof.
  unfold PrepareData.check_dir, exists_.
  destruct (st !! d) as [[|f]|] eqn:Hd.
  - rewrite bool_decide_eq_true_2 by eauto.
    rewrite (listdir_entries st d Hd). cbn [mbind result_bind].
    now destruct (length (entries st d) =? 0)%nat.
  - rewrite bool_decide_eq_true_2 by eauto. unfold listdir. now rewrite Hd.
  - rewrite bool_decide_eq_false_2 by (intros [? ?]; discriminate). reflexivity.
Qed.

(** The loop of [verify_dataset_structure] over any list of
    directories. *)
Lemma check_dirs_spec (st : fs) (dirs : list string) :
  forall (all_good : bool) (log : list PrepareData.finding),
    (Exists (fun d => exists f, st !! d = Some (File f)) dirs ->
     for_each (PrepareData.check_dir st) dirs (all_good, log) = Raise NotADirectoryError) /\
    (Forall (fun d => forall f, st !! d <> Some (File f)) dirs ->
     exists log',
       for_each (PrepareData.check_dir st) dirs (all_good, log) =
         Ok (all_good &&
             forallb (fun d => isdir st d && negb (length (entries st d) =? 0)%nat) dirs,
             log')).
Proof.
  induction dirs as [|d dirs IH]; intros all_good log.
  - split; [intros H; inversion H|]. intros _. exists log. cbn. now rewrite andb_true_r.
  - cbn [for_each forallb]. rewrite check_dir_step. unfold isdir at 1.
    destruct (st !! d) as [[|f]|] eqn:Hd; cbn [mbind result_bind].
    + destruct (length (entries st d) =? 0)%nat; cbn [negb andb].
      * destruct (IH false (log ++ [PrepareData.Present d (length (entries st d));
                                    PrepareData.EmptyDirectory])%list)
          as [IHe IHf].
        split.
        -- intros Hex. apply Exists_cons in Hex as [[f Hf]|Hex]; [congruence | now apply IHe].
        -- intros Hall. apply Forall_cons in Hall as [_ Hall].
           destruct (IHf Hall) as [log' ->]. exists log'. now rewrite andb_false_r.
      * destruct (IH all_good (log ++ [PrepareData.Present d (length (entries st d))])%list)
          as [IHe IHf].
        split.
        -- intros Hex. apply Exists_cons in Hex as [[f Hf]|Hex]; [congruence | now apply IHe].
        -- intros Hall. apply Forall_cons in Hall as [_ Hall].
           destruct (IHf Hall) as [log' ->]. exists log'. reflexivity.
    + split; [reflexivity|]. intros Hall. apply Forall_cons in Hall as [Hf _].
      now destruct (Hf f).
    + cbn [andb].
      destruct (IH false (log ++ [PrepareData.Missing d])%list) as [IHe IHf].
      split.
      * intros Hex. apply Exists_cons in Hex as [[f Hf]|Hex]; [congruence | now apply IHe].
      * intros Hall. apply Forall_cons in Hall as [_ Hall].
        destruct (IHf Hall) as [log' ->]. exists log'. now rewrite andb_false_r.
Qed.

(** The verdict of [verify_dataset_structure]: it raises
    [NotADirectoryError] as soon as one of the six required paths is a
    regular file; otherwise it returns [True] exactly when each of them
    is a directory with at least one entry. *)
Theorem verification_verdict (st : fs) :
  ((exists d f, d ∈ PrepareData.required_dirs /\ st !! d = Some (File f)) ->
   PrepareData.verify_dataset_structure st = Raise NotADirectoryError) /\
  ((forall d f, d ∈ PrepareData.required_dirs -> st !! d <> Some (File f)) ->
   exists log,
     PrepareData.verify_dataset_structure st =
       Ok (forallb (fun d => isdir st d && negb (length (entries st d) =? 0)%nat)
                   PrepareData.required_dirs, log)).
Proof.
  unfold PrepareData.verify_dataset_structure.
  destruct (check_dirs_spec st PrepareData.required_dirs true []) as [He Hf].
  split.
  - intros (d & f & Hd & Hfile). apply He. apply Exists_exists. eauto.
  - intros Hnone. apply Hf. apply Forall_forall. intros d Hd f. now apply Hnone.
Qed.

Lemma verification_verdict_witness :
  PrepareData.verify_dataset_structure
    (<["DeepPCB/images/val" := File (text_file [])]> split_run.1.2)
    = Raise NotADirectoryError /\
  exists log,
    PrepareData.verify_dataset_structure split_run.1.2 =
      Ok (forallb (fun d => isdir split_run.1.2 d &&
                            negb (length (entries split_run.1.2 d) =? 0)%nat)
                  PrepareData.required_dirs, log).
Proof.
  split.
  - apply (proj1 (verification_verdict _)).
    exists "DeepPCB/images/val", (text_file []). split.
    + unfold PrepareData.required_dirs. rewrite !elem_of_cons. auto.
    + apply lookup_insert_eq.
  - apply (proj2 (verification_verdict _)).
    intros d f Hd. unfold PrepareData.required_dirs in Hd. apply list_elem_of_In in Hd.
    cbn in Hd. repeat destruct Hd as [<-|Hd]; try contradiction; vm_compute; discriminate.
Defined.

End ScriptFacts.
